(** * com.gruijter.hyundai_kia: the polling / reconciliation core of
      [drivers/generic_device.js] (class [CarDevice])

    The development embeds [doPoll], [restartDevice], [startPolling],
    [stopPolling], [onInitDevice], [setCapability], [abrpTelemetry] and
    [handleInfo] as executable Rocq functions over a small model of
    JavaScript values, and proves (or refutes) the properties the
    specification states about them.

    Modelling conventions
    - JavaScript values are [jsval].  Numbers are integers ([VNum]) plus
      [VNaN]; objects are association lists tagged with a reference, the tag
      being what [===] compares; a JSON array is an object with keys "0",
      "1", ...
    - Asynchronous calls are resolved by the environment: a [world] holds,
      for one poll cycle, what every awaited call answers and what the clock
      reads.  One call of [doPoll] is one cycle run to its end (sequential,
      non-overlapping execution); a cycle that finds [busy] set is a cycle
      started from a state in which [busy] is [true].
    - The capability listeners that send a command to the car call
      [doPoll(true)] without awaiting it and answer while that cycle is in
      flight: for them a cycle is split in [doPoll_begin], what runs before
      the call returns, and [doPoll_resume], the rest.
    - Effects are explicit: a cycle returns the new device state together
      with the list of [event]s it produced, in program order. *)

From Stdlib Require Import ZArith Bool List Lia.
From stdpp Require Import base strings gmap pretty.
Import ListNotations.

Local Open Scope string_scope.
Local Open Scope list_scope.
Local Open Scope Z_scope.
#[local] Set Warnings "-register-all".

(** ** JavaScript values *)

Inductive jsval : Type :=
| VUndef
| VNull
| VBool (b : bool)
| VNum (z : Z)
| VNaN
| VStr (s : string)
| VObj (ref : positive) (fields : list (string * jsval)).

(** ToBoolean. *)
Definition truthy (v : jsval) : bool :=
  match v with
  | VUndef | VNull | VNaN => false
  | VBool b => b
  | VNum z => negb (z =? 0)
  | VStr s => negb (String.eqb s EmptyString)
  | VObj _ _ => true
  end.

(** [!v], [a && b], [a || b] on already evaluated operands.  Where the right
    operand can throw, the program below evaluates it under the guard. *)
Definition js_not (v : jsval) : jsval := VBool (negb (truthy v)).
Definition js_and (a b : jsval) : jsval := if truthy a then b else a.
Definition js_or (a b : jsval) : jsval := if truthy a then a else b.

(** [a === b]: primitives by value, [NaN] equal to nothing, objects by
    reference. *)
Definition strict_eq (a b : jsval) : bool :=
  match a, b with
  | VUndef, VUndef => true
  | VNull, VNull => true
  | VBool x, VBool y => Bool.eqb x y
  | VNum x, VNum y => x =? y
  | VStr x, VStr y => String.eqb x y
  | VObj r _, VObj r' _ => Pos.eqb r r'
  | _, _ => false
  end.

Definition strict_neq (a b : jsval) : jsval := VBool (negb (strict_eq a b)).

Fixpoint lookup_field (k : string) (fs : list (string * jsval)) : jsval :=
  match fs with
  | [] => VUndef
  | (k', v) :: fs' => if String.eqb k k' then v else lookup_field k fs'
  end.

(** Own properties of a string: its length and its characters. *)
Definition str_prop (s k : string) : jsval :=
  if String.eqb k "length" then VNum (Z.of_nat (String.length s))
  else match find (fun i : nat => String.eqb (pretty i) k)
                  (seq 0 (String.length s)) with
       | Some i => match String.get i s with
                   | Some c => VStr (String c EmptyString)
                   | None => VUndef
                   end
       | None => VUndef
       end.

(** [v[k]] for a receiver that is neither [undefined] nor [null]. *)
Definition prop (v : jsval) (k : string) : jsval :=
  match v with
  | VObj _ fs => lookup_field k fs
  | VStr s => str_prop s k
  | _ => VUndef
  end.

Definition nullish (v : jsval) : bool :=
  match v with VUndef | VNull => true | _ => false end.

(** [Object.keys(v)] for a receiver that is neither [undefined] nor [null]. *)
Definition own_keys (v : jsval) : list string :=
  match v with
  | VObj _ fs => map fst fs
  | VStr s => map (fun i : nat => pretty i) (seq 0 (String.length s))
  | _ => []
  end.

Section Coercions.

(** StringToNumber of the language ([None] is NaN); it never decides a
    property below and is left to the caller. *)
Variable StringToNumber : string -> option Z.

Definition ToNumber (v : jsval) : option Z :=
  match v with
  | VUndef | VNaN => None
  | VNull => Some 0
  | VBool b => Some (if b then 1 else 0)
  | VNum z => Some z
  | VStr s => StringToNumber s
  | VObj _ _ => StringToNumber "[object Object]"
  end.

Definition js_mul (a b : jsval) : jsval :=
  match ToNumber a, ToNumber b with
  | Some x, Some y => VNum (x * y)
  | _, _ => VNaN
  end.

Definition js_sub (a b : jsval) : jsval :=
  match ToNumber a, ToNumber b with
  | Some x, Some y => VNum (x - y)
  | _, _ => VNaN
  end.

Definition ToPrimitive (v : jsval) : jsval :=
  match v with VObj _ _ => VStr "[object Object]" | _ => v end.

(** [a < b]: two strings compare as strings, anything else as numbers,
    and a comparison with NaN is false. *)
Definition js_lt (a b : jsval) : bool :=
  match ToPrimitive a, ToPrimitive b with
  | VStr s, VStr t => String.ltb s t
  | pa, pb => match ToNumber pa, ToNumber pb with
              | Some x, Some y => x <? y
              | _, _ => false
              end
  end.

Definition js_gt (a b : jsval) : bool := js_lt b a.

Definition js_le (a b : jsval) : bool :=
  match ToPrimitive a, ToPrimitive b with
  | VStr s, VStr t => String.leb s t
  | pa, pb => match ToNumber pa, ToNumber pb with
              | Some x, Some y => x <=? y
              | _, _ => false
              end
  end.

End Coercions.

(** ** Exceptions, events, device state *)

Inductive exn : Type :=
| TypeError (what : string)
| Rejected (what : string)
| PlainError (msg : string).

Inductive event : Type :=
| Log (msg : string)
| Inspect (v : jsval)
| ErrorLog (ctx : string) (e : exn)
| ApiLogin (ok : bool)
| ApiStatus (refresh : bool) (answer : option jsval)
| ApiLocation (answer : option jsval)
| ApiOdometer (answer : option jsval)
| ClearInterval
| SetInterval (minutes : jsval)
| SetTimeoutInit (delay : jsval)
| NewClient (options : jsval)
| RegisterListeners
| AbrpSend (lat lon speed soc charging : jsval)
| SetCapabilityValue (capability : string) (value : jsval)
| Trigger (card : string).

(** The fields of [this] that the polling core reads or writes.
    [intervalIdDevicePoll] is the armed recurring timer (with its period in
    minutes), [restartTimers] the pending [setTimeout]s of [restartDevice],
    [capabilities] the capability store of the platform: a capability the
    device has is a key of the map, its value is what was last stored. *)
Record device : Type := mkDevice {
  settings : jsval;
  vehicle : jsval;
  busy : bool;
  watchDogCounter : Z;
  lastStatus : jsval;
  lastLocation : jsval;
  lastOdometer : jsval;
  lastRefresh : jsval;
  carLastActive : jsval;
  liveData : jsval;
  allListeners : bool;
  intervalIdDevicePoll : option jsval;
  restartTimers : list jsval;
  capabilities : gmap string jsval
}.

Definition set_settings (v : jsval) (d : device) : device :=
  mkDevice v (vehicle d) (busy d) (watchDogCounter d) (lastStatus d)
    (lastLocation d) (lastOdometer d) (lastRefresh d) (carLastActive d)
    (liveData d) (allListeners d) (intervalIdDevicePoll d) (restartTimers d)
    (capabilities d).

Definition set_vehicle (v : jsval) (d : device) : device :=
  mkDevice (settings d) v (busy d) (watchDogCounter d) (lastStatus d)
    (lastLocation d) (lastOdometer d) (lastRefresh d) (carLastActive d)
    (liveData d) (allListeners d) (intervalIdDevicePoll d) (restartTimers d)
    (capabilities d).

Definition set_busy (b : bool) (d : device) : device :=
  mkDevice (settings d) (vehicle d) b (watchDogCounter d) (lastStatus d)
    (lastLocation d) (lastOdometer d) (lastRefresh d) (carLastActive d)
    (liveData d) (allListeners d) (intervalIdDevicePoll d) (restartTimers d)
    (capabilities d).

Definition set_watchDogCounter (n : Z) (d : device) : device :=
  mkDevice (settings d) (vehicle d) (busy d) n (lastStatus d)
    (lastLocation d) (lastOdometer d) (lastRefresh d) (carLastActive d)
    (liveData d) (allListeners d) (intervalIdDevicePoll d) (restartTimers d)
    (capabilities d).

Definition set_lastStatus (v : jsval) (d : device) : device :=
  mkDevice (settings d) (vehicle d) (busy d) (watchDogCounter d) v
    (lastLocation d) (lastOdometer d) (lastRefresh d) (carLastActive d)
    (liveData d) (allListeners d) (intervalIdDevicePoll d) (restartTimers d)
    (capabilities d).

Definition set_lastLocation (v : jsval) (d : device) : device :=
  mkDevice (settings d) (vehicle d) (busy d) (watchDogCounter d) (lastStatus d)
    v (lastOdometer d) (lastRefresh d) (carLastActive d)
    (liveData d) (allListeners d) (intervalIdDevicePoll d) (restartTimers d)
    (capabilities d).

Definition set_lastOdometer (v : jsval) (d : device) : device :=
  mkDevice (settings d) (vehicle d) (busy d) (watchDogCounter d) (lastStatus d)
    (lastLocation d) v (lastRefresh d) (carLastActive d)
    (liveData d) (allListeners d) (intervalIdDevicePoll d) (restartTimers d)
    (capabilities d).

Definition set_lastRefresh (v : jsval) (d : device) : device :=
  mkDevice (settings d) (vehicle d) (busy d) (watchDogCounter d) (lastStatus d)
    (lastLocation d) (lastOdometer d) v (carLastActive d)
    (liveData d) (allListeners d) (intervalIdDevicePoll d) (restartTimers d)
    (capabilities d).

Definition set_carLastActive (v : jsval) (d : device) : device :=
  mkDevice (settings d) (vehicle d) (busy d) (watchDogCounter d) (lastStatus d)
    (lastLocation d) (lastOdometer d) (lastRefresh d) v
    (liveData d) (allListeners d) (intervalIdDevicePoll d) (restartTimers d)
    (capabilities d).

Definition set_liveData (v : jsval) (d : device) : device :=
  mkDevice (settings d) (vehicle d) (busy d) (watchDogCounter d) (lastStatus d)
    (lastLocation d) (lastOdometer d) (lastRefresh d) (carLastActive d)
    v (allListeners d) (intervalIdDevicePoll d) (restartTimers d)
    (capabilities d).

Definition set_allListeners (b : bool) (d : device) : device :=
  mkDevice (settings d) (vehicle d) (busy d) (watchDogCounter d) (lastStatus d)
    (lastLocation d) (lastOdometer d) (lastRefresh d) (carLastActive d)
    (liveData d) b (intervalIdDevicePoll d) (restartTimers d)
    (capabilities d).

Definition set_intervalIdDevicePoll (t : option jsval) (d : device) : device :=
  mkDevice (settings d) (vehicle d) (busy d) (watchDogCounter d) (lastStatus d)
    (lastLocation d) (lastOdometer d) (lastRefresh d) (carLastActive d)
    (liveData d) (allListeners d) t (restartTimers d)
    (capabilities d).

Definition set_restartTimers (t : list jsval) (d : device) : device :=
  mkDevice (settings d) (vehicle d) (busy d) (watchDogCounter d) (lastStatus d)
    (lastLocation d) (lastOdometer d) (lastRefresh d) (carLastActive d)
    (liveData d) (allListeners d) (intervalIdDevicePoll d) t
    (capabilities d).

Definition set_capabilities (m : gmap string jsval) (d : device) : device :=
  mkDevice (settings d) (vehicle d) (busy d) (watchDogCounter d) (lastStatus d)
    (lastLocation d) (lastOdometer d) (lastRefresh d) (carLastActive d)
    (liveData d) (allListeners d) (intervalIdDevicePoll d) (restartTimers d)
    m.

(** ** The effect monad: state, event trace, exceptions, early return *)

Inductive result (A : Type) : Type :=
| Ok (a : A)
| Throw (e : exn)
| Return.
Arguments Ok {A} a.
Arguments Throw {A} e.
Arguments Return {A}.

Definition M (A : Type) : Type := device -> result A * device * list event.

Definition ret {A} (a : A) : M A := fun d => (Ok a, d, []).
Definition throw {A} (e : exn) : M A := fun d => (Throw e, d, []).
Definition return_ {A} : M A := fun d => (Return, d, []).

Definition bind {A B} (m : M A) (k : A -> M B) : M B :=
  fun d =>
    match m d with
    | (Ok a, d1, t1) =>
        match k a d1 with
        | (r, d2, t2) => (r, d2, t1 ++ t2)
        end
    | (Throw e, d1, t1) => (Throw e, d1, t1)
    | (Return, d1, t1) => (Return, d1, t1)
    end.

Declare Scope js_scope.
Delimit Scope js_scope with js.
Notation "x <- m ;; k" := (bind m (fun x => k))
  (at level 20, m at level 99, k at level 200, only parsing)
  : js_scope.
Notation "m ;; k" := (bind m (fun _ => k))
  (at level 100, k at level 200, only parsing)
  : js_scope.
Local Open Scope js_scope.

Definition this : M device := fun d => (Ok d, d, []).
Definition assign (f : device -> device) : M unit := fun d => (Ok tt, f d, []).
Definition emit (e : event) : M unit := fun d => (Ok tt, d, [e]).

(** [try { m } catch (error) { h error }] as the body of a function: an
    early [return] inside [m] ends the function normally. *)
Definition try_catch (m : M unit) (h : exn -> M unit) : M unit :=
  fun d =>
    match m d with
    | (Ok _, d1, t1) => (Ok tt, d1, t1)
    | (Return, d1, t1) => (Ok tt, d1, t1)
    | (Throw e, d1, t1) =>
        match h e d1 with
        | (r, d2, t2) => (r, d2, t1 ++ t2)
        end
    end.

(** [v.k]: a TypeError on [undefined] and [null]. *)
Definition get (v : jsval) (k : string) : M jsval :=
  if nullish v then throw (TypeError k) else ret (prop v k).

Definition when (c : bool) (m : M unit) : M unit := if c then m else ret tt.

(** The three components of a run. *)
Definition outcome {A} (m : M A) (d : device) : result A := fst (fst (m d)).
Definition exec {A} (m : M A) (d : device) : device := snd (fst (m d)).
Definition trace {A} (m : M A) (d : device) : list event := snd (m d).

(** ** The environment of one poll cycle *)

(** Code that is not part of [generic_device.js]: the string-to-number
    coercion of the language, [convert.getTempFromCode] of
    [./temp_convert], and the great-circle distance of the [geopoint]
    package as [distance] uses it, rounding included:
    [Math.round(from.distanceTo(to, true) * 10) / 10] on the four
    coordinates after [Number(..)].  [None] is a thrown exception. *)
Record externals : Type := mkExternals {
  StringToNumber : string -> option Z;
  getTempFromCode : jsval -> option jsval;
  roundedDistance : option Z -> option Z -> option Z -> option Z -> option jsval
}.

(** What the awaited calls of one cycle answer ([None]: the promise
    rejects) and what [Date.now()] reads at its three call sites. *)
Record world : Type := mkWorld {
  w_ready : option (list jsval);
  w_login : bool;
  w_status_cached : option jsval;
  w_status_live : option jsval;
  w_location : option jsval;
  w_odometer : option jsval;
  w_now_interval : Z;
  w_now_active : Z;
  w_now_refresh : Z;
  w_getCarLocString : jsval -> option jsval;
  w_abrp_send : bool
}.

Definition await {A} (what : string) (answer : option A) : M A :=
  match answer with
  | Some a => ret a
  | None => throw (Rejected what)
  end.

Fixpoint filterM (p : jsval -> M bool) (l : list jsval) : M (list jsval) :=
  match l with
  | [] => ret []
  | x :: l' =>
      b <- p x ;;
      r <- filterM p l' ;;
      ret (if b then x :: r else r)
  end.

(** ** The platform's capability store *)

Definition hasCapability (d : device) (c : string) : bool :=
  bool_decide (is_Some (capabilities d !! c)).

Definition getCapabilityValue (d : device) (c : string) : jsval :=
  default VNull (capabilities d !! c).

Definition setCapabilityValue (c : string) (v : jsval) : M unit :=
  emit (SetCapabilityValue c v) ;;
  assign (fun d => set_capabilities (<[c := v]> (capabilities d)) d).

Definition trigger (card : string) : M unit := emit (Trigger card).

(** ** class CarDevice *)

Section CarDevice.

Variable ext : externals.

Notation "a '<js' b" := (js_lt (StringToNumber ext) a b) (at level 70).
Notation "a '>js' b" := (js_gt (StringToNumber ext) a b) (at level 70).
Notation "a '<=js' b" := (js_le (StringToNumber ext) a b) (at level 70).
Notation "a '*js' b" := (js_mul (StringToNumber ext) a b)
  (at level 40, left associativity).
Notation "a '-js' b" := (js_sub (StringToNumber ext) a b)
  (at level 50, left associativity).

(** The handler of the client's 'ready' event (lines 57-60). *)
Definition onReady (vehicles : list jsval) : M unit :=
  d <- this ;;
  matching <- filterM (fun veh =>
                cfg <- get veh "vehicleConfig" ;;
                vin <- get cfg "vin" ;;
                mine <- get (settings d) "vin" ;;
                ret (strict_eq vin mine)) vehicles ;;
  assign (set_vehicle (hd VUndef matching)) ;;
  d <- this ;;
  when (negb (busy d) && truthy (vehicle d))
       (emit (Inspect (prop (vehicle d) "vehicleConfig"))).

(** [await this.client.login()]; a 'ready' event may be delivered while
    the call is pending.  An exception inside the (async) handler is
    lost. *)
Definition login (w : world) : M unit :=
  emit (ApiLogin (w_login w)) ;;
  match w_ready w with
  | Some vehicles => try_catch (onReady vehicles) (fun _ => ret tt)
  | None => ret tt
  end ;;
  if w_login w then ret tt else throw (Rejected "login").

Definition vehicle_status (w : world) (refresh : bool) : M jsval :=
  let answer := if refresh then w_status_live w else w_status_cached w in
  emit (ApiStatus refresh answer) ;; await "status" answer.

Definition vehicle_location (w : world) : M jsval :=
  emit (ApiLocation (w_location w)) ;; await "location" (w_location w).

Definition vehicle_odometer (w : world) : M jsval :=
  emit (ApiOdometer (w_odometer w)) ;; await "odometer" (w_odometer w).

Definition stopPolling : M unit :=
  emit ClearInterval ;;
  assign (set_intervalIdDevicePoll None).

Definition restartDevice (delay : jsval) : M unit :=
  stopPolling ;;
  let t := js_or delay (VNum (1000 * 60 * 5)) in
  emit (SetTimeoutInit t) ;;
  assign (fun d => set_restartTimers (restartTimers d ++ [t]) d).

Definition setCapability (capability : string) (value : jsval) : M unit :=
  d <- this ;;
  if hasCapability d capability then
    (* only update changed capabilities *)
    if negb (strict_eq value (getCapabilityValue d capability))
    then setCapabilityValue capability value
    else ret tt
  else ret tt.

Definition distance (location : jsval) : M jsval :=
  d <- this ;;
  lat1 <- get location "latitude" ;;
  lon1 <- get location "longitude" ;;
  lat2 <- get (settings d) "lat" ;;
  lon2 <- get (settings d) "lon" ;;
  let Number := ToNumber (StringToNumber ext) in
  await "GeoPoint"
    (roundedDistance ext (Number lat1) (Number lon1) (Number lat2) (Number lon2)).

Definition abrpTelemetry (w : world) (status location odometer : jsval)
  : M unit :=
  try_catch
    (evStatus <- get status "evStatus" ;;
     charging <- get evStatus "batteryCharge" ;;
     soc <- get evStatus "batteryStatus" ;;
     lat <- get location "latitude" ;;
     lon <- get location "longitude" ;;
     speed0 <- get location "speed" ;;
     speed <- get speed0 "value" ;;
     emit (AbrpSend lat lon speed soc charging) ;;
     if w_abrp_send w then ret tt else throw (Rejected "abrp.send"))
    (fun error => emit (ErrorLog EmptyString error)).

Definition string_of (v : jsval) : jsval :=
  match v with
  | VBool b => VStr (if b then "true" else "false")
  | VNum z => VStr (pretty z)
  | VNaN => VStr "NaN"
  | VStr s => VStr s
  | VObj _ _ => VStr "[object Object]"
  | VUndef | VNull => VUndef
  end.

(** [v.toString()]. *)
Definition toString (v : jsval) : M jsval :=
  if nullish v then throw (TypeError "toString") else ret (string_of v).

(** [Object.keys(doorOpen).reduce((closedAccu, door) =>
      closedAccu || !doorOpen[door], true)]. *)
Definition doors_reduce (doorOpen : jsval) : jsval :=
  fold_left (fun closedAccu door =>
               js_or closedAccu (js_not (prop doorOpen door)))
            (own_keys doorOpen) (VBool true).

(** The calculated property [closedLocked] (lines 300-301); the reduction
    runs, and [Object.keys] can throw, only when what precedes it in the
    conjunction is truthy. *)
Definition closedLocked (locked trunkOpen hoodOpen doorOpen : jsval)
  : M jsval :=
  let shut := js_and (js_and locked (js_not trunkOpen)) (js_not hoodOpen) in
  if truthy shut then
    if nullish doorOpen then throw (TypeError "Object.keys")
    else ret (doors_reduce doorOpen)
  else ret shut.

Definition directional (name : string) (value : jsval) : string :=
  name +:+ (if truthy value then "_true" else "_false").

Definition handleInfo_try (w : world) (status location odometer0 : jsval)
  : M unit :=
    (engine <- get status "engine" ;;
     locked <- get status "doorLock" ;;
     airCtrlOn <- get status "airCtrlOn" ;;
     defrost <- get status "defrost" ;;
     trunkOpen <- get status "trunkOpen" ;;
     hoodOpen <- get status "hoodOpen" ;;
     doorOpen <- get status "doorOpen" ;;
     evStatus <- get status "evStatus" ;;
     charger <- get evStatus "batteryPlugin" ;;
     charging <- get evStatus "batteryCharge" ;;
     EVBatteryCharge <- get evStatus "batteryStatus" ;;
     battery <- get status "battery" ;;
     batteryCharge <- get battery "batSoc" ;;
     evStatus' <- get status "evStatus" ;;
     drvDistance <- get evStatus' "drvDistance" ;;
     drv0 <- get drvDistance "0" ;;
     rangeByFuel <- get drv0 "rangeByFuel" ;;
     totalAvailableRange <- get rangeByFuel "totalAvailableRange" ;;
     range <- get totalAvailableRange "value" ;;
     airTemp <- get status "airTemp" ;;
     airTempValue <- get airTemp "value" ;;
     targetTemperature <-
       await "getTempFromCode" (getTempFromCode ext airTempValue) ;;
     tirePressureLamp <- get status "tirePressureLamp" ;;
     tirePressureLampAll <- get tirePressureLamp "tirePressureLampAll" ;;
     let alarmTirePressure := js_not (js_not tirePressureLampAll) in
     speed <- get location "speed" ;;
     let odometer := odometer0 in
     (* calculated properties *)
     closedLocked <- closedLocked locked trunkOpen hoodOpen doorOpen ;;
     d <- this ;;
     EVlevel <- get (settings d) "EVbatteryAlarmLevel" ;;
     let alarmEVBattery := VBool (EVBatteryCharge <=js EVlevel) in
     level <- get (settings d) "batteryAlarmLevel" ;;
     let alarmBattery := VBool (batteryCharge <=js level) in
     distance <- distance location ;;
     locString <- await "getCarLocString" (w_getCarLocString w location) ;;
     (* detect changes *)
     d <- this ;;
     let engineChange := strict_neq engine (getCapabilityValue d "engine") in
     let chargingChange :=
       strict_neq charging (getCapabilityValue d "charging") in
     let climateControlChange :=
       strict_neq airCtrlOn (getCapabilityValue d "climate_control") in
     let defrostChange :=
       strict_neq defrost (getCapabilityValue d "defrost") in
     (* update capabilities *)
     setCapability "measure_battery.EV" EVBatteryCharge ;;
     setCapability "measure_battery.12V" batteryCharge ;;
     setCapability "alarm_battery" (js_or alarmBattery alarmEVBattery) ;;
     setCapability "alarm_tire_pressure" alarmTirePressure ;;
     setCapability "locked" locked ;;
     setCapability "closed_locked" closedLocked ;;
     setCapability "target_temperature" targetTemperature ;;
     setCapability "defrost" defrost ;;
     setCapability "climate_control" airCtrlOn ;;
     setCapability "engine" engine ;;
     setCapability "charging" charging ;;
     chargerString <- toString charger ;;
     setCapability "charger" chargerString ;;
     odometerValue <- get odometer "value" ;;
     setCapability "odometer" odometerValue ;;
     setCapability "range" range ;;
     speedValue <- get speed "value" ;;
     setCapability "speed" speedValue ;;
     setCapability "location" locString ;;
     setCapability "distance" distance ;;
     d <- this ;;
     setCapability "live_data" (liveData d) ;;
     (* update flow triggers *)
     when (truthy engineChange) (trigger (directional "engine" engine)) ;;
     when (truthy chargingChange)
          (trigger (directional "charging" charging)) ;;
     when (truthy climateControlChange)
          (trigger (directional "climate_control" airCtrlOn)) ;;
     when (truthy defrostChange) (trigger (directional "defrost" defrost))).

Definition handleInfo (w : world) (status location odometer : jsval)
  : M unit :=
  try_catch (handleInfo_try w status location odometer)
            (fun error => emit (ErrorLog EmptyString error)).

(** *** What a publication that runs to its end writes and fires

    The derived observable properties, in the order of the
    [setCapability] calls of [handleInfo], as a function of the snapshot
    and the device; and the directional trigger of a monitored property
    against the view [d]. *)
Definition derived_properties (w : world) (d : device)
    (status location odometer : jsval) : list (string * jsval) :=
  let evStatus := prop status "evStatus" in
  let EVBatteryCharge := prop evStatus "batteryStatus" in
  let batteryCharge := prop (prop status "battery") "batSoc" in
  let locked := prop status "doorLock" in
  let shut := js_and (js_and locked (js_not (prop status "trunkOpen")))
                     (js_not (prop status "hoodOpen")) in
  let Number := ToNumber (StringToNumber ext) in
  [("measure_battery.EV", EVBatteryCharge);
   ("measure_battery.12V", batteryCharge);
   ("alarm_battery",
     js_or (VBool (batteryCharge <=js prop (settings d) "batteryAlarmLevel"))
           (VBool (EVBatteryCharge
                   <=js prop (settings d) "EVbatteryAlarmLevel")));
   ("alarm_tire_pressure",
     js_not (js_not (prop (prop status "tirePressureLamp")
                          "tirePressureLampAll")));
   ("locked", locked);
   ("closed_locked",
     if truthy shut then doors_reduce (prop status "doorOpen") else shut);
   ("target_temperature",
     default VUndef
       (getTempFromCode ext (prop (prop status "airTemp") "value")));
   ("defrost", prop status "defrost");
   ("climate_control", prop status "airCtrlOn");
   ("engine", prop status "engine");
   ("charging", prop evStatus "batteryCharge");
   ("charger", string_of (prop evStatus "batteryPlugin"));
   ("odometer", prop odometer "value");
   ("range",
     prop (prop (prop (prop (prop evStatus "drvDistance") "0") "rangeByFuel")
                "totalAvailableRange") "value");
   ("speed", prop (prop location "speed") "value");
   ("location", default VUndef (w_getCarLocString w location));
   ("distance",
     default VUndef
       (roundedDistance ext (Number (prop location "latitude"))
          (Number (prop location "longitude"))
          (Number (prop (settings d) "lat"))
          (Number (prop (settings d) "lon"))));
   ("live_data", liveData d)].

(** [setCapability] reaches the platform only for a capability the device
    has and a value that differs from the stored one. *)
Definition changed (d : device) (p : string * jsval) : bool :=
  hasCapability d (fst p)
  && negb (strict_eq (snd p) (getCapabilityValue d (fst p))).

Definition write_events (d : device) (p : string * jsval) : list event :=
  if changed d p then [SetCapabilityValue (fst p) (snd p)] else [].

Definition monitored (status : jsval) : list (string * jsval) :=
  [("engine", prop status "engine");
   ("charging", prop (prop status "evStatus") "batteryCharge");
   ("climate_control", prop status "airCtrlOn");
   ("defrost", prop status "defrost")].

Definition directional_trigger (published : jsval) (capability : string)
    (value : jsval) : list event :=
  if strict_eq value published then []
  else [Trigger (directional capability value)].

Definition fired (d : device) (status : jsval) : list event :=
  flat_map (fun p => directional_trigger (getCapabilityValue d (fst p))
                                         (fst p) (snd p))
           (monitored status).


(** *** doPoll *)

(** What lines 98-126 of [doPoll] compute before the fetch from the car. *)
Record decision : Type := mkDecision {
  dc_status : jsval;
  dc_forceRefresh : jsval;
  dc_sleepModeCheck : jsval;
  dc_carActive : jsval;
  dc_carJustActive : bool;
  dc_batSoCGood : bool
}.

(** [this.settings.pollIntervalForced
     && (this.settings.pollIntervalForced * 60 * 1000)
        < (Date.now() - this.lastRefresh)]. *)
Definition interval_elapsed (w : world) (d : device) (pollIntervalForced : jsval)
  : jsval :=
  js_and pollIntervalForced
    (VBool (pollIntervalForced *js VNum 60 *js VNum 1000
            <js VNum (w_now_interval w) -js lastRefresh d)).

(** [force || (interval) || !status || !location || !odometer]
    (lines 103-105); the interval is looked at only when [force] is
    falsy. *)
Definition forceRefresh_of (w : world) (force status location odometer : jsval)
  : M jsval :=
  d <- this ;;
  forced <- (if truthy force then ret force
             else pollIntervalForced <- get (settings d) "pollIntervalForced" ;;
                  ret (js_or force (interval_elapsed w d pollIntervalForced))) ;;
  ret (js_or (js_or (js_or forced (js_not status)) (js_not location))
             (js_not odometer)).

(** [status ? (status.sleepModeCheck
               || (status.time !== this.lastStatus.time)) : null]. *)
Definition sleepModeCheck_of (status : jsval) : M jsval :=
  d <- this ;;
  if truthy status then
    if truthy (prop status "sleepModeCheck")
    then ret (prop status "sleepModeCheck")
    else lastTime <- get (lastStatus d) "time" ;;
         ret (strict_neq (prop status "time") lastTime)
  else ret VNull.

(** [status ? (status.engine || status.airCtrlOn || status.defrost
               || sleepModeCheck) : null]. *)
Definition carActive_of (status sleepModeCheck : jsval) : jsval :=
  if truthy status then
    js_or (js_or (js_or (prop status "engine") (prop status "airCtrlOn"))
                 (prop status "defrost"))
          sleepModeCheck
  else VNull.

(** [(Date.now() - this.carLastActive) < 5 * 60 * 1000]. *)
Definition carJustActive_of (w : world) (d : device) : bool :=
  VNum (w_now_active w) -js carLastActive d <js VNum (5 * 60 * 1000).

(** [status ? (status.battery.batSoc > this.settings.batteryAlarmLevel)
            : true]. *)
Definition batSoCGood_of (status : jsval) : M bool :=
  d <- this ;;
  if truthy status then
    batSoc <- get (prop status "battery") "batSoc" ;;
    level <- get (settings d) "batteryAlarmLevel" ;;
    ret (batSoc >js level)
  else ret true.

(** [forceRefresh || (batSoCGood && (carActive || carJustActive))]. *)
Definition liveData_of (dc : decision) : jsval :=
  js_or (dc_forceRefresh dc)
        (js_and (VBool (dc_batSoCGood dc))
                (js_or (dc_carActive dc) (VBool (dc_carJustActive dc)))).

(** Lines 98-126. *)
Definition decide (w : world) (force : jsval) : M decision :=
  d <- this ;;
  let status := lastStatus d in
  let location := lastLocation d in
  let odometer := lastOdometer d in
  forceRefresh <- forceRefresh_of w force status location odometer ;;
  status <- (if negb (truthy forceRefresh)
             then (* get info from server *) vehicle_status w false
             else emit (Log "forcing refresh with car") ;; ret status) ;;
  (* check if full status refresh is needed *)
  sleepModeCheck <- sleepModeCheck_of status ;;
  when (truthy sleepModeCheck) (emit (Log "doing sleepModeCheck")) ;;
  let carActive := carActive_of status sleepModeCheck in
  d <- this ;;
  let carJustActive := carJustActive_of w d in
  batSoCGood <- batSoCGood_of status ;;
  let dc := mkDecision status forceRefresh sleepModeCheck carActive
                       carJustActive batSoCGood in
  assign (set_liveData (liveData_of dc)) ;;
  ret dc.

(** Lines 128-136: the fetch from the car; the result is the pair of
    [status] and [newStatus]. *)
Definition fetch_status (w : world) (dc : decision) : M (jsval * bool) :=
  d <- this ;;
  fetched <- (if truthy (liveData d)
              then (* get info from car *)
                   status <- vehicle_status w true ;; ret (status, true)
              else ret (dc_status dc, false)) ;;
  assign (set_lastStatus (fst fetched)) ;;
  ret fetched.

(** Lines 138-144; [location] and [odometer] come in as the stored
    ones. *)
Definition fetch_position (w : world) (newStatus : bool)
    (location odometer : jsval) : M (jsval * jsval) :=
  if newStatus then
    (* get location and odo meter from car *)
    location <- vehicle_location w ;;
    assign (set_lastLocation location) ;;
    odometer <- vehicle_odometer w ;;
    assign (set_lastOdometer odometer) ;;
    ret (location, odometer)
  else ret (location, odometer).

(** Lines 146-160. *)
Definition publish (w : world) (dc : decision) (status : jsval)
    (newStatus : bool) (location odometer : jsval) : M unit :=
  d <- this ;;
  when (negb (truthy (lastRefresh d)))
       (emit (Inspect status) ;; emit (Inspect location) ;;
        emit (Inspect odometer)) ;;
  assign (fun d => set_lastRefresh
                     (if newStatus then VNum (w_now_refresh w)
                      else lastRefresh d) d) ;;
  assign (fun d => set_carLastActive
                     (if truthy (dc_carActive dc) then lastRefresh d
                      else carLastActive d) d) ;;
  (* update ABRP telemetry *)
  d <- this ;;
  telemetry <- (if truthy (liveData d)
                then token <- get (settings d) "abrp_user_token" ;;
                     len <- get token "length" ;;
                     ret (len >js VNum 5)
                else ret false) ;;
  when telemetry (abrpTelemetry w status location odometer) ;;
  (* update capabilities and flows *)
  handleInfo w status location odometer.

(** Lines 128-163. *)
Definition refresh (w : world) (dc : decision) (location odometer : jsval)
  : M unit :=
  fetched <- fetch_status w dc ;;
  place <- fetch_position w (snd fetched) location odometer ;;
  publish w dc (fst fetched) (snd fetched) (fst place) (snd place) ;;
  assign (set_watchDogCounter 5) ;;
  assign (set_busy false).

Definition doPoll_try (w : world) (force : jsval) : M unit :=
  d <- this ;;
  if watchDogCounter d <=? 0 then
    (* restart the app here *)
    emit (Log "watchdog triggered, restarting app now") ;;
    restartDevice VUndef ;;
    return_
  else if busy d then
    emit (Log "still busy with previous poll...") ;;
    assign (fun d => set_watchDogCounter (watchDogCounter d - 1) d) ;;
    return_
  else
    assign (set_busy true) ;;
    login w ;;
    d <- this ;;
    (if negb (truthy (vehicle d))
        || negb (truthy (prop (vehicle d) "vehicleConfig"))
     then throw (PlainError "not logged in") else ret tt) ;;
    dc <- decide w force ;;
    refresh w dc (lastLocation d) (lastOdometer d).

Definition doPoll_catch (error : exn) : M unit :=
  assign (fun d => set_watchDogCounter (watchDogCounter d - 1) d) ;;
  assign (set_busy false) ;;
  emit (ErrorLog "Poll error" error).

Definition doPoll (w : world) (force : jsval) : M unit :=
  try_catch (doPoll_try w force) doPoll_catch.

(** *** startPolling, onInitDevice *)

Definition startPolling (w : world) (interval : jsval) : M unit :=
  emit (Log "Start polling") ;;
  d <- this ;;
  pollIntervalForced <- get (settings d) "pollIntervalForced" ;;
  when (truthy pollIntervalForced)
       (emit (Log "Warning: forced polling is enabled")) ;;
  stopPolling ;;
  doPoll w (VBool true) ;;
  emit (SetInterval interval) ;;
  assign (set_intervalIdDevicePoll (Some interval)).

Definition registerListeners : M unit :=
  emit RegisterListeners ;; assign (set_allListeners true).

(** Lines 40-43. *)
Definition initFields (newSettings : jsval) : M unit :=
  assign (set_settings newSettings) ;;
  assign (set_vehicle VNull) ;;
  assign (set_busy false) ;;
  assign (set_watchDogCounter 5).

(** [getSettings] answers [newSettings] ([None]: it rejects); [w] is the
    environment of the first poll, which [startPolling] starts. *)
Definition onInitDevice (newSettings : option jsval) (w : world) : M unit :=
  try_catch
    (s <- await "getSettings" newSettings ;;
     initFields s ;;
     d <- this ;;
     username <- get (settings d) "username" ;;
     password <- get (settings d) "password" ;;
     region <- get (settings d) "region" ;;
     pin <- get (settings d) "pin" ;;
     emit (NewClient (VObj 1%positive
                        [("username", username); ("password", password);
                         ("region", region); ("pin", pin)])) ;;
     token <- get (settings d) "abrp_user_token" ;;
     len <- get token "length" ;;
     emit (Log (if len >js VNum 5 then "ABRP enabled: true"
                else "ABRP enabled: false")) ;;
     (* init listeners *)
     when (negb (allListeners d)) registerListeners ;;
     (* wait 10 seconds to login *)
     pollInterval <- get (settings d) "pollInterval" ;;
     startPolling w pollInterval)
    (fun error => emit (ErrorLog EmptyString error)).

(** [onSettings]: the platform reports changed settings. *)
Definition onSettings : M unit :=
  emit (Log "settings change requested by user") ;;
  restartDevice (VNum 1000).

(** A pending restart timer fires: it leaves the pending list and runs
    [onInitDevice]. *)
Definition fireRestart (newSettings : option jsval) (w : world) : M unit :=
  assign (fun d => set_restartTimers (tl (restartTimers d)) d) ;;
  onInitDevice newSettings w.

(** *** Sequences of cycles *)

Inductive step : Type :=
| Poll (w : world) (force : jsval)
| TimerFired (newSettings : option jsval) (w : world)
| SettingsChanged.

Definition run_step (s : step) : M unit :=
  match s with
  | Poll w force => doPoll w force
  | TimerFired newSettings w => fireRestart newSettings w
  | SettingsChanged => onSettings
  end.

Fixpoint run (steps : list step) (d : device) : device :=
  match steps with
  | [] => d
  | s :: steps' => run steps' (exec (run_step s) d)
  end.

End CarDevice.

(** ** The listeners that [registerListeners] installs (lines 396-493) *)

(** What the car answers to the commands of the listeners ([None]: the
    promise is rejected); [start] and [stop] are given their options. *)
Record car : Type := mkCar {
  c_lock : option jsval;
  c_unlock : option jsval;
  c_start : jsval -> option jsval;
  c_stop : jsval -> option jsval
}.

Section Listeners.

Variable ext : externals.

(** [doPoll] as a caller that does not await it sees it: the part that
    runs before the call returns, up to the first [await] (lines 83-95).
    The guards are evaluated, [busy] is set and [login] is called; the
    answer is whether a cycle is now in flight. *)
Definition doPoll_begin (w : world) : M bool :=
  d <- this ;;
  if watchDogCounter d <=? 0 then
    (* restart the app here *)
    emit (Log "watchdog triggered, restarting app now") ;;
    restartDevice VUndef ;;
    ret false
  else if busy d then
    emit (Log "still busy with previous poll...") ;;
    assign (fun d => set_watchDogCounter (watchDogCounter d - 1) d) ;;
    ret false
  else
    assign (set_busy true) ;;
    emit (ApiLogin (w_login w)) ;;
    ret true.

(** The rest of a cycle in flight, from the answer of [login] on (lines
    95-163), and the same inside the [try] of [doPoll]. *)
Definition doPoll_rest (w : world) (force : jsval) : M unit :=
  match w_ready w with
  | Some vehicles => try_catch (onReady vehicles) (fun _ => ret tt)
  | None => ret tt
  end ;;
  (if w_login w then ret tt else throw (Rejected "login")) ;;
  d <- this ;;
  (if negb (truthy (vehicle d))
      || negb (truthy (prop (vehicle d) "vehicleConfig"))
   then throw (PlainError "not logged in") else ret tt) ;;
  dc <- decide ext w force ;;
  refresh ext w dc (lastLocation d) (lastOdometer d).

Definition doPoll_resume (w : world) (force : jsval) : M unit :=
  try_catch (doPoll_rest w force) doPoll_catch.

(** A method call on [this.vehicle]: a TypeError when there is no
    vehicle. *)
Definition vehicle_call (what : string) (answer : option jsval) : M jsval :=
  d <- this ;;
  if nullish (vehicle d) then throw (TypeError what) else await what answer.

(** [this.getCapabilityValue('target_temperature') || 22]. *)
Definition temperature_option (d : device) : jsval :=
  js_or (getCapabilityValue d "target_temperature") (VNum 22).

Definition defrost_options (on : bool) (d : device) : jsval :=
  VObj 2 [("defrost", VBool on); ("windscreenHeating", VBool on);
          ("temperature", temperature_option d)].

Definition climate_options (d : device) : jsval :=
  VObj 3 [("temperature", temperature_option d)].

(** The run listener of the action card 'force_poll' (lines 397-400); the
    cycle it starts is run to its end in place. *)
Definition forcepollListener (w : world) : M jsval :=
  doPoll ext w (VBool true) ;;
  ret (VBool true).

(** The listener of 'locked' (lines 404-416).  [this.doPoll(true)] is
    not awaited: the listener answers as soon as that call returns, with
    the cycle in flight. *)
Definition lockedListener (c : car) (w : world) (locked : jsval) : M jsval :=
  success <- (if truthy locked
              then emit (Log "locking doors via app") ;;
                   vehicle_call "lock" (c_lock c)
              else emit (Log "unlocking doors via app") ;;
                   vehicle_call "unlock" (c_unlock c)) ;;
  (* await setTimeoutPromise(5 * 1000) *)
  doPoll_begin w ;;
  ret success.

(** The listener of 'defrost' (lines 418-438). *)
Definition defrostListener (c : car) (w : world) (defrost : jsval) : M jsval :=
  d <- this ;;
  success <- (if truthy defrost
              then emit (Log "defrost start via app") ;;
                   vehicle_call "start" (c_start c (defrost_options true d))
              else emit (Log "defrost stop via app") ;;
                   vehicle_call "stop" (c_stop c (defrost_options false d))) ;;
  doPoll_begin w ;;
  ret success.

(** The listener of 'climate_control' (lines 440-460). *)
Definition climateControlListener (c : car) (w : world) (acOn : jsval)
  : M jsval :=
  d <- this ;;
  success <- (if truthy acOn
              then emit (Log "A/C on via app") ;;
                   vehicle_call "start" (c_start c (climate_options d))
              else emit (Log "A/C off via app") ;;
                   vehicle_call "stop" (c_stop c (climate_options d))) ;;
  doPoll_begin w ;;
  ret success.

(** The listener of 'target_temperature' (lines 462-484). *)
Definition targetTemperatureListener (temp : jsval) : M jsval :=
  emit (Log "Changing temperature by app") ;;
  ret (VBool false).

(** The listener of 'live_data' (lines 486-493); the cycle it starts is
    run to its end in place. *)
Definition liveDataListener (w : world) (value : jsval) : M jsval :=
  when (truthy value)
       (emit (Log "Switching on live data by app") ;;
        doPoll ext w (VBool true)) ;;
  ret (VBool true).

End Listeners.

(** ** class CarDriver: pairing ([onPair], src/unnamed/part_000) *)

(** The promise of the 'validate' handler (lines 68-99). *)
Inductive failure : Type :=
| ClientFailed (error : string)
| NoVehicles
| IncorrectPin
| LoginTimeout.

(** The message of the [Error] the promise is rejected with. *)
Definition failure_message (f : failure) : string :=
  match f with
  | ClientFailed error => error
  | NoVehicles => "No vehicles in this account!"
  | IncorrectPin => "Incorrect PIN!"
  | LoginTimeout => "Login timeout"
  end.

Inductive settlement : Type :=
| Pending
| Fulfilled (v : jsval)
| Failed (why : failure).

(** The variables of [onPair] and of the promise: [settings] and
    [vehicles] of the closure, the settlement of the promise,
    [cancelTimeout], and the [odometer()] calls that have not answered yet,
    each with the vehicle list of its 'ready' event. *)
Record pairing : Type := mkPairing {
  p_settings : jsval;
  p_vehicles : list jsval;
  p_promise : settlement;
  p_cancelTimeout : bool;
  p_odometer : list (list jsval);
  p_errors : list string
}.

(** What happens while the promise is awaited: the client emits 'error' or
    'ready' ([None]: the payload is falsy or not an array), a pending
    [odometer()] call answers or is rejected, the 15 seconds pass. *)
Inductive client_event : Type :=
| ClientError (error : string)
| ClientReady (veh : option (list jsval))
| OdometerSettled (i : nat) (ok : bool)
| TimerElapsed.

(** [resolve] and [reject] settle a promise once; later calls are
    ignored. *)
Definition settle (s : settlement) (p : pairing) : pairing :=
  match p_promise p with
  | Pending =>
      mkPairing (p_settings p) (p_vehicles p) s (p_cancelTimeout p)
                (p_odometer p) (p_errors p)
  | _ => p
  end.

Definition set_cancelTimeout (p : pairing) : pairing :=
  mkPairing (p_settings p) (p_vehicles p) (p_promise p) true (p_odometer p)
            (p_errors p).

Definition set_p_vehicles (l : list jsval) (p : pairing) : pairing :=
  mkPairing (p_settings p) l (p_promise p) (p_cancelTimeout p) (p_odometer p)
            (p_errors p).

Definition set_p_odometer (l : list (list jsval)) (p : pairing) : pairing :=
  mkPairing (p_settings p) (p_vehicles p) (p_promise p) (p_cancelTimeout p) l
            (p_errors p).

(** [this.error(..)]. *)
Definition log_error (msg : string) (p : pairing) : pairing :=
  mkPairing (p_settings p) (p_vehicles p) (p_promise p) (p_cancelTimeout p)
            (p_odometer p) (p_errors p ++ [msg]).

(** The three callbacks of lines 70-98. *)
Definition on_client_event (e : client_event) (p : pairing) : pairing :=
  match e with
  | ClientError error =>
      settle (Failed (ClientFailed error)) (log_error error (set_cancelTimeout p))
  | ClientReady veh =>
      let p := set_cancelTimeout p in
      match veh with
      | Some (v0 :: rest) =>
          if nullish v0 then p (* veh[0].odometer throws a TypeError *)
          else set_p_odometer (p_odometer p ++ [v0 :: rest]) p
      | _ =>
          settle (Failed NoVehicles)
                 (log_error "No vehicles in this account!" p)
      end
  | OdometerSettled i ok =>
      match p_odometer p !! i with
      | Some veh =>
          let p := set_p_odometer (delete i (p_odometer p)) p in
          if ok then settle (Fulfilled (VBool true)) (set_p_vehicles veh p)
          else settle (Failed IncorrectPin) (log_error "Incorrect PIN!" p)
      | None => p
      end
  | TimerElapsed =>
      if p_cancelTimeout p then p
      else settle (Failed LoginTimeout) (log_error "Login timeout!" p)
  end.

Definition on_client_events (events : list client_event) (p : pairing)
  : pairing :=
  fold_left (fun p e => on_client_event e p) events p.

(** Lines 44-66: the handler stores the credentials, empties [vehicles],
    checks the PIN and builds the options of the client ([inl]: it
    throws). *)
Definition validate_options (ds data : jsval) : exn + jsval :=
  if nullish data then inl (TypeError "pin")
  else if nullish (prop data "pin") then inl (TypeError "length")
  else if truthy (strict_neq (prop (prop data "pin") "length") (VNum 4))
  then inl (PlainError "Enter your 4 digit PIN")
  else if nullish ds then inl (TypeError "driverId")
  else inr (VObj 4 [("username", prop data "username");
                    ("password", prop data "password");
                    ("pin", prop data "pin");
                    ("brand",
                      if strict_eq (prop ds "driverId") (VStr "bluelink")
                      then VStr "H" else VStr "K");
                    ("region", prop data "region");
                    ("deviceUuid", VStr "HomeyPair");
                    ("autoLogin", VBool true)]).

(** The 'validate' handler: what it returns or throws ([None]: the promise
    is still pending after [events]), and the variables of [onPair]
    afterwards. *)
Definition validate (ds data : jsval) (events : list client_event)
    (p : pairing) : option (exn + jsval) * pairing :=
  let p0 := mkPairing data [] Pending false [] (p_errors p) in
  match validate_options ds data with
  | inl e => (Some (inl e), p0)
  | inr _ =>
      let p1 := on_client_events events p0 in
      (match p_promise p1 with
       | Pending => None
       | Fulfilled v => Some (inr v)
       | Failed why => Some (inl (PlainError (failure_message why)))
       end, p1)
  end.

(** What the driver reads from the platform in 'list_devices': the
    capabilities of the driver and the coordinates of the home, rounded to
    eight decimals. *)
Record platform : Type := mkPlatform {
  deviceCapabilities : jsval;
  latitude : jsval;
  longitude : jsval
}.

(** [s.split(' ')[0]]. *)
Fixpoint before_space (s : string) : string :=
  match s with
  | EmptyString => EmptyString
  | String c s' =>
      if String.eqb (String c EmptyString) " " then EmptyString
      else String c (before_space s')
  end.

(** [regDate.split(' ')[0]]: only a string has [split]. *)
Definition split_first (regDate : jsval) : exn + jsval :=
  match regDate with
  | VStr s => inr (VStr (before_space s))
  | _ => inl (TypeError "split")
  end.

(** The callback of [vehicles.map] (lines 105-126). *)
Definition device_entry (pf : platform) (settings vehicle : jsval)
  : exn + jsval :=
  if nullish vehicle then inl (TypeError "vehicleConfig")
  else
    let cfg := prop vehicle "vehicleConfig" in
    if nullish cfg then inl (TypeError "nickname")
    else if nullish settings then inl (TypeError "username")
    else
      match split_first (prop cfg "regDate") with
      | inl e => inl e
      | inr regDate =>
          inr (VObj 5
                 [("name", prop cfg "nickname");
                  ("data", VObj 6 [("id", prop cfg "vin")]);
                  ("settings",
                    VObj 7 [("username", prop settings "username");
                            ("password", prop settings "password");
                            ("pin", prop settings "pin");
                            ("region", prop settings "region");
                            ("nameOrg", prop cfg "name");
                            ("idOrg", prop cfg "id");
                            ("vin", prop cfg "vin");
                            ("regDate", regDate);
                            ("brandIndicator", prop cfg "brandIndicator");
                            ("generation", prop cfg "generation");
                            ("lat", latitude pf);
                            ("lon", longitude pf)]);
                  ("capabilities", deviceCapabilities pf)])
      end.

(** [vehicles.map(..)]: the first callback that throws ends the call. *)
Fixpoint map_entries (f : jsval -> exn + jsval) (l : list jsval)
  : exn + list jsval :=
  match l with
  | [] => inr []
  | x :: l' =>
      match f x with
      | inl e => inl e
      | inr y => match map_entries f l' with
                 | inl e => inl e
                 | inr ys => inr (y :: ys)
                 end
      end
  end.

(** The 'list_devices' handler. *)
Definition list_devices (pf : platform) (p : pairing) : exn + list jsval :=
  map_entries (device_entry pf (p_settings p)) (p_vehicles p).

(** ** Sample data, after the payloads quoted at the end of the source *)

Definition sample_ext : externals :=
  mkExternals (fun _ => None) (fun _ => Some (VNum 22))
              (fun _ _ _ _ => Some (VNum 12)).

Definition doors (fl fr bl br : Z) : jsval :=
  VObj 11 [("frontLeft", VNum fl); ("frontRight", VNum fr);
           ("backLeft", VNum bl); ("backRight", VNum br)].

(** A status record: ignition and climate flags, lock state, doors, the
    12V state of charge and the cache time stamp. *)
Definition status_of (ref : positive) (engine airCtrlOn defrost charging : bool)
    (doorLock trunkOpen hoodOpen : bool) (doorOpen : jsval) (batSoc : Z)
    (time : string) : jsval :=
  VObj ref
    [("airCtrlOn", VBool airCtrlOn); ("engine", VBool engine);
     ("doorLock", VBool doorLock); ("doorOpen", doorOpen);
     ("trunkOpen", VBool trunkOpen);
     ("airTemp", VObj 12 [("value", VStr "10H"); ("unit", VNum 0)]);
     ("defrost", VBool defrost);
     ("evStatus",
       VObj 13
         [("batteryCharge", VBool charging); ("batteryStatus", VNum 72);
          ("batteryPlugin", VNum 0);
          ("drvDistance",
            VObj 14
              [("0", VObj 15
                  [("rangeByFuel",
                     VObj 16
                       [("totalAvailableRange",
                          VObj 17 [("value", VNum 334); ("unit", VNum 1)])])])])]);
     ("hoodOpen", VBool hoodOpen);
     ("tirePressureLamp", VObj 18 [("tirePressureLampAll", VNum 0)]);
     ("battery", VObj 19 [("batSoc", VNum batSoc); ("batState", VNum 0)]);
     ("time", VStr time)].

Definition parked : jsval :=
  status_of 20 false false false false true false false (doors 0 0 0 0) 84
            "20200721101303".

Definition location_of (ref : positive) (lat lon speed : Z) : jsval :=
  VObj ref [("latitude", VNum lat); ("longitude", VNum lon);
            ("speed", VObj 31 [("unit", VNum 1); ("value", VNum speed)])].

Definition odometer_of (ref : positive) (km : Z) : jsval :=
  VObj ref [("unit", VNum 1); ("value", VNum km)].

Definition sample_settings : jsval :=
  VObj 40 [("username", VStr "u"); ("password", VStr "p"); ("region", VStr "EU");
           ("pin", VStr "1234"); ("vin", VStr "ABCD12EFG3451234");
           ("pollInterval", VNum 5); ("pollIntervalForced", VNum 0);
           ("batteryAlarmLevel", VNum 50); ("EVbatteryAlarmLevel", VNum 20);
           ("lat", VNum 52); ("lon", VNum 5); ("abrp_user_token", VStr EmptyString)].

Definition sample_vehicle : jsval :=
  VObj 41 [("vehicleConfig", VObj 42 [("vin", VStr "ABCD12EFG3451234")])].

Definition all_capabilities : gmap string jsval :=
  list_to_map
    (map (fun c => (c, VNull))
       ["measure_battery.EV"; "measure_battery.12V"; "alarm_battery";
        "alarm_tire_pressure"; "locked"; "closed_locked"; "target_temperature";
        "defrost"; "climate_control"; "engine"; "charging"; "charger";
        "odometer"; "range"; "speed"; "location"; "distance"; "live_data"]).

(** The device right after [initFields], logged in, nothing fetched yet. *)
Definition fresh_device : device :=
  mkDevice sample_settings sample_vehicle false 5 VUndef VUndef VUndef VUndef
           VUndef VUndef true (Some (VNum 5)) [] all_capabilities.

(** A device that holds a complete snapshot, refreshed at time 1000. *)
Definition settled_device : device :=
  mkDevice sample_settings sample_vehicle false 5 parked
           (location_of 50 52 5 0) (odometer_of 51 12000) (VNum 1000)
           VUndef (VBool true) true (Some (VNum 5)) [] all_capabilities.

(** A cycle in which every call answers. *)
Definition calm_world (cached live : jsval) : world :=
  mkWorld None true (Some cached) (Some live)
          (Some (location_of 60 53 6 0)) (Some (odometer_of 61 12345))
          2000000 2000000 2000000 (fun _ => Some (VStr "Utrecht")) true.

(** Locked, trunk and hood closed, the front left door open. *)
Definition door_ajar : jsval :=
  status_of 21 false false false false true false false (doors 1 0 0 0) 84
            "20200721101303".

(** The car in use: ignition on, unlocked, a later cache time stamp. *)
Definition driving : jsval :=
  status_of 22 true false false false false false false (doors 0 0 0 0) 84
            "20200721101842".

(** Ignition on with the 12V battery at 40, below the alarm level of
    [sample_settings]. *)
Definition low_battery : jsval :=
  status_of 23 true false false false false false false (doors 0 0 0 0) 40
            "20200721101842".

(** The full status answers [driving], the location call is rejected. *)
Definition location_down : world :=
  mkWorld None true (Some parked) (Some driving) None
          (Some (odometer_of 61 12345))
          2000000 2000000 2000000 (fun _ => Some (VStr "Utrecht")) true.

(** Every call to the car answers, the reverse geocoder does not. *)
Definition geocoder_down : world :=
  mkWorld None true (Some parked) (Some driving)
          (Some (location_of 60 53 6 0)) (Some (odometer_of 61 12345))
          2000000 2000000 2000000 (fun _ => None) true.

(** [settled_device] after two failed cycles. *)
Definition strained_device : device := set_watchDogCounter 3 settled_device.

(** [settled_device] with the watchdog budget used up. *)
Definition exhausted_device : device := set_watchDogCounter 0 settled_device.

(** The forced-refresh condition as the specification words it, with "no
    prior snapshot exists" read as the stored field being absent
    ([undefined] or [null]); to be compared with [forceRefresh_of]. *)
Definition spec_forceRefresh (ext : externals) (w : world) (force : jsval)
    (d : device) : bool :=
  truthy force
  || truthy (interval_elapsed ext w d (prop (settings d) "pollIntervalForced"))
  || nullish (lastStatus d) || nullish (lastLocation d)
  || nullish (lastOdometer d).

(** ** Observations on runs *)

(** [wp m d Q]: the run of [m] from [d] ends in an outcome, a state and a
    trace that satisfy [Q]. *)
Definition wp {A} (m : M A) (d : device)
    (Q : result A -> device -> list event -> Prop) : Prop :=
  Q (outcome m d) (exec m d) (trace m d).

Definition is_api (e : event) : bool :=
  match e with
  | ApiLogin _ | ApiStatus _ _ | ApiLocation _ | ApiOdometer _ => true
  | _ => false
  end.

(** A call that wakes the car: the full status, the location, the
    odometer. *)
Definition is_live_fetch (e : event) : bool :=
  match e with
  | ApiStatus true _ | ApiLocation _ | ApiOdometer _ => true
  | _ => false
  end.

Definition is_write (e : event) : bool :=
  match e with SetCapabilityValue _ _ => true | _ => false end.

Definition is_trigger (e : event) : bool :=
  match e with Trigger _ => true | _ => false end.

(** What [handleInfo] and [abrpTelemetry] can emit. *)
Definition is_dispatch (e : event) : bool :=
  match e with
  | SetCapabilityValue _ _ | Trigger _ | ErrorLog _ _ | AbrpSend _ _ _ _ _ =>
      true
  | _ => false
  end.

(** The capability store after [setCapability c v]. *)
Definition stored (d : device) (c : string) (v : jsval) : gmap string jsval :=
  if changed d (c, v) then <[c := v]> (capabilities d) else capabilities d.

(** [d'] differs from [d] in the capability store at most. *)
Definition caps_only (d d' : device) : Prop :=
  d' = set_capabilities (capabilities d') d.

(** What a run of the body of [handleInfo] guarantees: it changes the
    capability store only, emits dispatch events only, and when it runs to
    its end the trace is the writes of the changed derived properties
    followed by the directional triggers. *)
Definition handleInfo_post (ext : externals) (w : world)
    (status location odometer : jsval) (d : device)
    (r : result unit) (d' : device) (t : list event) : Prop :=
  r <> Return /\ caps_only d d' /\ Forall (fun e => is_dispatch e = true) t /\
  (r = Ok tt ->
   t = flat_map (write_events d)
                (derived_properties ext w d status location odometer)
       ++ fired d status).

Definition is_login_event (e : event) : bool :=
  match e with ApiLogin _ | Inspect _ => true | _ => false end.

Definition is_decide_event (e : event) : bool :=
  match e with Log _ | ApiStatus false _ => true | _ => false end.

Definition login_post (w : world) (d : device)
    (r : result unit) (d' : device) (t : list event) : Prop :=
  r <> Return /\ d' = set_vehicle (vehicle d') d
  /\ Forall (fun e => is_login_event e = true) t.

(** What [decide] guarantees: it assigns [liveData] only, fetches at most
    the cached status, and its decision follows lines 103-126. *)
Definition decide_post (ext : externals) (w : world) (force : jsval)
    (d : device) (r : result decision) (d' : device) (t : list event) : Prop :=
  r <> Return /\ d' = set_liveData (liveData d') d
  /\ Forall (fun e => is_decide_event e = true) t
  /\ (forall fr,
        outcome (forceRefresh_of ext w force (lastStatus d) (lastLocation d)
                                 (lastOdometer d)) d = Ok fr ->
        truthy fr = true -> Forall (fun e => is_api e = false) t)
  /\ forall dc, r = Ok dc ->
      liveData d' = liveData_of dc
      /\ outcome (forceRefresh_of ext w force (lastStatus d) (lastLocation d)
                                  (lastOdometer d)) d
         = Ok (dc_forceRefresh dc)
      /\ (if truthy (dc_forceRefresh dc)
          then dc_status dc = lastStatus d
               /\ Forall (fun e => is_api e = false) t
          else w_status_cached w = Some (dc_status dc)
               /\ In (ApiStatus false (Some (dc_status dc))) t)
      /\ outcome (sleepModeCheck_of (dc_status dc)) d
         = Ok (dc_sleepModeCheck dc)
      /\ dc_carActive dc = carActive_of (dc_status dc) (dc_sleepModeCheck dc)
      /\ dc_carJustActive dc = carJustActive_of ext w d
      /\ outcome (batSoCGood_of ext (dc_status dc)) d = Ok (dc_batSoCGood dc).

(** A computation that only reads the device. *)
Definition pure_run {A} (m : M A) (d : device) : Prop :=
  exec m d = d /\ trace m d = [] /\ outcome m d <> Return.

(** [handleInfo] was called on this snapshot, from a state that has the
    capability store and the settings of [d] and [live] as [liveData], and
    what it emitted ends the trace. *)
Definition published (ext : externals) (w : world)
    (status location odometer : jsval) (d : device) (live : jsval)
    (t : list event) : Prop :=
  exists pre dm,
    t = pre ++ trace (handleInfo ext w status location odometer) dm
    /\ capabilities dm = capabilities d /\ settings dm = settings d
    /\ liveData dm = live.

(** The part of the device that [publish] leaves alone. *)
Definition kept_by_publish (d : device) : device :=
  set_lastRefresh VUndef (set_carLastActive VUndef (set_capabilities empty d)).

Definition publish_post (ext : externals) (w : world)
    (status location odometer : jsval) (d : device)
    (r : result unit) (d' : device) (t : list event) : Prop :=
  r <> Return /\ kept_by_publish d' = kept_by_publish d
  /\ Forall (fun e => is_api e = false) t
  /\ (truthy (liveData d) = false -> r = Ok tt)
  /\ (r = Ok tt ->
      published ext w status location odometer d (liveData d) t).

(** The five ways lines 128-163 can go: (A) the cached status is published;
    the full status (B), the location (C) or the odometer (D) is rejected;
    (E) all three are fetched, after which the cycle is published or fails
    on the telemetry settings. *)
Definition refresh_post (ext : externals) (w : world) (dc : decision)
    (location odometer : jsval) (d : device)
    (r : result unit) (d' : device) (t : list event) : Prop :=
  r <> Return
  /\ intervalIdDevicePoll d' = intervalIdDevicePoll d
  /\ restartTimers d' = restartTimers d
  /\ settings d' = settings d /\ liveData d' = liveData d
  /\ ((truthy (liveData d) = false /\ r = Ok tt
       /\ Forall (fun e => is_api e = false) t
       /\ lastStatus d' = dc_status dc /\ lastLocation d' = lastLocation d
       /\ lastOdometer d' = lastOdometer d
       /\ watchDogCounter d' = 5 /\ busy d' = false
       /\ published ext w (dc_status dc) location odometer d (liveData d) t)
      \/ (truthy (liveData d) = true /\ w_status_live w = None
          /\ r = Throw (Rejected "status")
          /\ t = [ApiStatus true None] /\ d' = d)
      \/ (exists s,
            truthy (liveData d) = true /\ w_status_live w = Some s
            /\ w_location w = None /\ r = Throw (Rejected "location")
            /\ t = [ApiStatus true (Some s); ApiLocation None]
            /\ d' = set_lastStatus s d)
      \/ (exists s l,
            truthy (liveData d) = true /\ w_status_live w = Some s
            /\ w_location w = Some l /\ w_odometer w = None
            /\ r = Throw (Rejected "odometer")
            /\ t = [ApiStatus true (Some s); ApiLocation (Some l);
                    ApiOdometer None]
            /\ d' = set_lastLocation l (set_lastStatus s d))
      \/ (exists s l o post,
            truthy (liveData d) = true /\ w_status_live w = Some s
            /\ w_location w = Some l /\ w_odometer w = Some o
            /\ t = [ApiStatus true (Some s); ApiLocation (Some l);
                    ApiOdometer (Some o)] ++ post
            /\ Forall (fun e => is_api e = false) post
            /\ lastStatus d' = s /\ lastLocation d' = l
            /\ lastOdometer d' = o
            /\ ((r = Ok tt /\ watchDogCounter d' = 5 /\ busy d' = false
                 /\ published ext w s l o d (liveData d) post)
                \/ (exists e, r = Throw e
                             /\ watchDogCounter d' = watchDogCounter d
                             /\ busy d' = busy d)))).

(** The state of a cycle once [login] has answered: [busy] is set and the
    'ready' handler may have replaced [vehicle]. *)
Definition logged_in (d d1 : device) : Prop :=
  d1 = set_vehicle (vehicle d1) (set_busy true d).

(** How a run of the [try] block of [doPoll] decomposes: the watchdog
    restart, the busy skip, a failure before the decision, or [decide]
    followed by [refresh]. *)
Definition doPoll_try_cases (ext : externals) (w : world) (force : jsval)
    (d : device) (r : result unit) (d' : device) (t : list event) : Prop :=
  (watchDogCounter d <= 0 /\ r = Return
   /\ d' = set_restartTimers (restartTimers d ++ [VNum 300000])
                             (set_intervalIdDevicePoll None d)
   /\ t = [Log "watchdog triggered, restarting app now"; ClearInterval;
           SetTimeoutInit (VNum 300000)])
  \/ (0 < watchDogCounter d /\ busy d = true /\ r = Return
      /\ d' = set_watchDogCounter (watchDogCounter d - 1) d
      /\ t = [Log "still busy with previous poll..."])
  \/ (0 < watchDogCounter d /\ busy d = false
      /\ exists d1 pre,
          logged_in d d1 /\ Forall (fun e => is_login_event e = true) pre
          /\ ((exists e, r = Throw e /\ d' = d1 /\ t = pre)
              \/ match outcome (decide ext w force) d1 with
                 | Ok dc =>
                     let d2 := exec (decide ext w force) d1 in
                     let rf := refresh ext w dc (lastLocation d1)
                                       (lastOdometer d1) in
                     r = outcome rf d2 /\ d' = exec rf d2
                     /\ t = pre ++ trace (decide ext w force) d1
                                ++ trace rf d2
                 | Throw e =>
                     r = Throw e /\ d' = exec (decide ext w force) d1
                     /\ t = pre ++ trace (decide ext w force) d1
                 | Return => False
                 end)).

(** No call that wakes the car. *)
Definition not_live (t : list event) : Prop :=
  Forall (fun e => is_live_fetch e = false) t.

(** How a cycle that passes both guards ends, in terms of what it fetched
    from the car: it fails before the full fetch; it publishes the cached
    status; the full status, the location or the odometer is rejected; or
    all three are fetched, after which it is published or fails on the
    telemetry settings. *)
Definition main_path (ext : externals) (w : world) (force : jsval)
    (d : device) (r : result unit) (d' : device) (t : list event) : Prop :=
  r <> Return
  /\ intervalIdDevicePoll d' = intervalIdDevicePoll d
  /\ restartTimers d' = restartTimers d /\ settings d' = settings d
  /\ (((exists e, r = Throw e) /\ not_live t
       /\ lastStatus d' = lastStatus d /\ lastLocation d' = lastLocation d
       /\ lastOdometer d' = lastOdometer d
       /\ watchDogCounter d' = watchDogCounter d)
      \/ (r = Ok tt /\ not_live t /\ truthy (liveData d') = false
          /\ lastLocation d' = lastLocation d
          /\ lastOdometer d' = lastOdometer d
          /\ watchDogCounter d' = 5 /\ busy d' = false
          /\ exists st,
              w_status_cached w = Some st /\ In (ApiStatus false (Some st)) t
              /\ lastStatus d' = st
              /\ published ext w st (lastLocation d) (lastOdometer d) d
                           (liveData d') t)
      \/ (exists pre,
            r = Throw (Rejected "status") /\ not_live pre
            /\ t = pre ++ [ApiStatus true None]
            /\ lastStatus d' = lastStatus d
            /\ lastLocation d' = lastLocation d
            /\ lastOdometer d' = lastOdometer d
            /\ watchDogCounter d' = watchDogCounter d)
      \/ (exists pre s,
            r = Throw (Rejected "location") /\ not_live pre
            /\ t = pre ++ [ApiStatus true (Some s); ApiLocation None]
            /\ lastStatus d' = s /\ lastLocation d' = lastLocation d
            /\ lastOdometer d' = lastOdometer d
            /\ watchDogCounter d' = watchDogCounter d)
      \/ (exists pre s l,
            r = Throw (Rejected "odometer") /\ not_live pre
            /\ t = pre ++ [ApiStatus true (Some s); ApiLocation (Some l);
                           ApiOdometer None]
            /\ lastStatus d' = s /\ lastLocation d' = l
            /\ lastOdometer d' = lastOdometer d
            /\ watchDogCounter d' = watchDogCounter d)
      \/ (exists pre s l o post,
            not_live pre /\ Forall (fun e => is_api e = false) post
            /\ t = pre ++ [ApiStatus true (Some s); ApiLocation (Some l);
                           ApiOdometer (Some o)] ++ post
            /\ lastStatus d' = s /\ lastLocation d' = l /\ lastOdometer d' = o
            /\ truthy (liveData d') = true
            /\ ((r = Ok tt /\ watchDogCounter d' = 5 /\ busy d' = false
                 /\ published ext w s l o d (liveData d') t)
                \/ (exists e, r = Throw e
                             /\ watchDogCounter d' = watchDogCounter d)))).

(** ** Observations on single operations *)

(** [d'] has the capabilities of [d], no more and no fewer. *)
Definition same_capabilities (d d' : device) : Prop :=
  forall c, hasCapability d' c = hasCapability d c.

(** What the body of [handleInfo] can emit from [d]: a write to a capability
    the device has, or a trigger. *)
Definition publication_event (d : device) (e : event) : bool :=
  match e with
  | SetCapabilityValue c _ => hasCapability d c
  | Trigger _ => true
  | _ => false
  end.

(** Inputs on which [handleInfo] fails before its first [setCapability]:
    no status, no [evStatus] in it, no location, or a failing temperature
    conversion or reverse geocoder. *)
Definition unpublishable (ext : externals) (w : world)
    (status location : jsval) : Prop :=
  nullish status = true \/ nullish (prop status "evStatus") = true
  \/ nullish location = true
  \/ getTempFromCode ext (prop (prop status "airTemp") "value") = None
  \/ w_getCarLocString w location = None.

Definition handleInfo_events_post (ext : externals) (w : world)
    (status location : jsval) (d : device)
    (r : result unit) (d' : device) (t : list event) : Prop :=
  same_capabilities d d'
  /\ Forall (fun e => publication_event d e = true) t
  /\ (r <> Ok tt -> Forall (fun e => is_trigger e = false) t)
  /\ (unpublishable ext w status location -> r <> Ok tt /\ t = [] /\ d' = d).

Definition is_error_log (e : event) : bool :=
  match e with ErrorLog _ _ => true | _ => false end.

(** ** Observations on the telemetry forwarder *)

(** The cycle of [w] with the forwarder's [send] answering ([true]) or
    rejecting ([false]). *)
Definition with_abrp_send (b : bool) (w : world) : world :=
  mkWorld (w_ready w) (w_login w) (w_status_cached w) (w_status_live w)
          (w_location w) (w_odometer w) (w_now_interval w) (w_now_active w)
          (w_now_refresh w) (w_getCarLocString w) b.

(** The log entry of a rejected [send]. *)
Definition is_send_rejection (e : event) : bool :=
  match e with
  | ErrorLog ctx (Rejected what) =>
      String.eqb ctx EmptyString && String.eqb what "abrp.send"
  | _ => false
  end.

Definition without_send_rejections (t : list event) : list event :=
  List.filter (fun e => negb (is_send_rejection e)) t.

(** Two computations that end alike from every state, up to the log
    entries of rejected sends. *)
Definition same_effect {A} (m m' : M A) : Prop :=
  forall d,
    outcome m d = outcome m' d /\ exec m d = exec m' d
    /\ without_send_rejections (trace m d)
       = without_send_rejections (trace m' d).

Definition is_send (e : event) : bool :=
  match e with AbrpSend _ _ _ _ _ => true | _ => false end.

(** ** Observations on sequences of cycles *)

Fixpoint run_trace (ext : externals) (steps : list step) (d : device)
  : list event :=
  match steps with
  | [] => []
  | s :: steps' =>
      trace (run_step ext s) d
      ++ run_trace ext steps' (exec (run_step ext s) d)
  end.

Definition polls (cycles : list (world * jsval)) : list step :=
  map (fun c => Poll (fst c) (snd c)) cycles.

(** ** Observations on the time stamps and the telemetry of a cycle *)

(** The record that [abrpTelemetry] sends for a status and a location. *)
Definition sent_from (status location : jsval) : event :=
  AbrpSend (prop location "latitude") (prop location "longitude")
           (prop (prop location "speed") "value")
           (prop (prop status "evStatus") "batteryStatus")
           (prop (prop status "evStatus") "batteryCharge").

(** [this.liveData && (this.settings.abrp_user_token.length > 5)]. *)
Definition telemetry_enabled (ext : externals) (d : device) : bool :=
  truthy (liveData d)
  && js_gt (StringToNumber ext)
           (prop (prop (settings d) "abrp_user_token") "length") (VNum 5).

Definition publish_book_post (ext : externals) (w : world) (dc : decision)
    (status : jsval) (newStatus : bool) (location : jsval) (d : device)
    (r : result unit) (d' : device) (t : list event) : Prop :=
  lastRefresh d'
  = (if newStatus then VNum (w_now_refresh w) else lastRefresh d)
  /\ carLastActive d'
     = (if truthy (dc_carActive dc) then lastRefresh d' else carLastActive d)
  /\ forall e, In e t -> is_send e = true ->
       telemetry_enabled ext d = true /\ e = sent_from status location.

(** How lines 128-163 leave the two time stamps: untouched, or, after the
    full status, the location and the odometer were all fetched, set from
    the clock. *)
Definition refresh_book_post (ext : externals) (w : world) (dc : decision)
    (d : device) (r : result unit) (d' : device) (t : list event) : Prop :=
  (carLastActive d' = carLastActive d \/ carLastActive d' = lastRefresh d')
  /\ ((lastRefresh d' = lastRefresh d
       /\ forall e, In e t -> is_send e = false)
      \/ exists s l o,
           w_status_live w = Some s /\ w_location w = Some l
           /\ w_odometer w = Some o
           /\ lastStatus d' = s /\ lastLocation d' = l /\ lastOdometer d' = o
           /\ lastRefresh d' = VNum (w_now_refresh w)
           /\ forall e, In e t -> is_send e = true ->
                telemetry_enabled ext d = true /\ e = sent_from s l).

(** The same for a whole cycle, from [d] to [d']. *)
Definition cycle_book (ext : externals) (w : world) (d d' : device)
    (t : list event) : Prop :=
  (carLastActive d' = carLastActive d \/ carLastActive d' = lastRefresh d')
  /\ ((lastRefresh d' = lastRefresh d
       /\ forall e, In e t -> is_send e = false)
      \/ exists s l o,
           w_status_live w = Some s /\ w_location w = Some l
           /\ w_odometer w = Some o
           /\ lastStatus d' = s /\ lastLocation d' = l /\ lastOdometer d' = o
           /\ lastRefresh d' = VNum (w_now_refresh w)
           /\ forall e, In e t -> is_send e = true ->
                telemetry_enabled ext d' = true /\ e = sent_from s l).

(** ** Observations on the stored snapshot *)

(** What the car answers to a status, location or odometer call, and what
    the three stored fields hold before the first answer: an object, or
    nothing ([null], [undefined]). *)
Definition snapshot_value (v : jsval) : bool :=
  match v with
  | VUndef | VNull | VObj _ _ => true
  | _ => false
  end.

Definition snapshot_answer (a : option jsval) : bool :=
  match a with
  | Some v => snapshot_value v
  | None => true
  end.

Definition answers_objects (w : world) : bool :=
  snapshot_answer (w_status_cached w) && snapshot_answer (w_status_live w)
  && snapshot_answer (w_location w) && snapshot_answer (w_odometer w).

Definition step_answers_objects (s : step) : bool :=
  match s with
  | Poll w _ => answers_objects w
  | TimerFired _ w => answers_objects w
  | SettingsChanged => true
  end.

Definition snapshot_shaped (d : device) : bool :=
  snapshot_value (lastStatus d) && snapshot_value (lastLocation d)
  && snapshot_value (lastOdometer d).


(** ** Observations on initialisation *)

(** Settings on which [onInitDevice] gets as far as [startPolling]: they
    are there and carry an [abrp_user_token]. *)
Definition settings_usable (newSettings : option jsval) : bool :=
  match newSettings with
  | Some s => negb (nullish s) && negb (nullish (prop s "abrp_user_token"))
  | None => false
  end.

Definition is_set_interval (e : event) : bool :=
  match e with SetInterval _ => true | _ => false end.

(** ** Observations on the listeners *)

(** What a listener that logs [msg], sends a command and then starts a
    cycle guarantees, given what the car answers to the command.  When
    there is no vehicle or the command is rejected, the listener fails and
    nothing else happens.  When the car answers, the listener answers the
    same right after [doPoll(true)] has returned: the device is as
    [doPoll_begin] left it, with the cycle in flight if it passed the
    guards; that cycle, once it is resumed, is the rest of a forced
    [doPoll], which makes no cached status call. *)
Definition command_post (ext : externals) (w : world) (msg : string)
    (answer : option jsval)
    (d : device) (r : result jsval) (d' : device) (t : list event) : Prop :=
  let cycle := doPoll ext w (VBool true) in
  match (if nullish (vehicle d) then None else answer) with
  | None =>
      (exists e, r = Throw e) /\ d' = d /\ t = [Log msg]
  | Some success =>
      r = Ok success
      /\ d' = exec (doPoll_begin w) d
      /\ t = Log msg :: trace (doPoll_begin w) d
      /\ (if (watchDogCounter d <=? 0) || busy d
          then outcome (doPoll_begin w) d = Ok false
               /\ d' = exec cycle d /\ trace (doPoll_begin w) d = trace cycle d
          else outcome (doPoll_begin w) d = Ok true
               /\ d' = set_busy true d
               /\ trace (doPoll_begin w) d = [ApiLogin (w_login w)]
               /\ exec (doPoll_resume ext w (VBool true)) d' = exec cycle d
               /\ ApiLogin (w_login w)
                  :: trace (doPoll_resume ext w (VBool true)) d'
                  = trace cycle d)
      /\ forall a, ~ In (ApiStatus false a) (trace cycle d)
  end.

(** ** Observations on pairing *)

(** The client has spoken: 'error' or 'ready'. *)
Definition is_client_signal (e : client_event) : bool :=
  match e with ClientError _ | ClientReady _ => true | _ => false end.

(** The variables of [onPair] when the promise of 'validate' is created. *)
Definition pairing_start (data : jsval) (errors : list string) : pairing :=
  mkPairing data [] Pending false [] errors.

(** Every pending [odometer()] call belongs to a vehicle list that is not
    empty and came with a 'ready' event of [all], and a fulfilled promise
    carries [true] next to a stored vehicle list of that kind. *)
Definition delivered (all : list client_event) (veh : list jsval) : Prop :=
  veh <> [] /\ In (ClientReady (Some veh)) all.

Definition pairing_sound (all : list client_event) (p : pairing) : Prop :=
  Forall (delivered all) (p_odometer p)
  /\ forall v, p_promise p = Fulfilled v ->
               v = VBool true /\ delivered all (p_vehicles p)
               /\ exists i, In (OdometerSettled i true) all.

(** A listed device next to the vehicle it was made from: every field of
    the entry, by where it comes from. *)
Definition entry_of (pf : platform) (settings vehicle entry : jsval) : Prop :=
  let cfg := prop vehicle "vehicleConfig" in
  let stored := prop entry "settings" in
  nullish vehicle = false /\ nullish cfg = false
  /\ prop entry "name" = prop cfg "nickname"
  /\ prop (prop entry "data") "id" = prop cfg "vin"
  /\ own_keys (prop entry "data") = ["id"]
  /\ prop stored "username" = prop settings "username"
  /\ prop stored "password" = prop settings "password"
  /\ prop stored "pin" = prop settings "pin"
  /\ prop stored "region" = prop settings "region"
  /\ prop stored "nameOrg" = prop cfg "name"
  /\ prop stored "idOrg" = prop cfg "id"
  /\ prop stored "vin" = prop cfg "vin"
  /\ prop stored "brandIndicator" = prop cfg "brandIndicator"
  /\ prop stored "generation" = prop cfg "generation"
  /\ prop stored "lat" = latitude pf
  /\ prop stored "lon" = longitude pf
  /\ own_keys stored
     = ["username"; "password"; "pin"; "region"; "nameOrg"; "idOrg"; "vin";
        "regDate"; "brandIndicator"; "generation"; "lat"; "lon"]
  /\ prop entry "capabilities" = deviceCapabilities pf
  /\ own_keys entry = ["name"; "data"; "settings"; "capabilities"]
  /\ exists s, prop cfg "regDate" = VStr s
               /\ prop stored "regDate" = VStr (before_space s).

Fixpoint has_space (s : string) : bool :=
  match s with
  | EmptyString => false
  | String c s' => String.eqb (String c EmptyString) " " || has_space s'
  end.

(** ** Observations on the failures of a cycle *)

(** What the [try] block of [doPoll] can throw: the rejected login, 'not
    logged in', a missing [settings], the rejected cached status, a status
    without [battery], the three rejected calls to the car, and settings
    without a user token. *)
Definition poll_error_causes : list exn :=
  [Rejected "login"; PlainError "not logged in";
   TypeError "pollIntervalForced"; Rejected "status"; TypeError "batSoc";
   TypeError "batteryAlarmLevel"; Rejected "location"; Rejected "odometer";
   TypeError "abrp_user_token"; TypeError "length"].



(** [onDeleted] (lines 199-203). *)
Definition onDeleted : M unit :=
  stopPolling ;;
  emit (Log "Car deleted as device").

(** ** More sample data *)

(** [settled_device] of a user who gave a token for the telemetry
    forwarder. *)
Definition telemetry_device : device :=
  set_settings
    (VObj 43 [("username", VStr "u"); ("password", VStr "p");
              ("region", VStr "EU"); ("pin", VStr "1234");
              ("vin", VStr "ABCD12EFG3451234");
              ("pollInterval", VNum 5); ("pollIntervalForced", VNum 0);
              ("batteryAlarmLevel", VNum 50); ("EVbatteryAlarmLevel", VNum 20);
              ("lat", VNum 52); ("lon", VNum 5);
              ("abrp_user_token", VStr "0123-4567")])
    settled_device.

(** [settled_device] with a cycle in flight. *)
Definition busy_device : device := set_busy true settled_device.





(** [fresh_device] after a first, forced cycle that found the car
    parked. *)
Definition parked_device : device :=
  exec (doPoll sample_ext (calm_world parked parked) (VBool true))
       fresh_device.

(** A device with the watchdog budget used up while a cycle is still
    marked as in flight. *)
Definition stuck_device : device := set_busy true exhausted_device.

(** [sample_settings] as an older version of the app stored them, without
    a token for the telemetry forwarder. *)
Definition tokenless_settings : jsval :=
  VObj 44 [("username", VStr "u"); ("password", VStr "p"); ("region", VStr "EU");
           ("pin", VStr "1234"); ("vin", VStr "ABCD12EFG3451234");
           ("pollInterval", VNum 5); ("pollIntervalForced", VNum 0);
           ("batteryAlarmLevel", VNum 50); ("EVbatteryAlarmLevel", VNum 20);
           ("lat", VNum 52); ("lon", VNum 5)].

(** The login is rejected. *)
Definition login_down : world :=
  mkWorld None false (Some parked) (Some driving)
          (Some (location_of 60 53 6 0)) (Some (odometer_of 61 12345))
          2000000 2000000 2000000 (fun _ => Some (VStr "Utrecht")) true.

(** Credentials as the pairing view sends them, with a PIN of four and of
    five characters. *)
Definition credentials (pin : string) : jsval :=
  VObj 70 [("username", VStr "u"); ("password", VStr "p");
           ("pin", VStr pin); ("region", VStr "EU")].

(** The vehicle quoted at the end of the driver's source. *)
Definition niro : jsval :=
  VObj 71
    [("vehicleConfig",
       VObj 72 [("nickname", VStr "NIRO"); ("name", VStr "NIRO EV 19");
                ("regDate", VStr "2020-07-01 12:00:00.000");
                ("brandIndicator", VStr "H");
                ("id", VStr "40346e0c-144c-422d-a944-159a22f14ec8");
                ("vin", VStr "ABCD12EFG3451234");
                ("generation", VStr "2020")])].

Definition uvo_driver : jsval := VObj 73 [("driverId", VStr "uvo")].

Definition home : platform :=
  mkPlatform (VObj 74 []) (VNum 52) (VNum 5).

(** Nothing paired yet. *)
Definition unpaired : pairing := mkPairing VUndef [] Pending false [] [].

(** * Proofs *)

(** ** Rules for [wp] *)

Section Rules.

Context {A : Type}.
Implicit Types (d : device) (Q : result A -> device -> list event -> Prop).

Lemma wp_ret (a : A) d Q : Q (Ok a) d [] -> wp (ret a) d Q.
Proof. exact (fun H => H). Qed.

Lemma wp_throw (e : exn) d Q : Q (Throw e) d [] -> wp (throw e) d Q.
Proof. exact (fun H => H). Qed.

Lemma wp_return d Q : Q Return d [] -> wp return_ d Q.
Proof. exact (fun H => H). Qed.

Lemma wp_bind {B} (m : M B) (k : B -> M A) d Q :
  wp m d (fun r d1 t1 =>
            match r with
            | Ok b => wp (k b) d1 (fun r2 d2 t2 => Q r2 d2 (t1 ++ t2))
            | Throw e => Q (Throw e) d1 t1
            | Return => Q Return d1 t1
            end) ->
  wp (bind m k) d Q.
Proof.
  unfold wp, outcome, exec, trace, bind.
  destruct (m d) as [[r d1] t1]; cbn.
  destruct r as [b| |]; auto.
  destruct (k b d1) as [[r2 d2] t2]; auto.
Qed.

Lemma wp_await (what : string) (o : option A) d Q :
  (o = None -> Q (Throw (Rejected what)) d []) ->
  (forall a, o = Some a -> Q (Ok a) d []) ->
  wp (await what o) d Q.
Proof. intros HN HS. destruct o; [apply (HS a)|apply HN]; reflexivity. Qed.

Lemma wp_mono (m : M A) d Q Q' :
  wp m d Q -> (forall r d' t, Q r d' t -> Q' r d' t) -> wp m d Q'.
Proof. unfold wp; auto. Qed.

End Rules.

Lemma wp_this d (Q : result device -> device -> list event -> Prop) :
  Q (Ok d) d [] -> wp this d Q.
Proof. exact (fun H => H). Qed.

Lemma wp_assign f d (Q : result unit -> device -> list event -> Prop) :
  Q (Ok tt) (f d) [] -> wp (assign f) d Q.
Proof. exact (fun H => H). Qed.

Lemma wp_emit e d (Q : result unit -> device -> list event -> Prop) :
  Q (Ok tt) d [e] -> wp (emit e) d Q.
Proof. exact (fun H => H). Qed.

Lemma wp_get v k d (Q : result jsval -> device -> list event -> Prop) :
  (nullish v = true -> Q (Throw (TypeError k)) d []) ->
  (nullish v = false -> Q (Ok (prop v k)) d []) ->
  wp (get v k) d Q.
Proof.
  intros HT HF. unfold get.
  destruct (nullish v); [apply HT|apply HF]; reflexivity.
Qed.

Lemma wp_try_catch (m : M unit) h d
    (Q : result unit -> device -> list event -> Prop) :
  wp m d (fun r d1 t1 =>
            match r with
            | Ok _ | Return => Q (Ok tt) d1 t1
            | Throw e => wp (h e) d1 (fun r2 d2 t2 => Q r2 d2 (t1 ++ t2))
            end) ->
  wp (try_catch m h) d Q.
Proof.
  unfold wp, outcome, exec, trace, try_catch.
  destruct (m d) as [[r d1] t1]; cbn.
  destruct r as [[]|e|]; auto.
  destruct (h e d1) as [[r2 d2] t2]; auto.
Qed.

(** One step of symbolic execution. *)
Ltac wp_step :=
  lazymatch goal with
  | |- wp (bind _ _) _ _ => apply wp_bind
  | |- wp (ret _) _ _ => apply wp_ret
  | |- wp (throw _) _ _ => apply wp_throw
  | |- wp return_ _ _ => apply wp_return
  | |- wp this _ _ => apply wp_this
  | |- wp (assign _) _ _ => apply wp_assign
  | |- wp (emit _) _ _ => apply wp_emit
  | |- wp (trigger _) _ _ => apply wp_emit
  | |- wp (get _ _) _ _ => apply wp_get; intros ?
  | |- wp (await _ _) _ _ => apply wp_await; [intros ? | intros ? ?]
  | |- wp (try_catch _ _) _ _ => apply wp_try_catch
  | |- wp (when ?c _) _ _ => unfold when; destruct c eqn:?
  | |- wp (if ?c then _ else _) _ _ => destruct c eqn:?
  end; cbv beta iota; cbn [fst snd].

Ltac wp_run := repeat wp_step.

(** ** The capability store *)

Lemma caps_only_refl d : caps_only d d.
Proof. destruct d; reflexivity. Qed.

Lemma caps_only_step d d1 d2 m :
  caps_only d d1 -> d2 = set_capabilities m d1 -> caps_only d d2.
Proof.
  unfold caps_only; intros H1 ->.
  destruct d, d1; unfold set_capabilities in *; cbn in *.
  injection H1 as -> -> -> -> -> -> -> -> -> -> -> -> ->. reflexivity.
Qed.

Lemma changed_step d d' c v p :
  d' = set_capabilities (stored d c v) d -> fst p <> c ->
  changed d' p = changed d p.
Proof.
  intros -> Hne. unfold changed, hasCapability, getCapabilityValue, stored.
  cbn. destruct (changed d (c, v)); [|reflexivity].
  rewrite lookup_insert_ne by congruence. reflexivity.
Qed.

Lemma write_events_step d d' c v p :
  d' = set_capabilities (stored d c v) d -> fst p <> c ->
  write_events d' p = write_events d p.
Proof.
  intros H Hne. unfold write_events. rewrite (changed_step _ _ _ _ _ H Hne).
  reflexivity.
Qed.

Lemma liveData_step d d' m :
  d' = set_capabilities m d -> liveData d' = liveData d.
Proof. intros ->; reflexivity. Qed.

Lemma wp_setCapability c v d
    (Q : result unit -> device -> list event -> Prop) :
  (forall d', d' = set_capabilities (stored d c v) d ->
              Q (Ok tt) d' (write_events d (c, v))) ->
  wp (setCapability c v) d Q.
Proof.
  intros H. unfold wp, outcome, exec, trace, setCapability, bind; cbn.
  specialize (H _ eq_refl).
  unfold write_events, stored, changed in *; cbn in *.
  destruct (hasCapability d c); cbn in *.
  - destruct (strict_eq v (getCapabilityValue d c)); cbn in *; [|exact H].
    destruct d; exact H.
  - destruct d; exact H.
Qed.

Lemma Forall_write_events d p :
  Forall (fun e => is_dispatch e = true) (write_events d p).
Proof. unfold write_events. destruct (changed d p); repeat constructor. Qed.

Lemma Forall_directional_trigger old c v :
  Forall (fun e => is_dispatch e = true) (directional_trigger old c v).
Proof.
  unfold directional_trigger. destruct (strict_eq _ _); repeat constructor.
Qed.

Lemma wp_when_trigger old c v d
    (Q : result unit -> device -> list event -> Prop) :
  Q (Ok tt) d (directional_trigger old c v) ->
  wp (when (truthy (strict_neq v old)) (trigger (directional c v))) d Q.
Proof.
  intros H. unfold directional_trigger in H. unfold strict_neq; cbn.
  destruct (strict_eq v old); exact H.
Qed.

(** ** handleInfo *)

Ltac info_step :=
  first
    [ lazymatch goal with
      | |- wp (setCapability _ _) _ _ => apply wp_setCapability; intros ? ?
      | |- wp (closedLocked _ _ _ _) _ _ => unfold closedLocked
      | |- wp (distance _ _) _ _ => unfold distance
      | |- wp (toString _) _ _ => unfold toString
      | |- wp (when (truthy _) (trigger _)) _ _ => apply wp_when_trigger
      end
    | wp_step ]; cbn [app].

Ltac caps_chain :=
  repeat match goal with
    | H : ?d' = set_capabilities _ ?d0 |- caps_only _ ?d' =>
        refine (caps_only_step _ d0 d' _ _ H)
    end;
  apply caps_only_refl.

Ltac dispatch_only :=
  repeat (apply Forall_app_2);
  first [apply Forall_write_events | apply Forall_directional_trigger
        | constructor].

Ltac info_failed :=
  split; [discriminate|]; split; [caps_chain|]; split; [dispatch_only|];
  discriminate.

(** The writes of one run read the store as it was at the start: the
    capability names are pairwise distinct. *)
Ltac info_rewind :=
  repeat match goal with
    | H : ?d' = set_capabilities (stored ?d0 ?c ?v) ?d0
      |- context [write_events ?d' ?p] =>
        rewrite (write_events_step d0 d' c v p H) by (cbn; discriminate)
    | H : ?d' = set_capabilities ?m ?d0 |- context [liveData ?d'] =>
        rewrite (liveData_step d0 d' m H)
    end.

Ltac info_done :=
  split; [discriminate|]; split; [caps_chain|]; split; [dispatch_only|];
  intros _; info_rewind;
  unfold derived_properties, fired, monitored;
  cbn [flat_map app fst snd];
  repeat match goal with
    | H : ?o = Some _ |- context [?o] => rewrite H
    | H : truthy ?o = _ |- context [truthy ?o] => rewrite H
    end;
  cbn [default]; rewrite <- ?app_assoc, ?app_nil_r; cbn [app]; reflexivity.

Lemma handleInfo_try_spec ext w status location odometer d :
  wp (handleInfo_try ext w status location odometer) d
     (handleInfo_post ext w status location odometer d).
Proof.
  unfold handleInfo_try.
  repeat info_step.
  all: try (solve [info_failed]).
  all: info_done.
Qed.

(** ** login, decide *)

Lemma filterM_pure (p : jsval -> M bool) l d
    (Q : result (list jsval) -> device -> list event -> Prop) :
  (forall x d0, exec (p x) d0 = d0 /\ trace (p x) d0 = []) ->
  (forall r, Q r d []) ->
  wp (filterM p l) d Q.
Proof.
  intros Hp. revert Q. induction l as [|x l IH]; intros Q HQ; cbn [filterM].
  - wp_run. apply HQ.
  - apply wp_bind. unfold wp at 1.
    destruct (Hp x d) as [-> ->].
    destruct (outcome (p x) d); try apply HQ.
    apply wp_bind. apply IH. intros [r| |]; apply HQ.
Qed.

Lemma login_spec w d : wp (login w) d (login_post w d).
Proof.
  unfold login, login_post. wp_run.
  destruct (w_ready w) as [vehicles|].
  - wp_step. unfold onReady. wp_step. wp_step. wp_step.
    apply filterM_pure.
    + intros x d0. unfold exec, trace, bind, get.
      destruct (nullish x); cbn; [easy|].
      destruct (nullish (prop x "vehicleConfig")); cbn; [easy|].
      destruct (nullish (settings d)); cbn; easy.
    + intros [matching| |]; wp_run; cbn [app];
        repeat split; try discriminate; try (destruct d; reflexivity);
        repeat constructor.
  - wp_run; cbn [app]; repeat split; try discriminate;
      try (destruct d; reflexivity); repeat constructor.
Qed.


Lemma wp_pure {A} (m : M A) d (Q : result A -> device -> list event -> Prop) :
  pure_run m d -> Q (outcome m d) d [] -> wp m d Q.
Proof. intros (He & Ht & _). unfold wp. rewrite He, Ht. auto. Qed.

Lemma pure_forceRefresh_of ext w force s l o d :
  pure_run (forceRefresh_of ext w force s l o) d.
Proof.
  unfold pure_run, forceRefresh_of, exec, trace, outcome, bind, get; cbn.
  destruct (truthy force); cbn; [easy|].
  destruct (nullish (settings d)); cbn; easy.
Qed.

Lemma pure_sleepModeCheck_of s d : pure_run (sleepModeCheck_of s) d.
Proof.
  unfold pure_run, sleepModeCheck_of, exec, trace, outcome, bind, get; cbn.
  destruct (truthy s); cbn; [|easy].
  destruct (truthy (prop s "sleepModeCheck")); cbn; [easy|].
  destruct (nullish (lastStatus d)); cbn; easy.
Qed.

Lemma pure_batSoCGood_of ext s d : pure_run (batSoCGood_of ext s) d.
Proof.
  unfold pure_run, batSoCGood_of, exec, trace, outcome, bind, get; cbn.
  destruct (truthy s); cbn; [|easy].
  destruct (nullish (prop s "battery")); cbn; [easy|].
  destruct (nullish (settings d)); cbn; easy.
Qed.

Ltac wp_pure_call lem :=
  lazymatch goal with
  | |- wp ?m ?d _ =>
      apply (wp_pure m d _ lem);
      let E := fresh "E" in
      destruct (outcome m d) as [?|?|] eqn:E;
      [ | | exfalso; exact (proj2 (proj2 lem) E) ]
  end.

Lemma decide_spec ext w force d :
  wp (decide ext w force) d (decide_post ext w force d).
Proof.
  unfold decide. wp_run.
  wp_pure_call (pure_forceRefresh_of ext w force (lastStatus d)
                  (lastLocation d) (lastOdometer d) d).
  2:{ repeat split; try discriminate; try (destruct d; reflexivity);
        constructor. }
  assert (Hfail : forall e t,
             Forall (fun e => is_decide_event e = true) t ->
             (truthy a = true -> Forall (fun e => is_api e = false) t) ->
             decide_post ext w force d (Throw e) d t).
  { intros e t Ht Hq. split; [discriminate|].
    split; [destruct d; reflexivity|]. split; [exact Ht|].
    split; [|discriminate].
    intros fr Hfr. rewrite E in Hfr. injection Hfr as <-. exact Hq. }
  destruct (truthy a) eqn:Ha; cbn [negb]; unfold vehicle_status; wp_run;
    cbn [app].
  all: try (apply Hfail;
            [ repeat constructor
            | intros Hq; first [discriminate Hq|repeat constructor] ]).
  all: match goal with |- wp (sleepModeCheck_of ?s) _ _ =>
    wp_pure_call (pure_sleepModeCheck_of s d) end.
  all: try (apply Hfail;
            [ repeat constructor
            | intros Hq; first [discriminate Hq|repeat constructor] ]).
  all: wp_run; cbn [app].
  all: match goal with |- wp (batSoCGood_of _ ?s) _ _ =>
    wp_pure_call (pure_batSoCGood_of ext s d) end.
  all: try (apply Hfail;
            [ repeat constructor
            | intros Hq; first [discriminate Hq|repeat constructor] ]).
  all: wp_run; cbn [app].
  all: split; [discriminate|]; split; [destruct d; reflexivity|];
       split; [repeat constructor|];
       split; [intros fr Hfr Hq; rewrite E in Hfr; injection Hfr as <-;
               first [congruence|repeat constructor]|];
       intros dc [= <-]; cbn; rewrite Ha.
  all: repeat match goal with H : w_status_cached _ = Some _ |- _ =>
         rewrite H in * end.
  all: repeat split; auto; repeat constructor.
Qed.

(** ** publish, refresh *)

Ltac wp_call lem :=
  eapply wp_mono; [apply lem | cbv beta; intros ? ? ?].

Lemma dispatch_not_api t :
  Forall (fun e => is_dispatch e = true) t -> Forall (fun e => is_api e = false) t.
Proof.
  intros H. eapply Forall_impl; [exact H|].
  intros [] He; try discriminate; reflexivity.
Qed.

Lemma abrpTelemetry_spec w st loc odo d :
  wp (abrpTelemetry w st loc odo) d
     (fun r d' t => r = Ok tt /\ d' = d /\ Forall (fun e => is_dispatch e = true) t).
Proof.
  unfold abrpTelemetry. wp_run; cbn [app]; repeat split; repeat constructor.
Qed.

Lemma handleInfo_spec ext w st loc odo d :
  wp (handleInfo ext w st loc odo) d
     (fun r d' t => r = Ok tt /\ caps_only d d'
                    /\ Forall (fun e => is_dispatch e = true) t).
Proof.
  unfold handleInfo. apply wp_try_catch.
  wp_call handleInfo_try_spec. intros (Hr & Hc & Ht & _).
  destruct r as [[]|e|]; [easy| |easy].
  wp_run. repeat split; auto. apply Forall_app_2; auto.
Qed.

Lemma publish_spec ext w dc st ns loc odo d :
  wp (publish ext w dc st ns loc odo) d (publish_post ext w st loc odo d).
Proof.
  unfold publish. wp_run; cbn [app].
  all: match goal with
       | |- context [set_carLastActive ?x ?y] =>
           set (dm := set_carLastActive x y) in *
       end.
  all: try (split; [discriminate|]; split; [reflexivity|];
            split; [repeat constructor|]; split; [|discriminate];
            intros Hl; subst dm; cbn in *; congruence).
  all: try (wp_call abrpTelemetry_spec; intros (-> & -> & Ht1); cbv iota).
  all: pose proof (handleInfo_spec ext w st loc odo dm) as (Hr & Hc & Ht);
       unfold wp; rewrite Hr.
  all: (split; [discriminate|]; split;
        [rewrite Hc; reflexivity|]; split;
        [repeat (apply Forall_cons; split; [reflexivity|]);
         repeat apply Forall_app_2; auto using dispatch_not_api|];
        split; [reflexivity|]).
  all: intros _.
  all: match goal with
       | |- published _ _ _ _ _ _ _ (?a :: ?b :: ?c :: ?t1 ++ ?t2) =>
           exists (a :: b :: c :: t1), dm
       | |- published _ _ _ _ _ _ _ (?a :: ?b :: ?c :: ?t2) =>
           exists [a; b; c], dm
       | |- published _ _ _ _ _ _ _ (?t1 ++ ?t2) => exists t1, dm
       | |- published _ _ _ _ _ _ _ ?t2 => exists [], dm
       end; repeat split; reflexivity.
Qed.

Lemma kept_by_publish_fields d d' :
  kept_by_publish d' = kept_by_publish d ->
  watchDogCounter d' = watchDogCounter d /\ busy d' = busy d
  /\ intervalIdDevicePoll d' = intervalIdDevicePoll d
  /\ restartTimers d' = restartTimers d /\ settings d' = settings d
  /\ liveData d' = liveData d /\ lastStatus d' = lastStatus d
  /\ lastLocation d' = lastLocation d /\ lastOdometer d' = lastOdometer d
  /\ vehicle d' = vehicle d.
Proof.
  intros H.
  repeat split;
    [ apply (f_equal watchDogCounter) in H | apply (f_equal busy) in H
    | apply (f_equal intervalIdDevicePoll) in H
    | apply (f_equal restartTimers) in H | apply (f_equal settings) in H
    | apply (f_equal liveData) in H | apply (f_equal lastStatus) in H
    | apply (f_equal lastLocation) in H | apply (f_equal lastOdometer) in H
    | apply (f_equal vehicle) in H ]; exact H.
Qed.

Lemma published_from ext w st loc odo d0 d live t :
  published ext w st loc odo d0 live t ->
  capabilities d0 = capabilities d -> settings d0 = settings d ->
  published ext w st loc odo d live t.
Proof.
  intros (pre & dm & -> & Hc & Hs & Hl) Hc' Hs'.
  exists pre, dm. repeat split; congruence.
Qed.

Lemma published_app ext w st loc odo d live pre t :
  published ext w st loc odo d live t ->
  published ext w st loc odo d live (pre ++ t).
Proof.
  intros (pre' & dm & -> & H). exists (pre ++ pre'), dm.
  rewrite app_assoc. auto.
Qed.

Lemma refresh_spec ext w dc loc odo d :
  wp (refresh ext w dc loc odo) d (refresh_post ext w dc loc odo d).
Proof.
  unfold refresh, fetch_status, fetch_position, vehicle_status,
    vehicle_location, vehicle_odometer.
  wp_run; cbn [app fst snd].
  all: try (wp_call publish_spec; intros (Hr & Hk & Ht & Hok & Hp);
            apply kept_by_publish_fields in Hk; cbn in Hk;
            destruct Hk as (Hwd & Hbusy & Hint & Htim & Hset & Hlive & Hst
                            & Hloc & Hodo & Hveh);
            destruct r as [[]|e|]; [wp_run; cbn [app]| |congruence]).
  all: repeat match goal with
         | H : w_status_live _ = _ |- context [ApiStatus true (w_status_live _)] =>
             rewrite H
         | H : w_location _ = _ |- context [ApiLocation (w_location _)] =>
             rewrite H
         | H : w_odometer _ = _ |- context [ApiOdometer (w_odometer _)] =>
             rewrite H
         end.
  all: rewrite ?app_nil_r.
  all: (split; [discriminate|]; cbn;
        split; [first [reflexivity|assumption]|];
        split; [first [reflexivity|assumption]|];
        split; [first [reflexivity|assumption]|];
        split; [first [reflexivity|assumption]|]).
  - right; left. auto.
  - right; right; left. exists a. auto 10.
  - right; right; right; left. exists a, a0. auto 10.
  - right; right; right; right. exists a, a0, a1, t.
    repeat (split; [first [reflexivity|assumption]|]).
    left. repeat (split; [reflexivity|]).
    eapply published_from; [exact (Hp eq_refl)|reflexivity..].
  - right; right; right; right. exists a, a0, a1, t.
    repeat (split; [first [reflexivity|assumption]|]).
    right. exists e. auto.
  - left. repeat (split; [first [reflexivity|assumption]|]).
    eapply published_from; [exact (Hp eq_refl)|reflexivity..].
  - specialize (Hok Heqb). discriminate.
Qed.

(** ** doPoll *)

Lemma doPoll_try_spec ext w force d :
  wp (doPoll_try ext w force) d (doPoll_try_cases ext w force d).
Proof.
  unfold doPoll_try, restartDevice, stopPolling. wp_run; cbn [app].
  - left. apply Z.leb_le in Heqb. auto.
  - right; left. apply Z.leb_gt in Heqb. auto.
  - apply Z.leb_gt in Heqb.
    wp_call login_spec. intros (Hr & Hd1 & Hpre).
    assert (Hearly : forall e, doPoll_try_cases ext w force d (Throw e) d' t).
    { intros e. right; right. split; [assumption|]. split; [assumption|].
      exists d', t. split; [exact Hd1|]. split; [exact Hpre|]. left. eauto. }
    destruct r as [[]|e|]; [|apply Hearly|congruence].
    wp_run; cbn [app]; rewrite ?app_nil_r; try apply Hearly.
    unfold wp at 1.
    pose proof (decide_spec ext w force d') as (Hnr & _). unfold wp in Hnr.
    destruct (outcome (decide ext w force) d') as [dc|e|] eqn:Hdec;
      [unfold wp| |congruence].
    all: right; right; (split; [assumption|]); (split; [assumption|]).
    all: exists d', t; (split; [exact Hd1|]); (split; [exact Hpre|]); right.
    all: rewrite Hdec; cbn zeta; auto.
Qed.

Lemma login_not_live t :
  Forall (fun e => is_login_event e = true) t -> not_live t.
Proof.
  intros H. eapply Forall_impl; [exact H|].
  intros [] He; try discriminate; reflexivity.
Qed.

Lemma decide_not_live t :
  Forall (fun e => is_decide_event e = true) t -> not_live t.
Proof.
  intros H. eapply Forall_impl; [exact H|].
  intros [| | | |[]| | | | | | | | | |] He; try discriminate; reflexivity.
Qed.

Lemma api_not_live t :
  Forall (fun e => is_api e = false) t -> not_live t.
Proof.
  intros H. eapply Forall_impl; [exact H|].
  intros [| | | |[]| | | | | | | | | |] He; try discriminate; reflexivity.
Qed.

Lemma logged_in_fields d d1 :
  logged_in d d1 ->
  watchDogCounter d1 = watchDogCounter d /\ busy d1 = true
  /\ intervalIdDevicePoll d1 = intervalIdDevicePoll d
  /\ restartTimers d1 = restartTimers d /\ settings d1 = settings d
  /\ lastStatus d1 = lastStatus d /\ lastLocation d1 = lastLocation d
  /\ lastOdometer d1 = lastOdometer d /\ capabilities d1 = capabilities d
  /\ lastRefresh d1 = lastRefresh d /\ carLastActive d1 = carLastActive d.
Proof. unfold logged_in. intros ->. cbn. repeat split. Qed.

Lemma decided_fields d1 d2 :
  d2 = set_liveData (liveData d2) d1 ->
  watchDogCounter d2 = watchDogCounter d1 /\ busy d2 = busy d1
  /\ intervalIdDevicePoll d2 = intervalIdDevicePoll d1
  /\ restartTimers d2 = restartTimers d1 /\ settings d2 = settings d1
  /\ lastStatus d2 = lastStatus d1 /\ lastLocation d2 = lastLocation d1
  /\ lastOdometer d2 = lastOdometer d1 /\ capabilities d2 = capabilities d1.
Proof. intros ->. cbn. repeat split. Qed.

Lemma truthy_js_or a b : truthy (js_or a b) = truthy a || truthy b.
Proof. unfold js_or. destruct (truthy a) eqn:H; [exact H|reflexivity]. Qed.

Lemma truthy_js_and a b : truthy (js_and a b) = truthy a && truthy b.
Proof. unfold js_and. destruct (truthy a) eqn:H; [reflexivity|exact H]. Qed.

Lemma doPoll_try_main ext w force d :
  0 < watchDogCounter d -> busy d = false ->
  wp (doPoll_try ext w force) d (main_path ext w force d).
Proof.
  intros Hwd Hbusy.
  pose proof (doPoll_try_spec ext w force d) as H. unfold wp in *.
  destruct H as [(Hle & _)|[(_ & Hb & _)|(_ & _ & d1 & pre & Hd1 & Hpre & H)]];
    [lia|congruence|].
  apply login_not_live in Hpre.
  apply logged_in_fields in Hd1.
  destruct Hd1 as (Hwd1 & Hb1 & Hi1 & Ht1 & Hs1 & Hst1 & Hl1 & Ho1 & Hc1 & _).
  destruct H as [(e & -> & -> & ->)|H].
  { split; [discriminate|]. repeat (split; [assumption|]). left.
    repeat split; eauto. }
  pose proof (decide_spec ext w force d1) as (_ & Hd2 & Hdt & _ & Hdc).
  unfold wp in *.
  apply decided_fields in Hd2.
  destruct Hd2 as (Hwd2 & Hb2 & Hi2 & Ht2 & Hs2 & Hst2 & Hl2 & Ho2 & Hc2).
  apply decide_not_live in Hdt.
  destruct (outcome (decide ext w force) d1) as [dc|e|] eqn:Hdec;
    [|destruct H as (-> & -> & ->)|contradiction].
  2:{ split; [discriminate|]. repeat (split; [congruence|]). left.
      repeat split; eauto; try congruence. apply Forall_app_2; auto. }
  cbn zeta in H. destruct H as (-> & -> & ->).
  specialize (Hdc dc eq_refl) as (Hlive & _ & Hfr & _).
  set (d2 := exec (decide ext w force) d1) in *.
  pose proof (refresh_spec ext w dc (lastLocation d1) (lastOdometer d1) d2)
    as (Hnr & Hint & Htim & Hset & Hlv & Hcases).
  unfold wp in *.
  set (rf := refresh ext w dc (lastLocation d1) (lastOdometer d1)) in *.
  split; [assumption|]. repeat (split; [congruence|]).
  destruct Hcases as [HA|[HB|[HC|[HD|HE]]]].
  - destruct HA as (Hl & Hr & Hta & Hs & Hlo & Hod & Hw & Hb & Hp).
    right; left.
    assert (Hfalse : truthy (dc_forceRefresh dc) = false).
    { rewrite Hlive in Hl. unfold liveData_of in Hl.
      rewrite truthy_js_or in Hl. apply orb_false_elim in Hl. tauto. }
    rewrite Hfalse in Hfr. destruct Hfr as (Hcached & Hin).
    split; [assumption|].
    split; [repeat apply Forall_app_2;
            [exact Hpre|exact Hdt|exact (api_not_live _ Hta)]|].
    repeat (split; [congruence|]).
    exists (dc_status dc). split; [assumption|].
    split; [apply in_or_app; right; apply in_or_app; left; exact Hin|].
    split; [assumption|].
    rewrite app_assoc. apply published_app. rewrite Hlv, <- Hl1, <- Ho1.
    eapply published_from; [exact Hp|congruence..].
  - destruct HB as (_ & _ & Hr & Ht & Hd).
    right; right; left. exists (pre ++ trace (decide ext w force) d1).
    rewrite Ht, Hd, <- app_assoc.
    split; [assumption|]. split; [apply Forall_app_2; [exact Hpre|exact Hdt]|].
    repeat split; congruence.
  - destruct HC as (s & _ & _ & _ & Hr & Ht & Hd).
    right; right; right; left.
    exists (pre ++ trace (decide ext w force) d1), s.
    rewrite Ht, Hd, <- app_assoc; cbn.
    split; [assumption|]. split; [apply Forall_app_2; [exact Hpre|exact Hdt]|].
    repeat split; congruence.
  - destruct HD as (s & l & _ & _ & _ & _ & Hr & Ht & Hd).
    right; right; right; right; left.
    exists (pre ++ trace (decide ext w force) d1), s, l.
    rewrite Ht, Hd, <- app_assoc; cbn.
    split; [assumption|]. split; [apply Forall_app_2; [exact Hpre|exact Hdt]|].
    repeat split; congruence.
  - destruct HE as (s & l & o & post & Hlt & _ & _ & _ & Ht & Hpost & Hs & Hl
                    & Ho & Hend).
    right; right; right; right; right.
    exists (pre ++ trace (decide ext w force) d1), s, l, o, post.
    split; [apply Forall_app_2; [exact Hpre|exact Hdt]|]. split; [assumption|].
    split; [rewrite Ht, <- app_assoc; reflexivity|].
    repeat (split; [assumption|]). split; [congruence|].
    destruct Hend as [(Hr & Hw & Hb & Hp)|(e & Hr & Hw & Hb)].
    + left. repeat (split; [assumption|]).
      rewrite Ht, app_assoc.
      apply published_app.
      destruct Hp as (pre' & dm & -> & Hp).
      exists ([ApiStatus true (Some s); ApiLocation (Some l);
               ApiOdometer (Some o)] ++ pre'), dm.
      rewrite <- app_assoc. split; [reflexivity|].
      destruct Hp as (Hpc & Hps & Hpl). repeat split; congruence.
    + right. exists e. split; [assumption|]. congruence.
Qed.

Lemma doPoll_run ext w force d :
  outcome (doPoll ext w force) d = Ok tt
  /\ match outcome (doPoll_try ext w force) d with
     | Throw e =>
         exec (doPoll ext w force) d
         = set_busy false
             (set_watchDogCounter
                (watchDogCounter (exec (doPoll_try ext w force) d) - 1)
                (exec (doPoll_try ext w force) d))
         /\ trace (doPoll ext w force) d
            = trace (doPoll_try ext w force) d ++ [ErrorLog "Poll error" e]
     | _ =>
         exec (doPoll ext w force) d = exec (doPoll_try ext w force) d
         /\ trace (doPoll ext w force) d = trace (doPoll_try ext w force) d
     end.
Proof.
  unfold doPoll, try_catch, outcome, exec, trace.
  destruct (doPoll_try ext w force d) as [[r dT] tT]; cbn.
  destruct r as [[]| |]; cbn; auto.
Qed.

(** The three ways a cycle can go, by the guards at its entry. *)
Lemma doPoll_try_guards ext w force d :
  (watchDogCounter d <= 0 /\ outcome (doPoll_try ext w force) d = Return
   /\ exec (doPoll_try ext w force) d
      = set_restartTimers (restartTimers d ++ [VNum 300000])
                          (set_intervalIdDevicePoll None d)
   /\ trace (doPoll_try ext w force) d
      = [Log "watchdog triggered, restarting app now"; ClearInterval;
         SetTimeoutInit (VNum 300000)])
  \/ (0 < watchDogCounter d /\ busy d = true
      /\ outcome (doPoll_try ext w force) d = Return
      /\ exec (doPoll_try ext w force) d
         = set_watchDogCounter (watchDogCounter d - 1) d
      /\ trace (doPoll_try ext w force) d
         = [Log "still busy with previous poll..."])
  \/ (0 < watchDogCounter d /\ busy d = false
      /\ main_path ext w force d (outcome (doPoll_try ext w force) d)
           (exec (doPoll_try ext w force) d)
           (trace (doPoll_try ext w force) d)).
Proof.
  pose proof (doPoll_try_spec ext w force d) as H. unfold wp in H.
  destruct H as [H|[H|(Hwd & Hb & _)]]; [left; exact H|right; left; exact H|].
  right; right. split; [assumption|]. split; [assumption|].
  apply (doPoll_try_main ext w force d Hwd Hb).
Qed.

Lemma watchdog_step ext w force d :
  let d' := exec (doPoll ext w force) d in
  match outcome (doPoll_try ext w force) d with
  | Ok _ =>
      watchDogCounter d' = 5
      /\ exists status location odometer live,
           published ext w status location odometer d live
                     (trace (doPoll ext w force) d)
  | Throw _ =>
      0 < watchDogCounter d /\ busy d = false
      /\ watchDogCounter d' = watchDogCounter d - 1
  | Return =>
      (watchDogCounter d <= 0 /\ watchDogCounter d' = watchDogCounter d)
      \/ (0 < watchDogCounter d /\ busy d = true
          /\ watchDogCounter d' = watchDogCounter d - 1)
  end.
Proof.
  cbn zeta.
  destruct (doPoll_run ext w force d) as (_ & Hrun).
  destruct (doPoll_try_guards ext w force d)
    as [(Hwd & Hr & Hd & Ht)|[(Hwd & Hb & Hr & Hd & Ht)|(Hwd & Hb & Hm)]].
  - rewrite Hr in *. destruct Hrun as (-> & _). rewrite Hd. left. auto.
  - rewrite Hr in *. destruct Hrun as (-> & _). rewrite Hd. right. auto.
  - destruct Hm as (Hnr & _ & _ & _ & Hcases).
    destruct (outcome (doPoll_try ext w force) d) as [[]|e|] eqn:Hr;
      [| |congruence]; destruct Hrun as (Hexec & Htrace); rewrite Hexec.
    + rewrite Htrace.
      destruct Hcases as [((e & He) & _)|[HA|[(pre & He & _)|
        [(pre & s & He & _)|[(pre & s & l & He & _)|HE]]]]];
        try discriminate.
      * destruct HA as (_ & _ & _ & _ & _ & Hw & _ & st & _ & _ & _ & Hp).
        split; [assumption|]. eauto.
      * destruct HE as (pre & s & l & o & post & _ & _ & _ & _ & _ & _ & _ & Hend).
        destruct Hend as [(_ & Hw & _ & Hp)|(e & He & _)]; [|discriminate].
        split; [assumption|]. eauto.
    + split; [assumption|]. split; [assumption|]. cbn.
      destruct Hcases as [(_ & _ & _ & _ & _ & Hw)|[HA|
        [(pre & _ & _ & _ & _ & _ & _ & Hw)|
        [(pre & s & _ & _ & _ & _ & _ & _ & Hw)|
        [(pre & s & l & _ & _ & _ & _ & _ & _ & Hw)|HE]]]]]; try lia.
      * destruct HA as (HA & _). discriminate.
      * destruct HE as (pre & s & l & o & post & _ & _ & _ & _ & _ & _ & _ & Hend).
        destruct Hend as [(He & _)|(e' & _ & Hw)]; [discriminate|lia].
Qed.

(** A cycle that passes both guards leaves [busy] cleared and the timers and
    settings as they were. *)
Lemma doPoll_control ext w force d :
  0 < watchDogCounter d -> busy d = false ->
  let d' := exec (doPoll ext w force) d in
  busy d' = false /\ intervalIdDevicePoll d' = intervalIdDevicePoll d
  /\ restartTimers d' = restartTimers d /\ settings d' = settings d
  /\ (watchDogCounter d' = 5 \/ watchDogCounter d' = watchDogCounter d - 1).
Proof.
  intros Hwd Hb d'. subst d'.
  pose proof (watchdog_step ext w force d) as Hw. cbn zeta in Hw.
  destruct (doPoll_run ext w force d) as (_ & Hrun).
  destruct (doPoll_try_guards ext w force d)
    as [(Hle & _)|[(_ & Hb' & _)|(_ & _ & Hm)]]; [lia|congruence|].
  destruct Hm as (Hnr & Hint & Htim & Hset & Hcases).
  destruct (outcome (doPoll_try ext w force) d) as [[]|e|] eqn:Hr;
    [| |congruence]; destruct Hrun as (Hexec & _); rewrite Hexec in *.
  - repeat (split; [|first [assumption|tauto]]).
    destruct Hcases as [((e & He) & _)|[HA|[(pre & He & _)|[(pre & s & He & _)|
        [(pre & s & l & He & _)|HE]]]]]; try discriminate.
    + tauto.
    + destruct HE as (pre & s & l & o & post & _ & _ & _ & _ & _ & _ & _ & Hend).
      destruct Hend as [(_ & _ & Hbusy & _)|(e & He & _)];
        [assumption|discriminate].
  - cbn. repeat (split; [first [reflexivity|assumption]|]). tauto.
Qed.

Lemma doPoll_watchdog_range ext w force d :
  0 <= watchDogCounter d <= 5 ->
  0 <= watchDogCounter (exec (doPoll ext w force) d) <= 5.
Proof.
  intros Hd. pose proof (watchdog_step ext w force d) as Hw.
  cbn zeta in Hw.
  destruct (outcome (doPoll_try ext w force) d); intuition lia.
Qed.

Lemma onInitDevice_watchdog_range ext s w d :
  0 <= watchDogCounter d <= 5 ->
  0 <= watchDogCounter (exec (onInitDevice ext s w) d) <= 5.
Proof.
  intros Hd. change (wp (onInitDevice ext s w) d
                        (fun _ d' _ => 0 <= watchDogCounter d' <= 5)).
  unfold onInitDevice, initFields, startPolling, stopPolling, registerListeners.
  wp_run; cbn; try lia.
  all: unfold wp at 1.
  all: match goal with
       | |- context [outcome (doPoll ?e ?w0 ?f) ?x] =>
           destruct (doPoll_run e w0 f x) as (Hok & _); rewrite Hok; cbv iota
       end.
  all: wp_run; cbn.
  all: apply doPoll_watchdog_range; cbn; lia.
Qed.

(** C10. The counter is 5 after [initFields]; over any sequence of poll
    cycles, fired restart timers and settings changes that follows, run one
    after the other, it stays within [0, 5]; and a cycle lowers it by one
    only from a strictly positive value. *)
Theorem watchdog_range ext steps s d0 :
  let d := exec (initFields s) d0 in
  watchDogCounter d = 5
  /\ 0 <= watchDogCounter (run ext steps d) <= 5
  /\ forall w force d1,
       watchDogCounter (exec (doPoll ext w force) d1) = watchDogCounter d1 - 1 ->
       0 < watchDogCounter d1.
Proof.
  cbn zeta. split; [reflexivity|]. split.
  - assert (H : 0 <= watchDogCounter (exec (initFields s) d0) <= 5)
      by (cbn; lia).
    revert H. generalize (exec (initFields s) d0).
    induction steps as [|st steps IH]; intros d H; cbn [run]; [exact H|].
    apply IH. destruct st as [w force|ns w|]; cbn [run_step].
    + apply doPoll_watchdog_range; exact H.
    + unfold fireRestart.
      change (wp (bind (assign (fun d => set_restartTimers (tl (restartTimers d)) d))
                       (fun _ => onInitDevice ext ns w)) d
                 (fun _ d' _ => 0 <= watchDogCounter d' <= 5)).
      wp_run. apply onInitDevice_watchdog_range. exact H.
    + cbn. exact H.
  - intros w force d1 Hlt.
    pose proof (watchdog_step ext w force d1) as Hw. cbn zeta in Hw.
    destruct (outcome (doPoll_try ext w force) d1); intuition lia.
Qed.

(** The events in front of the first unknown tail of a trace. *)
Ltac heads t :=
  lazymatch t with
  | ?a :: ?r => let r' := heads r in constr:(a :: r')
  | _ => constr:(@nil event)
  end.


Lemma not_live_In t e : not_live t -> In e t -> is_live_fetch e = false.
Proof.
  unfold not_live. rewrite Forall_forall. intros H Hin.
  apply H, list_elem_of_In, Hin.
Qed.

Lemma quiet_In t e :
  Forall (fun e => is_api e = false) t -> In e t -> is_api e = false.
Proof.
  rewrite Forall_forall. intros H Hin. apply H, list_elem_of_In, Hin.
Qed.

(** Where in a trace a given call to the car can sit. *)
Ltac locate H :=
  repeat first [rewrite in_app_iff in H | cbn [In] in H];
  repeat match type of H with
    | _ \/ _ => destruct H as [H|H]
    end;
  try discriminate H; try contradiction;
  try (match type of H with
       | In _ ?pre =>
           match goal with
           | Hp : not_live pre |- _ =>
               apply (not_live_In _ _ Hp) in H; discriminate H
           | Hp : Forall (fun e => is_api e = false) pre |- _ =>
               apply (quiet_In _ _ Hp) in H; discriminate H
           end
       end).

(** C9. In a cycle whose full status fetch answers and whose location
    fetch is rejected, the stored location is unchanged, the cycle ends in
    the catch block ([busy] cleared, the counter one lower, the error
    logged), and the failed location call is the last call of the cycle: no
    retry. *)
Theorem location_failure ext w force d s :
  let t := trace (doPoll ext w force) d in
  let d' := exec (doPoll ext w force) d in
  In (ApiStatus true (Some s)) t -> In (ApiLocation None) t ->
  lastLocation d' = lastLocation d
  /\ busy d' = false
  /\ watchDogCounter d' = watchDogCounter d - 1
  /\ outcome (doPoll_try ext w force) d = Throw (Rejected "location")
  /\ exists pre,
       not_live pre
       /\ t = pre ++ [ApiStatus true (Some s); ApiLocation None;
                      ErrorLog "Poll error" (Rejected "location")].
Proof.
  cbn zeta. intros Hs Hl.
  destruct (doPoll_run ext w force d) as (_ & Hrun).
  destruct (doPoll_try_guards ext w force d)
    as [(_ & Hr & Hd & Ht)|[(_ & _ & Hr & Hd & Ht)|(Hwd & Hb & Hm)]].
  - rewrite Hr in Hrun. destruct Hrun as (_ & Htr). rewrite Htr, Ht in Hl.
    locate Hl.
  - rewrite Hr in Hrun. destruct Hrun as (_ & Htr). rewrite Htr, Ht in Hl.
    locate Hl.
  - destruct Hm as (Hnr & _ & _ & _ & Hcases).
    destruct Hcases as [((e & He) & Hn & _)|[HA|[(pre & He & Hn & Ht & _)|
      [(pre & s' & He & Hn & Ht & Hst & Hlo & Hod & Hw)|
       [(pre & s' & l & He & Hn & Ht & _)|HE]]]]].
    + rewrite He in Hrun. destruct Hrun as (_ & Htr). rewrite Htr in Hl.
      locate Hl.
    + destruct HA as (He & Hn & _).
      rewrite He in Hrun. destruct Hrun as (_ & Htr). rewrite Htr in Hl.
      locate Hl.
    + rewrite He in Hrun. destruct Hrun as (_ & Htr). rewrite Htr, Ht in Hl.
      locate Hl.
    + rewrite He in Hrun. destruct Hrun as (Hex & Htr).
      rewrite Htr, Ht in Hs. rewrite Hex, Htr, Ht.
      locate Hs. injection Hs as ->.
      cbn. repeat (split; [first [reflexivity|congruence]|]).
      exists pre. split; [assumption|]. rewrite <- app_assoc. reflexivity.
    + rewrite He in Hrun. destruct Hrun as (_ & Htr). rewrite Htr, Ht in Hl.
      locate Hl.
    + destruct HE as (pre & s' & l & o & post & Hn & Hq & Ht & _).
      assert (Hl' : In (ApiLocation None) (trace (doPoll_try ext w force) d)).
      { destruct (outcome (doPoll_try ext w force) d);
          destruct Hrun as (_ & Htr); rewrite Htr in Hl; [assumption| |assumption].
        locate Hl. assumption. }
      rewrite Ht in Hl'. locate Hl'.
Qed.

(** The stored snapshot after a cycle, by what the cycle fetched from the
    car. *)
Lemma doPoll_snapshot ext w force d :
  let t := trace (doPoll ext w force) d in
  let d' := exec (doPoll ext w force) d in
  (not_live t /\ lastLocation d' = lastLocation d
   /\ lastOdometer d' = lastOdometer d
   /\ (lastStatus d' = lastStatus d
       \/ exists st, In (ApiStatus false (Some st)) t /\ lastStatus d' = st))
  \/ (exists pre e,
        not_live pre /\ t = pre ++ [ApiStatus true None; e]
        /\ is_api e = false
        /\ lastStatus d' = lastStatus d /\ lastLocation d' = lastLocation d
        /\ lastOdometer d' = lastOdometer d)
  \/ (exists pre s e,
        not_live pre
        /\ t = pre ++ [ApiStatus true (Some s); ApiLocation None; e]
        /\ is_api e = false
        /\ lastStatus d' = s /\ lastLocation d' = lastLocation d
        /\ lastOdometer d' = lastOdometer d)
  \/ (exists pre s l e,
        not_live pre
        /\ t = pre ++ [ApiStatus true (Some s); ApiLocation (Some l);
                       ApiOdometer None; e]
        /\ is_api e = false
        /\ lastStatus d' = s /\ lastLocation d' = l
        /\ lastOdometer d' = lastOdometer d)
  \/ (exists pre s l o post,
        not_live pre /\ Forall (fun e => is_api e = false) post
        /\ t = pre ++ [ApiStatus true (Some s); ApiLocation (Some l);
                       ApiOdometer (Some o)] ++ post
        /\ lastStatus d' = s /\ lastLocation d' = l /\ lastOdometer d' = o).
Proof.
  cbn zeta.
  destruct (doPoll_run ext w force d) as (_ & Hrun).
  destruct (doPoll_try_guards ext w force d)
    as [(_ & Hr & Hd & Ht)|[(_ & _ & Hr & Hd & Ht)|(Hwd & Hb & Hm)]].
  - rewrite Hr in Hrun. destruct Hrun as (-> & ->). rewrite Hd, Ht.
    left. cbn. split; [repeat constructor|]. auto.
  - rewrite Hr in Hrun. destruct Hrun as (-> & ->). rewrite Hd, Ht.
    left. cbn. split; [repeat constructor|]. auto.
  - destruct Hm as (Hnr & _ & _ & _ & Hcases).
    destruct Hcases as [((e & He) & Hn & Hst & Hlo & Hod & _)|[HA|
      [(pre & He & Hn & Ht & Hst & Hlo & Hod & _)|
      [(pre & s & He & Hn & Ht & Hst & Hlo & Hod & _)|
       [(pre & s & l & He & Hn & Ht & Hst & Hlo & Hod & _)|HE]]]]].
    + rewrite He in Hrun. destruct Hrun as (-> & ->). left. cbn.
      split; [apply Forall_app_2; [exact Hn|repeat constructor]|]. auto.
    + destruct HA as (He & Hn & _ & Hlo & Hod & _ & _ & st & _ & Hin & Hst & _).
      rewrite He in Hrun. destruct Hrun as (-> & ->). left.
      split; [exact Hn|]. eauto 6.
    + rewrite He in Hrun. destruct Hrun as (-> & ->). right; left.
      exists pre, (ErrorLog "Poll error" (Rejected "status")).
      rewrite Ht, <- app_assoc. cbn. auto 10.
    + rewrite He in Hrun. destruct Hrun as (-> & ->). right; right; left.
      exists pre, s, (ErrorLog "Poll error" (Rejected "location")).
      rewrite Ht, <- app_assoc. cbn. auto 10.
    + rewrite He in Hrun. destruct Hrun as (-> & ->).
      right; right; right; left.
      exists pre, s, l, (ErrorLog "Poll error" (Rejected "odometer")).
      rewrite Ht, <- app_assoc. cbn. auto 10.
    + destruct HE as (pre & s & l & o & post & Hn & Hq & Ht & Hst & Hlo & Hod
                      & _ & Hend).
      right; right; right; right.
      destruct Hend as [(He & _)|(e & He & _)]; rewrite He in Hrun;
        destruct Hrun as (-> & ->).
      * exists pre, s, l, o, post. auto 10.
      * exists pre, s, l, o, (post ++ [ErrorLog "Poll error" e]).
        split; [assumption|].
        split; [apply Forall_app_2; [assumption|repeat constructor]|].
        rewrite Ht, <- !app_assoc. cbn. auto.
Qed.

(** The stored snapshot after a cycle, by the answers of the cycle's calls
    to the car. *)
Lemma snapshot_by_fetch ext w force d :
  let t := trace (doPoll ext w force) d in
  let d' := exec (doPoll ext w force) d in
  (forall s l o,
     In (ApiStatus true (Some s)) t -> In (ApiLocation (Some l)) t ->
     In (ApiOdometer (Some o)) t ->
     lastStatus d' = s /\ lastLocation d' = l /\ lastOdometer d' = o)
  /\ (forall s,
        In (ApiStatus true (Some s)) t -> In (ApiLocation None) t ->
        lastStatus d' = s /\ lastLocation d' = lastLocation d
        /\ lastOdometer d' = lastOdometer d)
  /\ (forall s l,
        In (ApiStatus true (Some s)) t -> In (ApiLocation (Some l)) t ->
        In (ApiOdometer None) t ->
        lastStatus d' = s /\ lastLocation d' = l
        /\ lastOdometer d' = lastOdometer d)
  /\ (In (ApiStatus true None) t ->
      lastStatus d' = lastStatus d /\ lastLocation d' = lastLocation d
      /\ lastOdometer d' = lastOdometer d)
  /\ (not_live t ->
      lastLocation d' = lastLocation d /\ lastOdometer d' = lastOdometer d
      /\ (lastStatus d' = lastStatus d
          \/ exists st, In (ApiStatus false (Some st)) t
                        /\ lastStatus d' = st)).
Proof.
  cbn zeta.
  destruct (doPoll_snapshot ext w force d)
    as [(Hn & Hlo & Hod & Hst)|[(pre & e & Hn & Ht & He & Hst & Hlo & Hod)|
       [(pre & s' & e & Hn & Ht & He & Hst & Hlo & Hod)|
       [(pre & s' & l' & e & Hn & Ht & He & Hst & Hlo & Hod)|
        (pre & s' & l' & o' & post & Hn & Hq & Ht & Hst & Hlo & Hod)]]]];
    cbn zeta in *.
  all: repeat split.
  all: try match goal with
         | H1 : not_live (trace ?m ?x), Ht : trace ?m ?x = ?pre ++ ?e :: _
           |- _ =>
             exfalso;
             assert (Hin : In e (trace m x))
               by (rewrite Ht; apply in_or_app; right; left; reflexivity);
             apply (not_live_In _ _ H1) in Hin; discriminate Hin
         | H1 : not_live (trace ?m ?x),
           Ht : trace ?m ?x = ?pre ++ (?e :: _) ++ _ |- _ =>
             exfalso;
             assert (Hin : In e (trace m x))
               by (rewrite Ht; apply in_or_app; right; left; reflexivity);
             apply (not_live_In _ _ H1) in Hin; discriminate Hin
         end.
  all: repeat match goal with
         | Ht : trace ?m ?x = _, H : In _ (trace ?m ?x) |- _ =>
             rewrite Ht in H
         end.
  all: repeat match goal with
         | H : In _ _ |- _ =>
             locate H;
             first [ match type of H with
                     | ?e = _ =>
                         is_var e; subst e;
                         match goal with
                         | He : is_api _ = false |- _ => discriminate He
                         end
                     end
                   | injection H as ? ]
         end.
  all: try congruence.
Qed.


Lemma forceRefresh_of_cong ext w f s l o d1 d :
  settings d1 = settings d -> lastRefresh d1 = lastRefresh d ->
  outcome (forceRefresh_of ext w f s l o) d1
  = outcome (forceRefresh_of ext w f s l o) d.
Proof.
  intros Hs Hr.
  unfold forceRefresh_of, outcome, bind, this, get, interval_elapsed; cbn.
  rewrite Hs, Hr.
  destruct (truthy f); cbn; [reflexivity|].
  destruct (nullish (settings d)); reflexivity.
Qed.

Lemma forceRefresh_of_value ext w force s l o d fr :
  outcome (forceRefresh_of ext w force s l o) d = Ok fr ->
  truthy fr
  = truthy force
    || truthy (interval_elapsed ext w d (prop (settings d) "pollIntervalForced"))
    || negb (truthy s) || negb (truthy l) || negb (truthy o).
Proof.
  unfold forceRefresh_of, outcome, bind, this, get; cbn.
  destruct (truthy force) eqn:Hf; cbn.
  - intros [= <-]. rewrite !truthy_js_or, Hf. reflexivity.
  - destruct (nullish (settings d)); cbn; [discriminate|].
    intros [= <-]. rewrite !truthy_js_or, Hf. reflexivity.
Qed.

Lemma refresh_no_cached ext w dc loc odo d a :
  ~ In (ApiStatus false a) (trace (refresh ext w dc loc odo) d).
Proof.
  pose proof (refresh_spec ext w dc loc odo d) as (_ & _ & _ & _ & _ & H).
  unfold wp in H. intros Hin.
  destruct H as [(_ & _ & Hq & _)|[(_ & _ & _ & Ht & _)|
    [(s & _ & _ & _ & _ & Ht & _)|
    [(s & l & _ & _ & _ & _ & _ & Ht & _)|
     (s & l & o & post & _ & _ & _ & _ & Ht & Hq & _)]]]];
    try rewrite Ht in Hin; locate Hin.
Qed.

(** The truthiness of [forceRefresh] on any stored values, and what a
    truthy one skips. *)
Lemma forceRefresh_truthiness ext w force d fr :
  let pollIntervalForced := prop (settings d) "pollIntervalForced" in
  outcome (forceRefresh_of ext w force (lastStatus d) (lastLocation d)
                           (lastOdometer d)) d = Ok fr ->
  truthy fr
  = truthy force
    || truthy (interval_elapsed ext w d pollIntervalForced)
    || negb (truthy (lastStatus d)) || negb (truthy (lastLocation d))
    || negb (truthy (lastOdometer d))
  /\ truthy (interval_elapsed ext w d pollIntervalForced)
     = truthy pollIntervalForced
       && js_lt (StringToNumber ext)
            (js_mul (StringToNumber ext)
               (js_mul (StringToNumber ext) pollIntervalForced (VNum 60))
               (VNum 1000))
            (js_sub (StringToNumber ext) (VNum (w_now_interval w))
                    (lastRefresh d))
  /\ (truthy fr = true ->
      forall a, ~ In (ApiStatus false a) (trace (doPoll ext w force) d)).
Proof.
  cbn zeta. intros Hfr.
  split; [exact (forceRefresh_of_value _ _ _ _ _ _ _ _ Hfr)|].
  split; [unfold interval_elapsed; rewrite truthy_js_and; reflexivity|].
  intros Htrue a Hin.
  destruct (doPoll_run ext w force d) as (_ & Hrun).
  pose proof (doPoll_try_spec ext w force d) as H. unfold wp in H.
  assert (Hin' : In (ApiStatus false a) (trace (doPoll_try ext w force) d)).
  { destruct (outcome (doPoll_try ext w force) d);
      destruct Hrun as (_ & Htr); rewrite Htr in Hin; [assumption| |assumption].
    locate Hin. assumption. }
  clear Hin Hrun.
  destruct H as [(_ & _ & _ & Ht)|[(_ & _ & _ & _ & Ht)|
    (_ & _ & d1 & pre & Hd1 & Hpre & H)]].
  - rewrite Ht in Hin'. locate Hin'.
  - rewrite Ht in Hin'. locate Hin'.
  - apply login_not_live in Hpre as Hpre'.
    assert (Hpre_in : ~ In (ApiStatus false a) pre).
    { intros Hp. rewrite Forall_forall in Hpre.
      apply list_elem_of_In, Hpre in Hp. discriminate Hp. }
    apply logged_in_fields in Hd1.
    destruct Hd1 as (_ & _ & _ & _ & Hs1 & Hst1 & Hl1 & Ho1 & _ & Hr1 & _).
    destruct H as [(e & _ & _ & Ht)|H].
    { rewrite Ht in Hin'. contradiction. }
    pose proof (decide_spec ext w force d1) as (_ & _ & _ & Hq & _).
    unfold wp in Hq.
    rewrite Hst1, Hl1, Ho1, (forceRefresh_of_cong _ _ _ _ _ _ _ _ Hs1 Hr1) in Hq.
    specialize (Hq fr Hfr Htrue).
    destruct (outcome (decide ext w force) d1) as [dc|e|];
      [cbn zeta in H|..]; [| |contradiction];
      destruct H as (_ & _ & Ht); rewrite Ht in Hin';
      rewrite ?in_app_iff in Hin';
      repeat match type of Hin' with _ \/ _ => destruct Hin' as [Hin'|Hin'] end;
      try contradiction;
      try (apply (quiet_In _ _ Hq) in Hin'; discriminate Hin').
    exact (refresh_no_cached _ _ _ _ _ _ _ Hin').
Qed.



Lemma doors_reduce_true doorOpen : doors_reduce doorOpen = VBool true.
Proof.
  unfold doors_reduce. generalize (own_keys doorOpen) as keys.
  induction keys as [|door keys IH]; [reflexivity|exact IH].
Qed.

Lemma handleInfo_completed ext w status location odometer d :
  outcome (handleInfo_try ext w status location odometer) d = Ok tt ->
  trace (handleInfo ext w status location odometer) d
  = flat_map (write_events d)
             (derived_properties ext w d status location odometer)
    ++ fired d status.
Proof.
  intros Hok.
  pose proof (handleInfo_try_spec ext w status location odometer d)
    as (_ & _ & _ & Ht).
  unfold wp in Ht. rewrite <- (Ht Hok).
  unfold handleInfo, try_catch, trace, outcome in *.
  destruct (handleInfo_try ext w status location odometer d) as [[r d1] t1].
  cbn in *. rewrite Hok. reflexivity.
Qed.

Lemma writes_as_map d l :
  flat_map (write_events d) l
  = map (fun p => SetCapabilityValue (fst p) (snd p)) (List.filter (changed d) l).
Proof.
  induction l as [|p l IH]; [reflexivity|].
  cbn [flat_map List.filter]. unfold write_events at 1.
  destruct (changed d p); cbn; rewrite IH; reflexivity.
Qed.

Lemma filter_write_writes d l :
  List.filter is_write (flat_map (write_events d) l)
  = flat_map (write_events d) l.
Proof.
  rewrite writes_as_map. induction (List.filter (changed d) l) as [|p k IH];
    [reflexivity|]. cbn. rewrite IH. reflexivity.
Qed.

Lemma filter_trigger_writes d l :
  List.filter is_trigger (flat_map (write_events d) l) = [].
Proof.
  rewrite writes_as_map. induction (List.filter (changed d) l) as [|p k IH];
    [reflexivity|]. cbn. exact IH.
Qed.

Lemma filter_fired d status :
  List.filter is_write (fired d status) = []
  /\ List.filter is_trigger (fired d status) = fired d status.
Proof.
  unfold fired, monitored, directional_trigger. cbn [flat_map fst snd].
  repeat match goal with
    | |- context [strict_eq ?a ?b] => destruct (strict_eq a b)
    end; split; reflexivity.
Qed.

Lemma filter_app {A} (f : A -> bool) l k :
  List.filter f (l ++ k) = List.filter f l ++ List.filter f k.
Proof.
  induction l as [|x l IH]; [reflexivity|].
  cbn. destruct (f x); cbn; rewrite IH; reflexivity.
Qed.

Lemma filter_none {A} (f : A -> bool) l :
  Forall (fun x => f x = false) l -> List.filter f l = [].
Proof.
  induction 1 as [|x l Hx _ IH]; [reflexivity|].
  cbn. rewrite Hx. exact IH.
Qed.


(** The triggers of a publication that runs to its end. *)
Lemma triggers_of_completed ext w status location odometer d
    (engine charging climate defrost : bool)
    (engine0 charging0 climate0 defrost0 : bool) :
  outcome (handleInfo_try ext w status location odometer) d = Ok tt ->
  map snd (monitored status)
  = [VBool engine; VBool charging; VBool climate; VBool defrost] ->
  map (fun p => getCapabilityValue d (fst p)) (monitored status)
  = [VBool engine0; VBool charging0; VBool climate0; VBool defrost0] ->
  let triggers :=
    List.filter is_trigger
      (trace (handleInfo ext w status location odometer) d) in
  (engine <> engine0 -> charging = charging0 -> climate = climate0 ->
   defrost = defrost0 ->
   triggers = [Trigger (if engine then "engine_true" else "engine_false")])
  /\ (engine = engine0 -> charging <> charging0 -> climate = climate0 ->
      defrost = defrost0 ->
      triggers
      = [Trigger (if charging then "charging_true" else "charging_false")])
  /\ (engine = engine0 -> charging = charging0 -> climate <> climate0 ->
      defrost = defrost0 ->
      triggers
      = [Trigger (if climate then "climate_control_true"
                  else "climate_control_false")])
  /\ (engine = engine0 -> charging = charging0 -> climate = climate0 ->
      defrost <> defrost0 ->
      triggers
      = [Trigger (if defrost then "defrost_true" else "defrost_false")])
  /\ (engine = engine0 -> charging = charging0 -> climate = climate0 ->
      defrost = defrost0 -> triggers = []).
Proof.
  intros Hok Hnew Hold. cbn zeta.
  rewrite (handleInfo_completed _ _ _ _ _ _ Hok), filter_app,
    filter_trigger_writes, (proj2 (filter_fired d status)).
  cbn [app]. unfold fired.
  cbn [map monitored fst snd] in Hnew, Hold.
  injection Hnew as He Hc Ha Hf. injection Hold as He0 Hc0 Ha0 Hf0.
  cbn [monitored flat_map fst snd]. rewrite He, Hc, Ha, Hf, He0, Hc0, Ha0, Hf0.
  unfold directional_trigger, directional; cbn [strict_eq truthy].
  destruct engine, engine0, charging, charging0, climate, climate0,
    defrost, defrost0; cbn; repeat split; intros; congruence.
Qed.

(** The writes of a publication that runs to its end. *)
Lemma writes_of_completed ext w status location odometer d :
  outcome (handleInfo_try ext w status location odometer) d = Ok tt ->
  let t := trace (handleInfo ext w status location odometer) d in
  let derived := derived_properties ext w d status location odometer in
  List.filter is_write t
  = map (fun p => SetCapabilityValue (fst p) (snd p))
        (List.filter (changed d) derived)
  /\ map fst derived
     = ["measure_battery.EV"; "measure_battery.12V"; "alarm_battery";
        "alarm_tire_pressure"; "locked"; "closed_locked";
        "target_temperature"; "defrost"; "climate_control"; "engine";
        "charging"; "charger"; "odometer"; "range"; "speed"; "location";
        "distance"; "live_data"]
  /\ (forall p, changed d p = true <->
                hasCapability d (fst p) = true
                /\ strict_eq (snd p) (getCapabilityValue d (fst p)) = false)
  /\ (Forall (fun p => strict_eq (snd p) (getCapabilityValue d (fst p)) = true)
             derived ->
      List.filter is_write t = []).
Proof.
  intros Hok. cbn zeta.
  rewrite (handleInfo_completed _ _ _ _ _ _ Hok), filter_app,
    filter_write_writes, (proj1 (filter_fired d status)), app_nil_r,
    writes_as_map.
  split; [reflexivity|]. split; [reflexivity|]. split.
  - intros p. unfold changed. rewrite andb_true_iff, negb_true_iff. tauto.
  - intros Hall.
    induction (derived_properties ext w d status location odometer)
      as [|p l IH]; [reflexivity|].
    apply Forall_cons in Hall as (Hp & Hl). cbn [List.filter].
    unfold changed at 1. rewrite Hp, andb_false_r. apply IH, Hl.
Qed.

(** * The claims at concrete inputs *)

(** Membership in an evaluated list. *)
Ltac found := vm_compute; repeat (first [left; reflexivity | right]).

(** C1. Locked, trunk and hood closed, the front left door open: the
    reduction over the doors starts from [true] and combines with [||], so
    it answers [true] whatever the doors are, and [handleInfo] publishes
    [closed_locked = true] where the property asks for [false]. *)
Theorem closed_locked_with_open_door :
  (forall doorOpen, doors_reduce doorOpen = VBool true)
  /\ prop door_ajar "doorLock" = VBool true
  /\ prop (prop door_ajar "doorOpen") "frontLeft" = VNum 1
  /\ outcome (closedLocked (prop door_ajar "doorLock")
                 (prop door_ajar "trunkOpen") (prop door_ajar "hoodOpen")
                 (prop door_ajar "doorOpen")) fresh_device
     = Ok (VBool true)
  /\ In (SetCapabilityValue "closed_locked" (VBool true))
        (trace (handleInfo sample_ext (calm_world door_ajar door_ajar)
                  door_ajar (location_of 60 53 6 0) (odometer_of 61 12345))
               fresh_device).
Proof.
  split; [exact doors_reduce_true|].
  split; [reflexivity|]. split; [reflexivity|].
  split; [vm_compute; reflexivity|found].
Qed.

(** C2, as stated, fails: a forced cycle on a device that holds a complete
    snapshot, with the full status answered and the location rejected,
    replaces the stored status and keeps the stored location and odometer,
    which is neither "all three replaced" nor "none replaced". *)
Lemma snapshot_torn_by_location_failure :
  let d := settled_device in
  let d' := exec (doPoll sample_ext location_down (VBool true)) d in
  In (ApiStatus true (Some driving))
     (trace (doPoll sample_ext location_down (VBool true)) d)
  /\ In (ApiLocation None)
        (trace (doPoll sample_ext location_down (VBool true)) d)
  /\ lastStatus d' = driving /\ lastStatus d = parked
  /\ lastLocation d' = lastLocation d /\ lastOdometer d' = lastOdometer d
  /\ ~ ((lastStatus d' = lastStatus d /\ lastLocation d' = lastLocation d
         /\ lastOdometer d' = lastOdometer d)
        \/ (exists s l o,
              w_status_live location_down = Some s
              /\ w_location location_down = Some l
              /\ w_odometer location_down = Some o
              /\ lastStatus d' = s /\ lastLocation d' = l
              /\ lastOdometer d' = o)).
Proof.
  cbn zeta.
  split; [found|]. split; [found|].
  split; [vm_compute; reflexivity|]. split; [reflexivity|].
  split; [vm_compute; reflexivity|]. split; [vm_compute; reflexivity|].
  intros [(H & _)|(s & l & o & _ & H & _)].
  - vm_compute in H. discriminate H.
  - discriminate H.
Qed.

(** C3, as stated, fails: with the reverse geocoder down [handleInfo]
    throws before its first write, logs the error and publishes nothing,
    and the cycle still takes the counter from 3 to 5. *)
Lemma watchdog_reset_without_publication :
  let d := strained_device in
  let t := trace (doPoll sample_ext geocoder_down (VBool true)) d in
  let d' := exec (doPoll sample_ext geocoder_down (VBool true)) d in
  watchDogCounter d = 3 /\ watchDogCounter d' = 5
  /\ outcome (handleInfo_try sample_ext geocoder_down driving
                (location_of 60 53 6 0) (odometer_of 61 12345)) d
     = Throw (Rejected "getCarLocString")
  /\ In (ErrorLog EmptyString (Rejected "getCarLocString")) t
  /\ List.filter is_write t = [] /\ List.filter is_trigger t = [].
Proof.
  cbn zeta. split; [reflexivity|].
  split; [vm_compute; reflexivity|]. split; [vm_compute; reflexivity|].
  split; [found|].
  split; vm_compute; reflexivity.
Qed.

(** C7, as stated, fails: the second of two identical forced cycles
    reaches publication and issues no [setCapabilityValue] at all, although
    the device has the capabilities and the derived values are there. *)
Lemma unchanged_snapshot_writes_nothing :
  let w := calm_world parked parked in
  let d1 := exec (doPoll sample_ext w (VBool true)) fresh_device in
  let t2 := trace (doPoll sample_ext w (VBool true)) d1 in
  outcome (doPoll_try sample_ext w (VBool true)) d1 = Ok tt
  /\ hasCapability d1 "engine" = true
  /\ In ("engine", VBool false)
        (derived_properties sample_ext w d1 parked (location_of 60 53 6 0)
           (odometer_of 61 12345))
  /\ ~ In (SetCapabilityValue "engine" (VBool false)) t2
  /\ List.filter is_write t2 = [].
Proof.
  cbn zeta. split; [vm_compute; reflexivity|].
  split; [vm_compute; reflexivity|]. split; [found|].
  assert (H : List.filter is_write
                (trace (doPoll sample_ext (calm_world parked parked) (VBool true))
                   (exec (doPoll sample_ext (calm_world parked parked) (VBool true))
                      fresh_device)) = []) by (vm_compute; reflexivity).
  split; [|exact H].
  intros Hin.
  assert (Hf : In (SetCapabilityValue "engine" (VBool false)) []).
  { rewrite <- H. apply filter_In. split; [exact Hin|reflexivity]. }
  exact Hf.
Qed.


(** C6, as stated, fails: the stored view has the engine off, the new
    snapshot has it on and the other three monitored values as stored, and
    the car answered [null] for the odometer.  The publication writes
    [engine = true], fails on the odometer and fires no trigger; the next
    publication, of a complete snapshot, finds the engine already stored as
    on and fires none either. *)
Lemma engine_change_never_signalled :
  let w := calm_world driving driving in
  let first := handleInfo sample_ext w driving (location_of 60 53 6 0) VNull in
  let d2 := exec first parked_device in
  let second := handleInfo sample_ext w driving (location_of 60 53 6 0)
                           (odometer_of 61 12345) in
  map (fun p => getCapabilityValue parked_device (fst p)) (monitored driving)
  = [VBool false; VBool false; VBool false; VBool false]
  /\ map snd (monitored driving)
     = [VBool true; VBool false; VBool false; VBool false]
  /\ In (SetCapabilityValue "engine" (VBool true)) (trace first parked_device)
  /\ In (ErrorLog EmptyString (TypeError "value")) (trace first parked_device)
  /\ List.filter is_trigger (trace first parked_device) = []
  /\ getCapabilityValue d2 "engine" = VBool true
  /\ outcome (handleInfo_try sample_ext w driving (location_of 60 53 6 0)
                (odometer_of 61 12345)) d2 = Ok tt
  /\ List.filter is_trigger (trace second d2) = [].
Proof.
  cbn zeta. split; [vm_compute; reflexivity|].
  split; [vm_compute; reflexivity|]. split; [found|]. split; [found|].
  repeat split; vm_compute; reflexivity.
Qed.

(** C8, as stated, fails on a device whose budget is used up while [busy]
    is set: the cycle leaves [busy] set and the polling interval cleared.
    When the restart timer fires and the stored settings carry no
    [abrp_user_token], the new client is created but polling is not
    started: no interval is armed, no call is made to the car and no timer
    is left.  When [getSettings] is rejected, [busy] stays set as well. *)
Lemma stuck_device_not_recovered :
  let w := calm_world parked parked in
  let d1 := exec (doPoll sample_ext w VUndef) stuck_device in
  let old := fireRestart sample_ext (Some tokenless_settings) w in
  let none := fireRestart sample_ext None w in
  watchDogCounter stuck_device <= 0
  /\ busy stuck_device = true
  /\ busy d1 = true /\ intervalIdDevicePoll d1 = None
  /\ restartTimers d1 = [VNum 300000]
  /\ (In (NewClient (VObj 1 [("username", VStr "u"); ("password", VStr "p");
                              ("region", VStr "EU"); ("pin", VStr "1234")]))
          (trace old d1)
      /\ intervalIdDevicePoll (exec old d1) = None
      /\ restartTimers (exec old d1) = []
      /\ List.filter is_api (trace old d1) = []
      /\ List.filter is_set_interval (trace old d1) = [])
  /\ (busy (exec none d1) = true
      /\ watchDogCounter (exec none d1) = 0
      /\ intervalIdDevicePoll (exec none d1) = None
      /\ restartTimers (exec none d1) = []
      /\ trace none d1 = [ErrorLog EmptyString (Rejected "getSettings")]).
Proof.
  cbn zeta. repeat split; try (vm_compute; congruence).
  vm_compute. tauto.
Qed.

(** ** The theorems at concrete inputs *)

(** C9 at the cycle of [location_down]. *)
Lemma location_failure_witness :
  let t := trace (doPoll sample_ext location_down (VBool true)) settled_device in
  let d' := exec (doPoll sample_ext location_down (VBool true)) settled_device in
  In (ApiStatus true (Some driving)) t /\ In (ApiLocation None) t
  /\ lastLocation d' = lastLocation settled_device
  /\ busy d' = false
  /\ watchDogCounter d' = watchDogCounter settled_device - 1.
Proof.
  cbn zeta.
  assert (H1 : In (ApiStatus true (Some driving))
                 (trace (doPoll sample_ext location_down (VBool true))
                        settled_device)) by found.
  assert (H2 : In (ApiLocation None)
                 (trace (doPoll sample_ext location_down (VBool true))
                        settled_device)) by found.
  split; [exact H1|]. split; [exact H2|].
  destruct (location_failure sample_ext location_down (VBool true)
              settled_device driving H1 H2) as (Hl & Hb & Hw & _).
  split; [exact Hl|]. split; [exact Hb|exact Hw].
Defined.

(** C10 over two failing cycles, a settings change and a restart. *)
Lemma watchdog_range_witness :
  let steps := [Poll location_down VUndef; Poll location_down (VBool true);
                SettingsChanged; TimerFired (Some sample_settings) geocoder_down] in
  0 <= watchDogCounter
         (run sample_ext steps (exec (initFields sample_settings) fresh_device))
    <= 5
  /\ watchDogCounter
       (exec (doPoll sample_ext location_down (VBool true)) strained_device)
     = watchDogCounter strained_device - 1
  /\ 0 < watchDogCounter strained_device.
Proof.
  cbn zeta.
  destruct (watchdog_range sample_ext
              [Poll location_down VUndef; Poll location_down (VBool true);
               SettingsChanged; TimerFired (Some sample_settings) geocoder_down]
              sample_settings fresh_device) as (_ & Hrange & Hdec).
  split; [exact Hrange|].
  assert (H : watchDogCounter
                (exec (doPoll sample_ext location_down (VBool true))
                      strained_device)
              = watchDogCounter strained_device - 1)
    by (vm_compute; reflexivity).
  split; [exact H|exact (Hdec location_down (VBool true) strained_device H)].
Defined.

(** C3, as amended. A cycle whose [try] block throws, or that is skipped
    because a previous cycle is busy, lowers the counter by exactly one; a
    cycle whose [try] block runs to its end, that is, one that got through
    its fetches and called [handleInfo], sets it to 5, whatever [handleInfo]
    then manages to publish; a cycle entered with the counter at 0 or below
    leaves it as it is. *)
Theorem watchdog_transitions ext w force d :
  let d' := exec (doPoll ext w force) d in
  match outcome (doPoll_try ext w force) d with
  | Ok _ =>
      watchDogCounter d' = 5
      /\ exists status location odometer live,
           published ext w status location odometer d live
                     (trace (doPoll ext w force) d)
  | Throw _ =>
      0 < watchDogCounter d /\ busy d = false
      /\ watchDogCounter d' = watchDogCounter d - 1
  | Return =>
      (watchDogCounter d <= 0 /\ watchDogCounter d' = watchDogCounter d)
      \/ (0 < watchDogCounter d /\ busy d = true
          /\ watchDogCounter d' = watchDogCounter d - 1)
  end.
Proof. exact (watchdog_step ext w force d). Qed.
(** * Further properties of the code *)

(** ** setCapability *)

Lemma same_capabilities_refl d : same_capabilities d d.
Proof. intros c; reflexivity. Qed.

Lemma hasCapability_stored d c v c' :
  hasCapability (set_capabilities (stored d c v) d) c' = hasCapability d c'.
Proof.
  unfold stored, changed; cbn.
  destruct (hasCapability d c) eqn:Hc; cbn; [|destruct d; reflexivity].
  destruct (strict_eq v (getCapabilityValue d c)); cbn;
    [destruct d; reflexivity|].
  unfold hasCapability in *; cbn.
  destruct (String.eqb_spec c' c) as [->|Hne].
  - rewrite lookup_insert_eq, Hc. apply bool_decide_eq_true. eauto.
  - rewrite lookup_insert_ne by congruence. reflexivity.
Qed.

Lemma same_capabilities_step d d1 d2 c v :
  d2 = set_capabilities (stored d1 c v) d1 ->
  same_capabilities d d1 -> same_capabilities d d2.
Proof.
  intros -> H c'. rewrite hasCapability_stored. apply H.
Qed.

Lemma setCapability_run c v d :
  outcome (setCapability c v) d = Ok tt
  /\ exec (setCapability c v) d = set_capabilities (stored d c v) d
  /\ trace (setCapability c v) d = write_events d (c, v).
Proof.
  change (wp (setCapability c v) d
            (fun r d' t => r = Ok tt
                           /\ d' = set_capabilities (stored d c v) d
                           /\ t = write_events d (c, v))).
  apply wp_setCapability. intros d' ->. auto.
Qed.

(** X1. [setCapability] never throws and touches nothing but the one
    capability it is given: the device keeps exactly the capabilities it
    had, the other capabilities keep their values, and on a capability the
    device does not have the call does nothing at all. *)
Theorem setCapability_frame c v d :
  let d' := exec (setCapability c v) d in
  outcome (setCapability c v) d = Ok tt
  /\ caps_only d d'
  /\ (forall c', hasCapability d' c' = hasCapability d c')
  /\ (forall c', c' <> c -> getCapabilityValue d' c' = getCapabilityValue d c')
  /\ (hasCapability d c = false -> d' = d /\ trace (setCapability c v) d = []).
Proof.
  cbn zeta. destruct (setCapability_run c v d) as (Hr & He & Ht).
  rewrite He, Ht. split; [exact Hr|].
  split; [eapply caps_only_step; [apply caps_only_refl|reflexivity]|].
  split; [intros c'; apply hasCapability_stored|].
  split.
  - intros c' Hne. unfold getCapabilityValue, stored; cbn.
    destruct (changed d (c, v)); [|reflexivity].
    rewrite lookup_insert_ne by congruence. reflexivity.
  - intros Hc. unfold write_events, stored, changed; cbn. rewrite Hc; cbn.
    split; [destruct d; reflexivity|reflexivity].
Qed.

Lemma strict_eq_irreflexive v : strict_eq v v = false <-> v = VNaN.
Proof.
  split; [|intros ->; reflexivity].
  destruct v; cbn; try discriminate; try reflexivity.
  - destruct b; discriminate.
  - rewrite Z.eqb_refl. discriminate.
  - rewrite String.eqb_refl. discriminate.
  - rewrite Pos.eqb_refl. discriminate.
Qed.

(** X2. Calling [setCapability] a second time with the same value, on a
    capability the device has, leaves the store as the first call left it
    and writes nothing, unless the value is [NaN]: [NaN !== NaN], so a [NaN]
    is written to the platform on every call. *)
Theorem setCapability_twice c v d :
  hasCapability d c = true ->
  let d1 := exec (setCapability c v) d in
  exec (setCapability c v) d1 = d1
  /\ trace (setCapability c v) d1
     = (if strict_eq v v then [] else [SetCapabilityValue c v])
  /\ (strict_eq v v = false <-> v = VNaN).
Proof.
  intros Hc. cbn zeta.
  destruct (setCapability_run c v d) as (_ & He & _). rewrite He.
  set (d1 := set_capabilities (stored d c v) d).
  destruct (setCapability_run c v d1) as (_ & He1 & Ht1). rewrite He1, Ht1.
  split; [|split; [|apply strict_eq_irreflexive]].
  - unfold stored at 1.
    destruct (changed d1 (c, v)) eqn:Hch; [|destruct d; reflexivity].
    subst d1. unfold stored in *. cbn in *.
    destruct (changed d (c, v)) eqn:Hch0; cbn in *.
    + rewrite insert_insert_eq. reflexivity.
    + unfold changed, hasCapability, getCapabilityValue in *. cbn in *.
      congruence.
  - unfold write_events, changed. cbn [fst snd].
    assert (Hc1 : hasCapability d1 c = true)
      by (subst d1; rewrite hasCapability_stored; exact Hc).
    rewrite Hc1. cbn [andb].
    assert (Hv : strict_eq v (getCapabilityValue d1 c) = strict_eq v v).
    { subst d1. unfold getCapabilityValue, stored, changed; cbn.
      rewrite Hc; cbn [andb].
      destruct (strict_eq v (getCapabilityValue d c)) eqn:Hold; cbn.
      - fold (getCapabilityValue d c). rewrite Hold.
        destruct v; cbn in *; try discriminate; try reflexivity;
          destruct (getCapabilityValue d c); try discriminate.
        + destruct b; reflexivity.
        + rewrite Z.eqb_refl; reflexivity.
        + rewrite String.eqb_refl; reflexivity.
        + rewrite Pos.eqb_refl; reflexivity.
      - rewrite lookup_insert_eq. reflexivity. }
    rewrite Hv. destruct (strict_eq v v); reflexivity.
Qed.

(** ** handleInfo *)

Lemma publication_write d d1 p :
  same_capabilities d d1 ->
  Forall (fun e => publication_event d e = true) (write_events d1 p).
Proof.
  intros H. unfold write_events, changed.
  destruct (hasCapability d1 (fst p)) eqn:Hc; cbn; [|constructor].
  destruct (negb _); constructor; [|constructor].
  cbn. rewrite <- (H (fst p)). exact Hc.
Qed.

Lemma publication_trigger d old c v :
  Forall (fun e => publication_event d e = true) (directional_trigger old c v).
Proof.
  unfold directional_trigger. destruct (strict_eq _ _); repeat constructor.
Qed.

Lemma write_not_trigger d p :
  Forall (fun e => is_trigger e = false) (write_events d p).
Proof. unfold write_events. destruct (changed d p); repeat constructor. Qed.

Ltac same_chain :=
  repeat match goal with
    | H : ?d' = set_capabilities (stored ?d0 ?c ?v) ?d0
      |- same_capabilities _ ?d' =>
        refine (same_capabilities_step _ d0 d' c v H _)
    end;
  apply same_capabilities_refl.

(** A property of every event of a trace, piece by piece. *)
Ltac pieces tac :=
  lazymatch goal with
  | |- Forall _ (_ ++ _) => apply Forall_app_2; [pieces tac|pieces tac]
  | |- Forall _ [] => constructor
  | |- Forall _ (_ :: _) => constructor; [reflexivity|pieces tac]
  | |- _ => tac
  end.

Ltac events_leaf :=
  split; [same_chain|];
  split; [pieces ltac:(first [apply publication_write; same_chain
                             | apply publication_trigger])|];
  split;
    [first [ solve [let X := fresh in intros X; exfalso; apply X; reflexivity]
           | intros _; pieces ltac:(apply write_not_trigger) ]|];
  first [ solve [intros _; split; [discriminate|split; reflexivity]]
        | solve [intros [?|[?|[?|[?|?]]]]; congruence] ].

Lemma handleInfo_try_events ext w status location odometer d :
  wp (handleInfo_try ext w status location odometer) d
     (handleInfo_events_post ext w status location d).
Proof.
  unfold handleInfo_try.
  repeat info_step.
  all: events_leaf.
Qed.

Lemma handleInfo_run ext w status location odometer d :
  outcome (handleInfo ext w status location odometer) d = Ok tt
  /\ exec (handleInfo ext w status location odometer) d
     = exec (handleInfo_try ext w status location odometer) d
  /\ trace (handleInfo ext w status location odometer) d
     = trace (handleInfo_try ext w status location odometer) d
       ++ match outcome (handleInfo_try ext w status location odometer) d with
          | Throw e => [ErrorLog EmptyString e]
          | _ => []
          end.
Proof.
  unfold handleInfo, try_catch, outcome, exec, trace.
  destruct (handleInfo_try ext w status location odometer d) as [[r d1] t1].
  cbn. destruct r as [[]| |]; cbn; rewrite ?app_nil_r; auto.
Qed.

(** X3. [handleInfo] never throws, whatever snapshot it is given: it
    changes nothing of the device but the values in the capability store,
    the device keeps exactly the capabilities it had, every write goes to a
    capability the device has, and no call is made to the car. *)
Theorem handleInfo_contained ext w status location odometer d :
  let m := handleInfo ext w status location odometer in
  outcome m d = Ok tt
  /\ caps_only d (exec m d)
  /\ (forall c, hasCapability (exec m d) c = hasCapability d c)
  /\ (forall c v, In (SetCapabilityValue c v) (trace m d) ->
                  hasCapability d c = true)
  /\ Forall (fun e => is_api e = false) (trace m d).
Proof.
  cbn zeta.
  destruct (handleInfo_run ext w status location odometer d) as (Hr & He & Ht).
  pose proof (handleInfo_try_spec ext w status location odometer d)
    as (_ & Hc & _).
  pose proof (handleInfo_try_events ext w status location odometer d)
    as (Hs & Hev & _).
  pose proof (handleInfo_spec ext w status location odometer d) as (_ & _ & Hd).
  unfold wp in *.
  rewrite He. split; [exact Hr|]. split; [exact Hc|]. split; [exact Hs|].
  split; [|exact (dispatch_not_api _ Hd)].
  intros c v Hin. rewrite Ht, in_app_iff in Hin. destruct Hin as [Hin|Hin].
  - rewrite Forall_forall in Hev.
    exact (Hev _ (proj2 (list_elem_of_In _ _) Hin)).
  - destruct (outcome (handleInfo_try ext w status location odometer) d);
      cbn in Hin;
      [destruct Hin|destruct Hin as [Hin|[]]; discriminate Hin|destruct Hin].
Qed.

(** X4. Without a status, without the [evStatus] part of it, without a
    location, or when the temperature conversion or the reverse geocoder
    fails, [handleInfo] publishes nothing: the device is left as it was, no
    capability is written, no trigger fires, and the one event is the
    logged error. *)
Theorem handleInfo_blocked ext w status location odometer d :
  unpublishable ext w status location ->
  exec (handleInfo ext w status location odometer) d = d
  /\ exists e,
       trace (handleInfo ext w status location odometer) d
       = [ErrorLog EmptyString e].
Proof.
  intros Hu.
  destruct (handleInfo_run ext w status location odometer d) as (_ & He & Ht).
  pose proof (handleInfo_try_spec ext w status location odometer d)
    as (Hnr & _).
  pose proof (handleInfo_try_events ext w status location odometer d)
    as (_ & _ & _ & Hb).
  unfold wp in *. destruct (Hb Hu) as (Hr & Htr & Hd).
  rewrite He, Ht, Htr, Hd. split; [reflexivity|].
  destruct (outcome (handleInfo_try ext w status location odometer) d)
    as [[]|e|]; [congruence| |congruence].
  exists e. reflexivity.
Qed.

(** X5. A run of [handleInfo] that logs an error fires no trigger, even if
    capabilities were already written before the failure: the triggers are
    the last thing the body does. *)
Theorem handleInfo_error_fires_nothing ext w status location odometer d x :
  let t := trace (handleInfo ext w status location odometer) d in
  In (ErrorLog EmptyString x) t ->
  outcome (handleInfo_try ext w status location odometer) d = Throw x
  /\ Forall (fun e => is_trigger e = false) t.
Proof.
  cbn zeta. intros Hin.
  destruct (handleInfo_run ext w status location odometer d) as (_ & _ & Ht).
  pose proof (handleInfo_try_events ext w status location odometer d)
    as (_ & Hev & Hno & _).
  unfold wp in *. rewrite Ht in *.
  rewrite in_app_iff in Hin. destruct Hin as [Hin|Hin].
  { rewrite Forall_forall in Hev.
    apply list_elem_of_In, Hev in Hin. discriminate Hin. }
  destruct (outcome (handleInfo_try ext w status location odometer) d)
    as [[]|e|]; cbn in Hin; try contradiction.
  destruct Hin as [[= ->]|[]]. split; [reflexivity|].
  apply Forall_app_2; [apply Hno; discriminate|repeat constructor].
Qed.

(** ** abrpTelemetry *)

Lemma abrpTelemetry_run w status location odometer d :
  let m := abrpTelemetry w status location odometer in
  let evStatus := prop status "evStatus" in
  outcome m d = Ok tt /\ exec m d = d
  /\ if nullish status || nullish evStatus || nullish location
        || nullish (prop location "speed")
     then exists e, trace m d = [ErrorLog EmptyString (TypeError e)]
     else trace m d
          = AbrpSend (prop location "latitude") (prop location "longitude")
                     (prop (prop location "speed") "value")
                     (prop evStatus "batteryStatus")
                     (prop evStatus "batteryCharge")
            :: (if w_abrp_send w then []
                else [ErrorLog EmptyString (Rejected "abrp.send")]).
Proof.
  cbn zeta.
  change (wp (abrpTelemetry w status location odometer) d
            (fun r d' t =>
               r = Ok tt /\ d' = d
               /\ if nullish status || nullish (prop status "evStatus")
                     || nullish location || nullish (prop location "speed")
                  then exists e, t = [ErrorLog EmptyString (TypeError e)]
                  else t = AbrpSend (prop location "latitude")
                             (prop location "longitude")
                             (prop (prop location "speed") "value")
                             (prop (prop status "evStatus") "batteryStatus")
                             (prop (prop status "evStatus") "batteryCharge")
                           :: (if w_abrp_send w then []
                               else [ErrorLog EmptyString
                                       (Rejected "abrp.send")]))).
  unfold abrpTelemetry. wp_run; cbn [app].
  all: repeat match goal with
         | H : nullish _ = _ |- _ => rewrite H
         | H : w_abrp_send _ = _ |- _ => rewrite H
         end; cbn [orb].
  all: repeat split; eauto.
  all: rewrite ?orb_true_r; eauto.
Qed.

(** X6. [abrpTelemetry] never throws and never changes the device.  It
    sends exactly one record, made of the coordinates and speed of the
    location and the state of charge and charging flag of the status, when
    the status, its [evStatus], the location and its [speed] are all
    present, and logs the rejection if the send is rejected; when one of
    them is missing it sends nothing and logs the error.  The odometer is
    not looked at. *)
Theorem abrpTelemetry_sends w status location odometer d :
  let m := abrpTelemetry w status location odometer in
  let evStatus := prop status "evStatus" in
  outcome m d = Ok tt /\ exec m d = d
  /\ if nullish status || nullish evStatus || nullish location
        || nullish (prop location "speed")
     then exists e, trace m d = [ErrorLog EmptyString (TypeError e)]
     else trace m d
          = AbrpSend (prop location "latitude") (prop location "longitude")
                     (prop (prop location "speed") "value")
                     (prop evStatus "batteryStatus")
                     (prop evStatus "batteryCharge")
            :: (if w_abrp_send w then []
                else [ErrorLog EmptyString (Rejected "abrp.send")]).
Proof. exact (abrpTelemetry_run w status location odometer d). Qed.

(** ** The forwarder does not decide a cycle *)

Lemma same_effect_refl {A} (m : M A) : same_effect m m.
Proof. intros d; auto. Qed.

Lemma same_effect_bind {A B} (m m' : M A) (k k' : A -> M B) :
  same_effect m m' -> (forall a, same_effect (k a) (k' a)) ->
  same_effect (bind m k) (bind m' k').
Proof.
  intros Hm Hk d. specialize (Hm d).
  unfold outcome, exec, trace, bind in *.
  destruct (m d) as [[r d1] t1], (m' d) as [[r' d1'] t1']; cbn in Hm.
  destruct Hm as (<- & <- & Ht).
  destruct r as [a| |]; cbn; auto.
  specialize (Hk a d1). unfold outcome, exec, trace in Hk.
  destruct (k a d1) as [[r2 d2] t2], (k' a d1) as [[r2' d2'] t2']; cbn in *.
  destruct Hk as (<- & <- & Ht2). repeat split.
  unfold without_send_rejections in *. rewrite !filter_app. congruence.
Qed.

Lemma same_effect_try_catch (m m' : M unit) (h : exn -> M unit) :
  same_effect m m' -> same_effect (try_catch m h) (try_catch m' h).
Proof.
  intros Hm d. specialize (Hm d).
  unfold outcome, exec, trace, try_catch in *.
  destruct (m d) as [[r d1] t1], (m' d) as [[r' d1'] t1']; cbn in Hm.
  destruct Hm as (<- & <- & Ht).
  destruct r as [a|e|]; cbn; auto.
  destruct (h e d1) as [[r2 d2] t2]; cbn. repeat split.
  unfold without_send_rejections in *. rewrite !filter_app. congruence.
Qed.

Lemma abrpTelemetry_same_effect b w status location odometer :
  same_effect (abrpTelemetry (with_abrp_send b w) status location odometer)
              (abrpTelemetry w status location odometer).
Proof.
  intros d.
  unfold outcome, exec, trace, abrpTelemetry, try_catch, bind, get.
  destruct (nullish status); cbn; [auto|].
  destruct (nullish (prop status "evStatus")); cbn; [auto|].
  destruct (nullish location); cbn; [auto|].
  destruct (nullish (prop location "speed")); cbn; [auto|].
  destruct b, (w_abrp_send w); cbn; auto.
Qed.

Lemma publish_same_effect ext b w dc status newStatus location odometer :
  same_effect
    (publish ext (with_abrp_send b w) dc status newStatus location odometer)
    (publish ext w dc status newStatus location odometer).
Proof.
  unfold publish.
  apply same_effect_bind; [apply same_effect_refl|intros d0].
  apply same_effect_bind; [apply same_effect_refl|intros _].
  apply same_effect_bind; [apply same_effect_refl|intros _].
  apply same_effect_bind; [apply same_effect_refl|intros _].
  apply same_effect_bind; [apply same_effect_refl|intros d1].
  apply same_effect_bind; [apply same_effect_refl|intros telemetry].
  apply same_effect_bind; [|intros _; apply same_effect_refl].
  destruct telemetry; cbn [when];
    [apply abrpTelemetry_same_effect|apply same_effect_refl].
Qed.

Lemma doPoll_same_effect ext b w force :
  same_effect (doPoll ext (with_abrp_send b w) force) (doPoll ext w force).
Proof.
  unfold doPoll. apply same_effect_try_catch. unfold doPoll_try.
  apply same_effect_bind; [apply same_effect_refl|intros d0].
  destruct (watchDogCounter d0 <=? 0); [apply same_effect_refl|].
  destruct (busy d0); [apply same_effect_refl|].
  apply same_effect_bind; [apply same_effect_refl|intros _].
  apply same_effect_bind; [apply same_effect_refl|intros _].
  apply same_effect_bind; [apply same_effect_refl|intros d1].
  apply same_effect_bind; [apply same_effect_refl|intros _].
  apply same_effect_bind; [apply same_effect_refl|intros dc].
  unfold refresh.
  apply same_effect_bind; [apply same_effect_refl|intros fetched].
  apply same_effect_bind; [apply same_effect_refl|intros place].
  apply same_effect_bind; [apply publish_same_effect|intros _].
  apply same_effect_refl.
Qed.

(** X7. Whether the telemetry forwarder accepts or rejects what it is sent
    does not decide anything in a cycle: the device after the cycle is the
    same, and so are the events of the cycle, the calls to the car, the
    writes and the triggers among them, apart from the log entry of the
    rejection. *)
Theorem telemetry_outcome_ignored ext b w force d :
  exec (doPoll ext (with_abrp_send b w) force) d = exec (doPoll ext w force) d
  /\ without_send_rejections (trace (doPoll ext (with_abrp_send b w) force) d)
     = without_send_rejections (trace (doPoll ext w force) d).
Proof. exact (proj2 (doPoll_same_effect ext b w force d)). Qed.

(** ** The time stamps and the telemetry of a cycle *)

Lemma handleInfo_quiet ext w status location odometer d :
  wp (handleInfo ext w status location odometer) d
     (fun r d' t => r = Ok tt /\ caps_only d d'
                    /\ Forall (fun e => is_send e = false) t).
Proof.
  destruct (handleInfo_run ext w status location odometer d) as (Hr & He & Ht).
  pose proof (handleInfo_try_spec ext w status location odometer d)
    as (_ & Hc & _).
  pose proof (handleInfo_try_events ext w status location odometer d)
    as (_ & Hev & _).
  unfold wp in *. rewrite He, Ht. split; [exact Hr|]. split; [exact Hc|].
  apply Forall_app_2.
  - eapply Forall_impl; [exact Hev|].
    intros [] Hx; try discriminate; reflexivity.
  - destruct (outcome (handleInfo_try ext w status location odometer) d);
      repeat constructor.
Qed.

Lemma abrpTelemetry_book w status location odometer d :
  wp (abrpTelemetry w status location odometer) d
     (fun r d' t => r = Ok tt /\ d' = d
                    /\ forall e, In e t -> is_send e = true ->
                                 e = sent_from status location).
Proof.
  destruct (abrpTelemetry_run w status location odometer d) as (Hr & He & Ht).
  unfold wp. cbn zeta in Ht. split; [exact Hr|]. split; [exact He|].
  intros e Hin Hs.
  destruct (nullish status || nullish (prop status "evStatus")
            || nullish location || nullish (prop location "speed")).
  - destruct Ht as (x & Ht). rewrite Ht in Hin.
    destruct Hin as [<-|[]]. discriminate Hs.
  - rewrite Ht in Hin. destruct Hin as [<-|Hin]; [reflexivity|].
    destruct (w_abrp_send w); [destruct Hin|].
    destruct Hin as [<-|[]]. discriminate Hs.
Qed.

Lemma no_send_In t e :
  Forall (fun e => is_send e = false) t -> In e t -> is_send e = true -> False.
Proof.
  rewrite Forall_forall. intros H Hin Hs.
  apply list_elem_of_In, H in Hin. congruence.
Qed.

Ltac no_send_here :=
  let e := fresh "e" in let Hin := fresh "Hin" in let Hs := fresh "Hs" in
  intros e Hin Hs; exfalso;
  repeat first [rewrite in_app_iff in Hin | cbn [In] in Hin];
  repeat match type of Hin with
    | _ \/ _ => destruct Hin as [Hin|Hin]
    end;
  try contradiction;
  try (subst e; discriminate Hs);
  match goal with
  | Hq : Forall (fun e => is_send e = false) _ |- _ =>
      exact (no_send_In _ _ Hq Hin Hs)
  end.

Lemma publish_book ext w dc status newStatus location odometer d :
  wp (publish ext w dc status newStatus location odometer) d
     (publish_book_post ext w dc status newStatus location d).
Proof.
  unfold publish, publish_book_post. wp_run; cbn [app].
  all: try (wp_call abrpTelemetry_book; intros (-> & -> & Hsent); cbv iota).
  all: try (wp_call handleInfo_quiet; intros (_ & Hc & Hq); rewrite Hc;
            cbn [lastRefresh carLastActive set_capabilities set_lastRefresh
                 set_carLastActive]).
  all: (split; [reflexivity|]; split; [reflexivity|]).
  all: try solve [no_send_here].
  all: intros e Hin Hs.
  all: repeat first [rewrite in_app_iff in Hin | cbn [In] in Hin].
  all: repeat match type of Hin with
         | _ \/ _ => destruct Hin as [Hin|Hin]
         end;
       try contradiction; try (subst e; discriminate Hs);
       try (exfalso; exact (no_send_In _ _ Hq Hin Hs)).
  all: split; [|exact (Hsent _ Hin Hs)].
  all: unfold telemetry_enabled; cbn [liveData settings set_lastRefresh
                                      set_carLastActive].
  all: apply andb_true_intro; split; assumption.
Qed.

Lemma publish_both ext w dc status newStatus location odometer d :
  wp (publish ext w dc status newStatus location odometer) d
     (fun r d' t =>
        publish_post ext w status location odometer d r d' t
        /\ publish_book_post ext w dc status newStatus location d r d' t).
Proof. split; [apply publish_spec|apply publish_book]. Qed.

Ltac not_a_send :=
  let e := fresh "e" in let Hin := fresh "Hin" in
  intros e Hin;
  repeat first [rewrite in_app_iff in Hin | cbn [In] in Hin];
  repeat match type of Hin with
    | _ \/ _ => destruct Hin as [Hin|Hin]
    end;
  try contradiction; try (subst e; reflexivity).

Lemma refresh_book ext w dc location odometer d :
  wp (refresh ext w dc location odometer) d (refresh_book_post ext w dc d).
Proof.
  unfold refresh, fetch_status, fetch_position, vehicle_status,
    vehicle_location, vehicle_odometer, refresh_book_post.
  wp_run; cbn [app fst snd].
  all: try (wp_call publish_both;
            intros ((Hr & Hk & _) & (Hlr & Hca & Hsend));
            apply kept_by_publish_fields in Hk; cbn in Hk;
            destruct Hk as (Hwd & Hbusy & Hint & Htim & Hset & Hlive & Hst
                            & Hloc & Hodo & Hveh);
            cbn in Hlr, Hca;
            destruct r as [[]|e|]; [wp_run; cbn [app]| |congruence]).
  all: cbn [lastRefresh carLastActive lastStatus lastLocation lastOdometer
            set_busy set_watchDogCounter set_lastStatus set_lastLocation
            set_lastOdometer].
  all: try (split; [left; reflexivity|left; split; [reflexivity|not_a_send]]).
  all: (split; [rewrite Hca; destruct (truthy (dc_carActive dc)); auto|]).
  all: try (right; exists a, a0, a1;
            repeat (split; [first [assumption|reflexivity]|]);
            intros e' Hin Hs;
            repeat first [rewrite in_app_iff in Hin | cbn [In] in Hin];
            repeat match type of Hin with
              | _ \/ _ => destruct Hin as [Hin|Hin]
              end;
            try contradiction; try (subst e'; discriminate Hs);
            exact (Hsend _ Hin Hs)).
  all: left; (split; [assumption|]).
  all: intros e' Hin; rewrite ?app_nil_r in Hin.
  all: destruct (is_send e') eqn:Hs; [|reflexivity].
  all: destruct (Hsend _ Hin Hs) as (Hen & _).
  all: unfold telemetry_enabled in Hen; cbn in Hen.
  all: rewrite Heqb in Hen; discriminate Hen.
Qed.

Lemma decide_no_send t :
  Forall (fun e => is_decide_event e = true) t ->
  forall e, In e t -> is_send e = false.
Proof.
  rewrite Forall_forall. intros H e Hin.
  apply list_elem_of_In, H in Hin. destruct e; try discriminate; reflexivity.
Qed.

Lemma login_no_send t :
  Forall (fun e => is_login_event e = true) t ->
  forall e, In e t -> is_send e = false.
Proof.
  rewrite Forall_forall. intros H e Hin.
  apply list_elem_of_In, H in Hin. destruct e; try discriminate; reflexivity.
Qed.

Lemma doPoll_book ext w force d :
  cycle_book ext w d (exec (doPoll ext w force) d)
             (trace (doPoll ext w force) d).
Proof.
  destruct (doPoll_run ext w force d) as (_ & Hrun).
  pose proof (doPoll_try_spec ext w force d) as H. unfold wp in H.
  assert (Hstep : forall r dT tT,
            outcome (doPoll_try ext w force) d = r ->
            exec (doPoll_try ext w force) d = dT ->
            trace (doPoll_try ext w force) d = tT ->
            cycle_book ext w d dT tT ->
            cycle_book ext w d (exec (doPoll ext w force) d)
                       (trace (doPoll ext w force) d)).
  { intros r dT tT Hr Hd Ht (Hca & Hlr).
    rewrite Hr, Hd, Ht in Hrun.
    destruct r as [[]|e|]; destruct Hrun as (-> & ->);
      try (split; assumption).
    split; [exact Hca|].
    destruct Hlr as [(Hl & Hs)|(s & l & o & H1 & H2 & H3 & H4 & H5 & H6 & H7
                                & Hs)].
    - left. split; [exact Hl|]. intros x Hin.
      rewrite in_app_iff in Hin. destruct Hin as [Hin|[<-|[]]];
        [exact (Hs _ Hin)|reflexivity].
    - right. exists s, l, o. repeat (split; [assumption|]).
      intros x Hin Hx. rewrite in_app_iff in Hin.
      destruct Hin as [Hin|[<-|[]]]; [exact (Hs _ Hin Hx)|discriminate Hx]. }
  apply (Hstep _ _ _ eq_refl eq_refl eq_refl). clear Hstep Hrun.
  destruct H as [(_ & _ & -> & ->)|[(_ & _ & _ & -> & ->)|
    (_ & _ & d1 & pre & Hd1 & Hpre & H)]].
  - split; [left; reflexivity|left; split; [reflexivity|not_a_send]].
  - split; [left; reflexivity|left; split; [reflexivity|not_a_send]].
  - pose proof (login_no_send _ Hpre) as Hpre'.
    apply logged_in_fields in Hd1.
    destruct Hd1 as (_ & _ & _ & _ & Hs1 & _ & _ & _ & _ & Hr1 & Hc1).
    destruct H as [(e & _ & -> & ->)|H].
    { split; [left; exact Hc1|left; split; [exact Hr1|exact Hpre']]. }
    pose proof (decide_spec ext w force d1) as (_ & Hd2 & Hdt & _).
    unfold wp in Hd2, Hdt.
    pose proof (decide_no_send _ Hdt) as Hdt'.
    set (d2 := exec (decide ext w force) d1) in *.
    assert (Hr2 : lastRefresh d2 = lastRefresh d)
      by (rewrite Hd2; cbn; exact Hr1).
    assert (Hc2 : carLastActive d2 = carLastActive d)
      by (rewrite Hd2; cbn; exact Hc1).
    destruct (outcome (decide ext w force) d1) as [dc|e|];
      [cbn zeta in H|..]; [| |contradiction]; destruct H as (_ & -> & ->).
    2:{ split; [left; exact Hc2|left; split; [exact Hr2|]].
        intros x Hin. rewrite in_app_iff in Hin.
        destruct Hin as [Hin|Hin]; auto. }
    pose proof (refresh_book ext w dc (lastLocation d1) (lastOdometer d1) d2)
      as (Hca & Hlr).
    pose proof (refresh_spec ext w dc (lastLocation d1) (lastOdometer d1) d2)
      as (_ & _ & _ & Hset & Hlive & _).
    unfold wp in *.
    set (rf := refresh ext w dc (lastLocation d1) (lastOdometer d1)) in *.
    split; [rewrite <- Hc2; exact Hca|].
    destruct Hlr as [(Hl & Hs)|(s & l & o & H1 & H2 & H3 & H4 & H5 & H6 & H7
                                & Hs)].
    + left. split; [congruence|]. intros x Hin.
      rewrite !in_app_iff in Hin. destruct Hin as [Hin|[Hin|Hin]]; auto.
    + right. exists s, l, o. repeat (split; [assumption|]).
      intros x Hin Hx. rewrite !in_app_iff in Hin.
      destruct Hin as [Hin|[Hin|Hin]].
      * rewrite (Hpre' _ Hin) in Hx. discriminate Hx.
      * rewrite (Hdt' _ Hin) in Hx. discriminate Hx.
      * destruct (Hs _ Hin Hx) as (Hen & Hx'). split; [|exact Hx'].
        unfold telemetry_enabled in *. rewrite Hset, Hlive. exact Hen.
Qed.

(** X8. The refresh time stamp moves only in a cycle that fetched the full
    status, the location and the odometer from the car, all three: it is
    then the clock reading of that cycle and the three stored fields are the
    fetched ones; in every other cycle it is left as it was.  The time stamp
    of the last activity is, after a cycle, either what it was before or
    equal to the refresh time stamp as the cycle leaves it. *)
Theorem refresh_timestamps ext w force d :
  let d' := exec (doPoll ext w force) d in
  (lastRefresh d' = lastRefresh d
   \/ exists s l o,
        w_status_live w = Some s /\ w_location w = Some l
        /\ w_odometer w = Some o
        /\ lastStatus d' = s /\ lastLocation d' = l /\ lastOdometer d' = o
        /\ lastRefresh d' = VNum (w_now_refresh w))
  /\ (carLastActive d' = carLastActive d
      \/ carLastActive d' = lastRefresh d').
Proof.
  cbn zeta. destruct (doPoll_book ext w force d) as (Hca & Hlr).
  split; [|exact Hca].
  destruct Hlr as [(Hl & _)|(s & l & o & H1 & H2 & H3 & H4 & H5 & H6 & H7 & _)].
  - left; exact Hl.
  - right. exists s, l, o. auto 10.
Qed.

(** X9. Telemetry is forwarded only from a cycle that fetched the full
    status, the location and the odometer from the car: whatever is sent is
    made of that status and that location, they are the stored ones after
    the cycle, [liveData] is truthy and the user token is longer than five
    characters.  A cycle on cached data forwards nothing. *)
Theorem telemetry_from_fresh_data ext w force d e :
  let d' := exec (doPoll ext w force) d in
  In e (trace (doPoll ext w force) d) -> is_send e = true ->
  e = sent_from (lastStatus d') (lastLocation d')
  /\ w_status_live w = Some (lastStatus d')
  /\ w_location w = Some (lastLocation d')
  /\ w_odometer w = Some (lastOdometer d')
  /\ lastRefresh d' = VNum (w_now_refresh w)
  /\ telemetry_enabled ext d' = true.
Proof.
  cbn zeta. intros Hin Hs.
  destruct (doPoll_book ext w force d) as (_ & Hlr).
  destruct Hlr as [(_ & Hno)|(s & l & o & H1 & H2 & H3 & H4 & H5 & H6 & H7
                              & Hsend)].
  - rewrite (Hno _ Hin) in Hs. discriminate Hs.
  - destruct (Hsend _ Hin Hs) as (Hen & He).
    rewrite H4, H5, H6. auto 10.
Qed.

(** ** Cycles that find [busy] set, and cycles that clear it *)

Lemma poll_while_busy ext w force d :
  busy d = true ->
  let d' := exec (doPoll ext w force) d in
  Forall (fun e => is_api e = false) (trace (doPoll ext w force) d)
  /\ ((0 < watchDogCounter d
       /\ d' = set_watchDogCounter (watchDogCounter d - 1) d)
      \/ (watchDogCounter d <= 0
          /\ d' = set_restartTimers (restartTimers d ++ [VNum 300000])
                                    (set_intervalIdDevicePoll None d))).
Proof.
  intros Hb. cbn zeta.
  destruct (doPoll_run ext w force d) as (_ & Hrun).
  destruct (doPoll_try_guards ext w force d)
    as [(Hwd & Hr & Hd & Ht)|[(Hwd & _ & Hr & Hd & Ht)|(_ & Hb' & _)]];
    [| |congruence];
    rewrite Hr in Hrun; destruct Hrun as (-> & ->); rewrite Hd, Ht.
  - split; [repeat constructor|]. right. auto.
  - split; [repeat constructor|]. left. auto.
Qed.

(** X10. While [busy] stays set, no cycle calls the car or touches the
    stored snapshot: each cycle only lowers the watchdog counter by one
    until it is used up, and every cycle after that clears the polling
    interval and arms one more five-minute restart timer.  [busy] itself is
    never cleared by such a cycle. *)
Theorem stuck_busy_exhausts ext cycles d :
  busy d = true -> 0 <= watchDogCounter d ->
  let d' := run ext (polls cycles) d in
  let k := Z.of_nat (length cycles) in
  busy d' = true
  /\ watchDogCounter d' = Z.max 0 (watchDogCounter d - k)
  /\ Forall (fun e => is_api e = false) (run_trace ext (polls cycles) d)
  /\ lastStatus d' = lastStatus d /\ lastLocation d' = lastLocation d
  /\ lastOdometer d' = lastOdometer d /\ capabilities d' = capabilities d
  /\ restartTimers d'
     = restartTimers d
       ++ repeat (VNum 300000) (Z.to_nat (k - watchDogCounter d))
  /\ (watchDogCounter d < k -> intervalIdDevicePoll d' = None)
  /\ (k <= watchDogCounter d ->
      intervalIdDevicePoll d' = intervalIdDevicePoll d).
Proof.
  cbn zeta. revert d.
  induction cycles as [|[w force] cycles IH]; intros d Hb Hwd.
  - cbn [polls map run run_trace length]. change (Z.of_nat 0) with 0.
    replace (Z.to_nat (0 - watchDogCounter d)) with 0%nat by lia.
    cbn [repeat]. rewrite app_nil_r.
    repeat split;
      first [assumption | reflexivity | lia | intros; lia
            | intros; reflexivity | constructor].
  - cbn [polls map run run_trace run_step fst snd length].
    fold (polls cycles).
    destruct (poll_while_busy ext w force d Hb) as (Hq & Hcase).
    set (d1 := exec (doPoll ext w force) d) in *.
    set (k := Z.of_nat (length cycles)) in *.
    replace (Z.of_nat (S (length cycles))) with (k + 1) by (subst k; lia).
    assert (Hsame : busy d1 = busy d /\ lastStatus d1 = lastStatus d
                    /\ lastLocation d1 = lastLocation d
                    /\ lastOdometer d1 = lastOdometer d
                    /\ capabilities d1 = capabilities d)
      by (destruct Hcase as [(_ & ->)|(_ & ->)]; repeat split).
    destruct Hsame as (Hb1 & Hs1 & Hl1 & Ho1 & Hc1). rewrite Hb in Hb1.
    assert (Hw1 : 0 <= watchDogCounter d1)
      by (destruct Hcase as [(? & ->)|(? & ->)]; cbn; lia).
    destruct (IH d1 Hb1 Hw1)
      as (H1 & H2 & H3 & H4 & H5 & H6 & H7 & H8 & H9 & H10).
    fold k in H2, H8, H9, H10.
    split; [exact H1|].
    split; [rewrite H2; destruct Hcase as [(? & ->)|(? & ->)]; cbn; lia|].
    split; [apply Forall_app_2; assumption|].
    repeat (split; [congruence|]).
    destruct Hcase as [(Hpos & Hd1)|(Hneg & Hd1)].
    + assert (Hwd1 : watchDogCounter d1 = watchDogCounter d - 1)
        by (rewrite Hd1; reflexivity).
      assert (Ht1 : restartTimers d1 = restartTimers d)
        by (rewrite Hd1; reflexivity).
      assert (Hi1 : intervalIdDevicePoll d1 = intervalIdDevicePoll d)
        by (rewrite Hd1; reflexivity).
      rewrite Hwd1 in *. rewrite Ht1 in *. rewrite Hi1 in *.
      replace (k + 1 - watchDogCounter d)
        with (k - (watchDogCounter d - 1)) by lia.
      split; [exact H8|]. split; intros Hk; [apply H9|apply H10]; lia.
    + assert (Hz : watchDogCounter d = 0) by lia.
      assert (Hwd1 : watchDogCounter d1 = 0) by (rewrite Hd1; exact Hz).
      assert (Ht1 : restartTimers d1 = restartTimers d ++ [VNum 300000])
        by (rewrite Hd1; reflexivity).
      assert (Hi1 : intervalIdDevicePoll d1 = None)
        by (rewrite Hd1; reflexivity).
      rewrite Hwd1 in *. rewrite Ht1 in *. rewrite Hz.
      replace (Z.to_nat (k + 1 - 0)) with (S (Z.to_nat (k - 0)))
        by (subst k; lia).
      cbn [repeat]. rewrite H8, <- app_assoc. cbn [app].
      split; [reflexivity|]. split.
      * intros _. destruct (Z.ltb_spec 0 k) as [Hk|Hk].
        -- apply H9. exact Hk.
        -- rewrite H10 by exact Hk. exact Hi1.
      * subst k. lia.
Qed.

Lemma onInitDevice_busy ext s w d :
  busy d = false -> busy (exec (onInitDevice ext s w) d) = false.
Proof.
  intros Hd. change (wp (onInitDevice ext s w) d
                        (fun _ d' _ => busy d' = false)).
  unfold onInitDevice, initFields, startPolling, stopPolling, registerListeners.
  wp_run; cbn; try assumption; try reflexivity.
  all: unfold wp at 1.
  all: match goal with
       | |- context [outcome (doPoll ?e ?w0 ?f) ?x] =>
           destruct (doPoll_run e w0 f x) as (Hok & _); rewrite Hok; cbv iota;
           destruct (doPoll_control e w0 f x) as (Hb & _);
           [cbn; lia|reflexivity|]
       end.
  all: wp_run; cbn; exact Hb.
Qed.

Lemma doPoll_busy ext w force d :
  busy d = false -> busy (exec (doPoll ext w force) d) = false.
Proof.
  intros Hb.
  destruct (Z.ltb_spec 0 (watchDogCounter d)) as [Hwd|Hwd].
  - exact (proj1 (doPoll_control ext w force d Hwd Hb)).
  - destruct (doPoll_run ext w force d) as (_ & Hrun).
    destruct (doPoll_try_guards ext w force d)
      as [(_ & Hr & Hd & _)|[(Hlt & _)|(Hlt & _)]]; [|lia..].
    rewrite Hr in Hrun. destruct Hrun as (-> & _). rewrite Hd. exact Hb.
Qed.

(** X11. No cycle leaves [busy] set behind: every way out of a cycle that
    set it, the normal end as well as the catch block, clears it.  So over
    any sequence of cycles, fired restart timers and settings changes, run
    one after the other from a state with [busy] clear, [busy] is clear
    after every step. *)
Theorem busy_cleared ext steps d :
  busy d = false -> busy (run ext steps d) = false.
Proof.
  revert d. induction steps as [|st steps IH]; intros d H; cbn [run];
    [exact H|].
  apply IH. destruct st as [w force|ns w|]; cbn [run_step].
  - apply doPoll_busy; exact H.
  - unfold fireRestart.
    change (wp (bind (assign (fun d => set_restartTimers (tl (restartTimers d)) d))
                     (fun _ => onInitDevice ext ns w)) d
               (fun _ d' _ => busy d' = false)).
    wp_run. apply onInitDevice_busy. exact H.
  - cbn. exact H.
Qed.

(** ** Cycles that never reach the car *)

Lemma login_outcome w d :
  outcome (login w) d
  = if w_login w then Ok tt else Throw (Rejected "login").
Proof.
  unfold login, outcome, bind, emit; cbn.
  destruct (w_ready w) as [vehicles|]; cbn.
  - unfold try_catch. destruct (onReady vehicles d) as [[[[]|e|] d1] t1]; cbn;
      destruct (w_login w); reflexivity.
  - destruct (w_login w); reflexivity.
Qed.

(** X12. A cycle whose login is rejected, or that has no vehicle with a
    [vehicleConfig] once login has answered, goes no further: it makes no
    status, location or odometer call, stores nothing and publishes
    nothing; the catch block lowers the watchdog counter by one, clears
    [busy] and logs 'Poll error' with the rejection or with 'not logged
    in'. *)
Theorem cycle_without_login ext w force d :
  0 < watchDogCounter d -> busy d = false ->
  let d1 := exec (login w) (set_busy true d) in
  let pre := trace (login w) (set_busy true d) in
  w_login w = false \/ truthy (vehicle d1) = false
  \/ truthy (prop (vehicle d1) "vehicleConfig") = false ->
  exec (doPoll ext w force) d
  = set_vehicle (vehicle d1) (set_watchDogCounter (watchDogCounter d - 1) d)
  /\ trace (doPoll ext w force) d
     = pre ++ [ErrorLog "Poll error"
                 (if w_login w then PlainError "not logged in"
                  else Rejected "login")]
  /\ Forall (fun e => is_login_event e = true) pre.
Proof.
  intros Hwd Hb. cbn zeta. intros Hcase.
  pose proof (login_spec w (set_busy true d)) as (_ & Hd1 & Hpre).
  pose proof (login_outcome w (set_busy true d)) as Hout.
  unfold wp in Hd1, Hpre.
  set (d1 := exec (login w) (set_busy true d)) in *.
  set (pre := trace (login w) (set_busy true d)) in *.
  assert (Hend : set_busy false
                   (set_watchDogCounter (watchDogCounter d1 - 1) d1)
                 = set_vehicle (vehicle d1)
                     (set_watchDogCounter (watchDogCounter d - 1) d)).
  { rewrite Hd1. destruct d; cbn in *. subst. reflexivity. }
  change (wp (doPoll ext w force) d
            (fun r d' t =>
               d' = set_vehicle (vehicle d1)
                      (set_watchDogCounter (watchDogCounter d - 1) d)
               /\ t = pre ++ [ErrorLog "Poll error"
                                (if w_login w then PlainError "not logged in"
                                 else Rejected "login")]
               /\ Forall (fun e => is_login_event e = true) pre)).
  unfold doPoll. apply wp_try_catch. unfold doPoll_try.
  wp_step. wp_step. rewrite (proj2 (Z.leb_gt _ _) Hwd), Hb.
  wp_step. wp_step. apply wp_bind. unfold wp at 1.
  fold d1 pre. rewrite Hout.
  destruct (w_login w); cbv iota.
  - wp_run; cbn [app].
    + unfold doPoll_catch. wp_run. cbn [app]. rewrite app_nil_r. auto.
    + apply orb_false_elim in Heqb. destruct Heqb as (H1 & H2).
      apply negb_false_iff in H1, H2.
      destruct Hcase as [Hc|[Hc|Hc]]; congruence.
  - unfold doPoll_catch. wp_run. cbn [app]. auto.
Qed.

(** ** Forced cycles *)

Lemma forced_no_cached ext w force d a :
  truthy force = true ->
  ~ In (ApiStatus false a) (trace (doPoll ext w force) d).
Proof.
  intros Htrue Hin.
  destruct (doPoll_run ext w force d) as (_ & Hrun).
  pose proof (doPoll_try_spec ext w force d) as H. unfold wp in H.
  assert (Hin' : In (ApiStatus false a) (trace (doPoll_try ext w force) d)).
  { destruct (outcome (doPoll_try ext w force) d);
      destruct Hrun as (_ & Htr); rewrite Htr in Hin; [assumption| |assumption].
    locate Hin. assumption. }
  clear Hin Hrun.
  destruct H as [(_ & _ & _ & Ht)|[(_ & _ & _ & _ & Ht)|
    (_ & _ & d1 & pre & Hd1 & Hpre & H)]].
  - rewrite Ht in Hin'. locate Hin'.
  - rewrite Ht in Hin'. locate Hin'.
  - assert (Hpre_in : ~ In (ApiStatus false a) pre).
    { intros Hp. rewrite Forall_forall in Hpre.
      apply list_elem_of_In, Hpre in Hp. discriminate Hp. }
    destruct H as [(e & _ & _ & Ht)|H].
    { rewrite Ht in Hin'. contradiction. }
    pose proof (decide_spec ext w force d1) as (_ & _ & _ & Hq & _).
    unfold wp in Hq.
    assert (Hfr : exists fr,
               outcome (forceRefresh_of ext w force (lastStatus d1)
                          (lastLocation d1) (lastOdometer d1)) d1 = Ok fr
               /\ truthy fr = true).
    { unfold forceRefresh_of, outcome, bind, this; cbn. rewrite Htrue. cbn.
      eexists. split; [reflexivity|].
      rewrite !truthy_js_or, Htrue. reflexivity. }
    destruct Hfr as (fr & Hfr & Hfrt). specialize (Hq fr Hfr Hfrt).
    destruct (outcome (decide ext w force) d1) as [dc|e|];
      [cbn zeta in H|..]; [| |contradiction];
      destruct H as (_ & _ & Ht); rewrite Ht in Hin';
      rewrite ?in_app_iff in Hin';
      repeat match type of Hin' with _ \/ _ => destruct Hin' as [Hin'|Hin'] end;
      try contradiction;
      try (apply (quiet_In _ _ Hq) in Hin'; discriminate Hin').
    exact (refresh_no_cached _ _ _ _ _ _ _ Hin').
Qed.

(** X13. [startPolling], on a device that has settings, never throws: it
    clears the previous interval first, runs one forced cycle, which makes
    no cached status call, and leaves the given interval armed.  Without
    settings it throws before anything is cleared or started. *)
Theorem startPolling_forced ext w interval d :
  let m := startPolling ext w interval in
  if nullish (settings d)
  then outcome m d = Throw (TypeError "pollIntervalForced")
       /\ exec m d = d /\ trace m d = [Log "Start polling"]
  else outcome m d = Ok tt
       /\ intervalIdDevicePoll (exec m d) = Some interval
       /\ (forall a, ~ In (ApiStatus false a) (trace m d))
       /\ exists pre,
            Forall (fun e => is_api e = false) pre
            /\ trace m d
               = pre ++ [ClearInterval]
                 ++ trace (doPoll ext w (VBool true))
                          (set_intervalIdDevicePoll None d)
                 ++ [SetInterval interval].
Proof.
  cbn zeta.
  change (wp (startPolling ext w interval) d
            (fun r d' t =>
               if nullish (settings d)
               then r = Throw (TypeError "pollIntervalForced")
                    /\ d' = d /\ t = [Log "Start polling"]
               else r = Ok tt
                    /\ intervalIdDevicePoll d' = Some interval
                    /\ (forall a, ~ In (ApiStatus false a) t)
                    /\ exists pre,
                         Forall (fun e => is_api e = false) pre
                         /\ t = pre ++ [ClearInterval]
                                ++ trace (doPoll ext w (VBool true))
                                         (set_intervalIdDevicePoll None d)
                                ++ [SetInterval interval])).
  unfold startPolling, stopPolling. wp_run; cbn [app].
  all: match goal with H : nullish (settings _) = _ |- _ => rewrite H end.
  1: repeat split.
  all: unfold wp at 1.
  all: match goal with
       | |- context [outcome (doPoll ?e ?w0 ?f) ?x] =>
           destruct (doPoll_run e w0 f x) as (Hok & _); rewrite Hok; cbv iota
       end.
  all: wp_run; cbn [app].
  all: split; [reflexivity|]; split; [reflexivity|]; split.
  all: try (intros a Hin;
            repeat first [rewrite in_app_iff in Hin | cbn [In] in Hin];
            repeat match type of Hin with
              | _ \/ _ => destruct Hin as [Hin|Hin]
              end;
            try discriminate Hin; try contradiction;
            exact (forced_no_cached _ _ (VBool true) _ _ eq_refl Hin)).
  - exists [Log "Start polling"; Log "Warning: forced polling is enabled"].
    split; [repeat constructor|reflexivity].
  - exists [Log "Start polling"]. split; [repeat constructor|reflexivity].
Qed.

(** ** Initialisation that fails *)

Lemma onInitDevice_unusable ext newSettings w d :
  settings_usable newSettings = false ->
  let m := onInitDevice ext newSettings w in
  outcome m d = Ok tt
  /\ intervalIdDevicePoll (exec m d) = intervalIdDevicePoll d
  /\ restartTimers (exec m d) = restartTimers d
  /\ Forall (fun e => is_api e = false) (trace m d)
  /\ Forall (fun e => is_set_interval e = false) (trace m d)
  /\ (exists pre e, trace m d = pre ++ [ErrorLog EmptyString e])
  /\ (newSettings = None -> exec m d = d).
Proof.
  intros Hu. cbn zeta.
  change (wp (onInitDevice ext newSettings w) d
            (fun r d' t =>
               r = Ok tt
               /\ intervalIdDevicePoll d' = intervalIdDevicePoll d
               /\ restartTimers d' = restartTimers d
               /\ Forall (fun e => is_api e = false) t
               /\ Forall (fun e => is_set_interval e = false) t
               /\ (exists pre e, t = pre ++ [ErrorLog EmptyString e])
               /\ (newSettings = None -> d' = d))).
  unfold onInitDevice, initFields, registerListeners.
  wp_run; cbn [app].
  all: try (exfalso; subst newSettings; cbn in *;
            repeat match goal with
              | H : nullish _ = false |- _ => rewrite H in Hu
              end;
            discriminate Hu).
  all: split; [reflexivity|]; split; [reflexivity|]; split; [reflexivity|].
  all: split; [repeat constructor|]; split; [repeat constructor|].
  all: split; [|first [intros _; reflexivity | congruence]].
  all: match goal with
       | |- exists pre e, ?t = _ =>
           let p := heads t in
           first [ exists (removelast p), (match List.last p (Log EmptyString) with
                                           | ErrorLog _ x => x
                                           | _ => Rejected EmptyString
                                           end); reflexivity ]
       end.
Qed.

(** X14. [onInitDevice] never throws.  When [getSettings] is rejected, or
    the settings are missing or carry no [abrp_user_token], it ends in its
    catch block before [startPolling]: no polling interval is armed, no
    call is made to the car, and the error is logged; when [getSettings] is
    rejected the device is left exactly as it was. *)
Theorem onInitDevice_unusable_settings ext newSettings w d :
  settings_usable newSettings = false ->
  let m := onInitDevice ext newSettings w in
  outcome m d = Ok tt
  /\ intervalIdDevicePoll (exec m d) = intervalIdDevicePoll d
  /\ restartTimers (exec m d) = restartTimers d
  /\ Forall (fun e => is_api e = false) (trace m d)
  /\ Forall (fun e => is_set_interval e = false) (trace m d)
  /\ (exists pre e, trace m d = pre ++ [ErrorLog EmptyString e])
  /\ (newSettings = None -> exec m d = d).
Proof. exact (onInitDevice_unusable ext newSettings w d). Qed.

Lemma fireRestart_run ext newSettings w d :
  let d0 := set_restartTimers (tl (restartTimers d)) d in
  outcome (fireRestart ext newSettings w) d
  = outcome (onInitDevice ext newSettings w) d0
  /\ exec (fireRestart ext newSettings w) d
     = exec (onInitDevice ext newSettings w) d0
  /\ trace (fireRestart ext newSettings w) d
     = trace (onInitDevice ext newSettings w) d0.
Proof.
  cbn zeta. unfold fireRestart, outcome, exec, trace, bind, assign.
  destruct (onInitDevice ext newSettings w _) as [[r d2] t2]. auto.
Qed.

(** X15. The watchdog restart does not retry: when the restart timer that
    an exhausted watchdog armed fires and the settings cannot be used
    ([getSettings] is rejected, or they are missing or carry no
    [abrp_user_token]), the device is left with no polling interval and no
    pending restart timer, and no call was made to the car; nothing is
    scheduled that would poll the car again. *)
Theorem failed_restart_stops_device ext w0 force newSettings w d :
  watchDogCounter d <= 0 -> restartTimers d = [] ->
  settings_usable newSettings = false ->
  let d1 := exec (doPoll ext w0 force) d in
  let d2 := exec (fireRestart ext newSettings w) d1 in
  restartTimers d1 = [VNum 300000] /\ intervalIdDevicePoll d1 = None
  /\ intervalIdDevicePoll d2 = None /\ restartTimers d2 = []
  /\ Forall (fun e => is_api e = false)
            (trace (fireRestart ext newSettings w) d1)
  /\ Forall (fun e => is_set_interval e = false)
            (trace (fireRestart ext newSettings w) d1).
Proof.
  intros Hwd Htim Hu. cbn zeta.
  destruct (doPoll_run ext w0 force d) as (_ & Hrun).
  destruct (doPoll_try_guards ext w0 force d)
    as [(_ & Hr & Hd & Ht)|[(Hlt & _)|(Hlt & _)]]; [|lia..].
  rewrite Hr in Hrun. destruct Hrun as (-> & _). rewrite Hd, Htim.
  set (d1 := set_restartTimers _ _).
  destruct (fireRestart_run ext newSettings w d1) as (_ & -> & ->).
  destruct (onInitDevice_unusable ext newSettings w
              (set_restartTimers (tl (restartTimers d1)) d1) Hu)
    as (_ & Hi & Ht' & Ha & Hs & _).
  cbn zeta in *. rewrite Hi, Ht'. repeat split; assumption.
Qed.

(** ** The listeners *)

Lemma bind_assoc {A B C} (m : M A) (f : A -> M B) (g : B -> M C) d :
  bind (bind m f) g d = bind m (fun x => bind (f x) g) d.
Proof.
  unfold bind. destruct (m d) as [[[a|e|] d1] t1]; [|reflexivity..].
  destruct (f a d1) as [[[b|e|] d2] t2]; [|reflexivity..].
  destruct (g b d2) as [[r d3] t3]. rewrite app_assoc. reflexivity.
Qed.

(** A cycle is what [doPoll_begin] does and, when that leaves a cycle in
    flight, [doPoll_resume] after it. *)
Lemma doPoll_split ext w force d :
  if (watchDogCounter d <=? 0) || busy d
  then outcome (doPoll_begin w) d = Ok false
       /\ exec (doPoll_begin w) d = exec (doPoll ext w force) d
       /\ trace (doPoll_begin w) d = trace (doPoll ext w force) d
  else outcome (doPoll_begin w) d = Ok true
       /\ exec (doPoll_begin w) d = set_busy true d
       /\ trace (doPoll_begin w) d = [ApiLogin (w_login w)]
       /\ exec (doPoll_resume ext w force) (set_busy true d)
          = exec (doPoll ext w force) d
       /\ ApiLogin (w_login w)
          :: trace (doPoll_resume ext w force) (set_busy true d)
          = trace (doPoll ext w force) d.
Proof.
  destruct (watchDogCounter d <=? 0) eqn:Hwd; cbn [orb].
  { unfold doPoll_begin, doPoll, doPoll_try, try_catch, outcome, exec, trace,
      bind, this. cbn. rewrite Hwd. cbn. auto. }
  destruct (busy d) eqn:Hb.
  { unfold doPoll_begin, doPoll, doPoll_try, try_catch, outcome, exec, trace,
      bind, this. cbn. rewrite Hwd, Hb. cbn. auto. }
  split; [|split; [|split]].
  1-3: unfold doPoll_begin, outcome, exec, trace, bind, this; cbn;
       rewrite Hwd, Hb; reflexivity.
  assert (H : doPoll_try ext w force d
              = let '(r, d', t) := doPoll_rest ext w force (set_busy true d) in
                (r, d', ApiLogin (w_login w) :: t)).
  { unfold doPoll_try, doPoll_rest, login.
    unfold bind at 1, this at 1. cbn iota beta. rewrite Hwd, Hb.
    unfold bind at 1, assign at 1. cbn iota beta.
    rewrite bind_assoc. unfold bind at 1, emit at 1. cbn iota beta.
    rewrite bind_assoc. cbn [app].
    match goal with |- context [bind ?a ?f (set_busy true d)] =>
      destruct (bind a f (set_busy true d)) as [[r d'] t] end.
    reflexivity. }
  unfold doPoll, doPoll_resume, try_catch, exec, trace. rewrite H.
  destruct (doPoll_rest ext w force (set_busy true d)) as [[[[]|e|] d'] t];
    cbn; auto.
Qed.

Lemma after_command ext w msg what answer d :
  wp (success <- (emit (Log msg) ;; vehicle_call what answer) ;;
      doPoll_begin w ;;
      ret success) d
     (command_post ext w msg answer d).
Proof.
  pose proof (doPoll_split ext w (VBool true) d) as Hsplit.
  assert (Hno : forall a, ~ In (ApiStatus false a)
                             (trace (doPoll ext w (VBool true)) d))
    by (intros a; exact (forced_no_cached _ _ (VBool true) _ _ eq_refl)).
  unfold vehicle_call, command_post. wp_run; cbn [app].
  all: try match goal with H : _ = None |- _ => rewrite H end.
  all: try match goal with H : _ = Some _ |- _ => rewrite H end.
  all: try (repeat split; eauto; fail).
  unfold wp at 1.
  destruct ((watchDogCounter d <=? 0) || busy d).
  - destruct Hsplit as (Hs & Hx & Hy). rewrite Hs. unfold wp, ret; cbn.
    rewrite app_nil_r. rewrite <- Hx. repeat split; eauto.
  - destruct Hsplit as (Hs & Hx & Hy & Hz & Hu). rewrite Hs.
    unfold wp, ret; cbn. rewrite app_nil_r. rewrite Hx.
    repeat split; eauto.
Qed.

(** X16. The listener of 'locked' sends [lock] for a truthy value and
    [unlock] otherwise.  When there is no vehicle or the car rejects the
    command, the listener fails and nothing else happens: no cycle is
    started and the device is left as it was.  When the car answers, the
    listener calls [doPoll(true)] without awaiting it and answers what the
    car answered: at that moment the device is as the guards of [doPoll]
    and the call of [login] leave it.  If the watchdog budget is used up or
    a cycle is already in flight, that is all of the cycle; otherwise
    [busy] is set, [login] has been called and nothing else has happened
    yet, and the cycle in flight, once it is resumed, does what is left of
    one forced cycle, which makes no cached status call. *)
Theorem lockedListener_polls ext c w locked d :
  let m := lockedListener c w locked in
  command_post ext w
    (if truthy locked then "locking doors via app"
     else "unlocking doors via app")
    (if truthy locked then c_lock c else c_unlock c) d
    (outcome m d) (exec m d) (trace m d).
Proof.
  cbn zeta. unfold lockedListener.
  destruct (truthy locked); apply after_command.
Qed.

(** X17. The listeners of 'defrost' and 'climate_control' send [start] for
    a truthy value and [stop] otherwise.  The options carry a temperature
    that is the stored target temperature when that is truthy and 22
    otherwise (so never 0 and never absent); the options of 'defrost' carry
    the flags [defrost] and [windscreenHeating], both true for [start] and
    both false for [stop], and the options of 'climate_control' carry the
    temperature alone.  Like the lock listener they call [doPoll(true)]
    without awaiting it after an answered command, and start no cycle
    after a failed one. *)
Theorem heating_listeners_poll ext c w value d :
  let defrost := defrostListener c w value in
  let climate := climateControlListener c w value in
  let stored := getCapabilityValue d "target_temperature" in
  let temperature := if truthy stored then stored else VNum 22 in
  command_post ext w
    (if truthy value then "defrost start via app" else "defrost stop via app")
    (if truthy value then c_start c (defrost_options true d)
     else c_stop c (defrost_options false d)) d
    (outcome defrost d) (exec defrost d) (trace defrost d)
  /\ command_post ext w
       (if truthy value then "A/C on via app" else "A/C off via app")
       (if truthy value then c_start c (climate_options d)
        else c_stop c (climate_options d)) d
       (outcome climate d) (exec climate d) (trace climate d)
  /\ temperature_option d = temperature
  /\ (forall on,
        prop (defrost_options on d) "temperature" = temperature
        /\ prop (defrost_options on d) "defrost" = VBool on
        /\ prop (defrost_options on d) "windscreenHeating" = VBool on
        /\ own_keys (defrost_options on d)
           = ["defrost"; "windscreenHeating"; "temperature"])
  /\ prop (climate_options d) "temperature" = temperature
  /\ own_keys (climate_options d) = ["temperature"]
  /\ truthy temperature = true.
Proof.
  cbn zeta. split; [|split].
  - change (wp (defrostListener c w value) d
              (command_post ext w
                 (if truthy value then "defrost start via app"
                  else "defrost stop via app")
                 (if truthy value then c_start c (defrost_options true d)
                  else c_stop c (defrost_options false d)) d)).
    unfold defrostListener. wp_step. wp_step.
    destruct (truthy value); apply after_command.
  - change (wp (climateControlListener c w value) d
              (command_post ext w
                 (if truthy value then "A/C on via app" else "A/C off via app")
                 (if truthy value then c_start c (climate_options d)
                  else c_stop c (climate_options d)) d)).
    unfold climateControlListener. wp_step. wp_step.
    destruct (truthy value); apply after_command.
  - split; [reflexivity|]. split; [intros on; repeat split|].
    split; [reflexivity|]. split; [reflexivity|].
    destruct (truthy (getCapabilityValue d "target_temperature")) eqn:Ht;
      auto.
Qed.

(** X18. The run listener of the 'force_poll' card and the listener of
    'live_data' always answer [true], also when the cycle they start fails.
    Their cycle is a forced one: it makes no cached status call.  For a
    falsy value the 'live_data' listener does nothing. *)
Theorem polling_listeners ext w value d :
  let force := forcepollListener ext w in
  let live := liveDataListener ext w value in
  outcome force d = Ok (VBool true)
  /\ exec force d = exec (doPoll ext w (VBool true)) d
  /\ trace force d = trace (doPoll ext w (VBool true)) d
  /\ outcome live d = Ok (VBool true)
  /\ (forall a, ~ In (ApiStatus false a) (trace live d))
  /\ if truthy value
     then exec live d = exec (doPoll ext w (VBool true)) d
     else exec live d = d /\ trace live d = [].
Proof.
  cbn zeta.
  destruct (doPoll_run ext w (VBool true) d) as (Hok & _).
  assert (Hforce : wp (forcepollListener ext w) d
            (fun r d' t => r = Ok (VBool true)
                           /\ d' = exec (doPoll ext w (VBool true)) d
                           /\ t = trace (doPoll ext w (VBool true)) d)).
  { unfold forcepollListener. apply wp_bind. unfold wp at 1. rewrite Hok.
    wp_run. rewrite app_nil_r. auto. }
  destruct Hforce as (H1 & H2 & H3).
  split; [exact H1|]. split; [exact H2|]. split; [exact H3|].
  change (wp (liveDataListener ext w value) d
            (fun r d' t =>
               r = Ok (VBool true)
               /\ (forall a, ~ In (ApiStatus false a) t)
               /\ if truthy value
                  then d' = exec (doPoll ext w (VBool true)) d
                  else d' = d /\ t = [])).
  unfold liveDataListener. wp_run; cbn [app].
  - unfold wp at 1. rewrite Hok. cbv iota. wp_run. rewrite app_nil_r.
    split; [reflexivity|]. split; [|reflexivity].
    intros x [Hin|Hin]; [discriminate Hin|].
    exact (forced_no_cached _ _ (VBool true) _ _ eq_refl Hin).
  - split; [reflexivity|]. split; [intros x []|auto].
Qed.

(** ** Pairing *)

Lemma settle_settled s p :
  p_promise p <> Pending -> settle s p = p.
Proof. unfold settle. destruct (p_promise p); congruence. Qed.

Lemma settle_promise s p :
  p_promise (settle s p) = match p_promise p with Pending => s | x => x end.
Proof. unfold settle. destruct (p_promise p) eqn:H; cbn; congruence. Qed.

Lemma on_client_event_promise e p :
  p_promise p <> Pending ->
  p_promise (on_client_event e p) = p_promise p.
Proof.
  intros H. destruct e as [error|[[|v0 rest]|]|i ok|]; cbn.
  - rewrite settle_promise. cbn. destruct (p_promise p); congruence.
  - rewrite settle_promise. cbn. destruct (p_promise p); congruence.
  - destruct (nullish v0); reflexivity.
  - rewrite settle_promise. cbn. destruct (p_promise p); congruence.
  - destruct (p_odometer p !! i); [|reflexivity].
    destruct ok; rewrite settle_promise; cbn; destruct (p_promise p);
      congruence.
  - destruct (p_cancelTimeout p); [reflexivity|].
    rewrite settle_promise. cbn. destruct (p_promise p); congruence.
Qed.

Lemma on_client_event_cancelled e p :
  p_cancelTimeout p = true -> p_promise p <> Failed LoginTimeout ->
  p_cancelTimeout (on_client_event e p) = true
  /\ p_promise (on_client_event e p) <> Failed LoginTimeout.
Proof.
  intros Hc Hp. destruct e as [error|[[|v0 rest]|]|i ok|]; cbn.
  - rewrite settle_promise. unfold settle. cbn.
    destruct (p_promise p); cbn; split; congruence.
  - rewrite settle_promise. unfold settle. cbn.
    destruct (p_promise p); cbn; split; congruence.
  - destruct (nullish v0); cbn; auto.
  - rewrite settle_promise. unfold settle. cbn.
    destruct (p_promise p); cbn; split; congruence.
  - destruct (p_odometer p !! i); [|auto].
    destruct ok; rewrite settle_promise; unfold settle; cbn;
      destruct (p_promise p); cbn; split; congruence.
  - rewrite Hc. auto.
Qed.

Lemma on_client_events_cancelled events p :
  p_cancelTimeout p = true -> p_promise p <> Failed LoginTimeout ->
  p_promise (on_client_events events p) <> Failed LoginTimeout.
Proof.
  revert p. induction events as [|e events IH]; intros p Hc Hp; [exact Hp|].
  cbn [on_client_events fold_left].
  destruct (on_client_event_cancelled e p Hc Hp) as (Hc' & Hp').
  exact (IH _ Hc' Hp').
Qed.

(** X20. Once the client has emitted 'error' or 'ready', the login timeout
    is switched off for good: whatever follows, 'validate' is never
    rejected with 'Login timeout'.  In particular, after a 'ready' event
    with a vehicle, as long as its [odometer()] call does not answer the
    promise stays pending, however often the timer fires. *)
Theorem timeout_cancelled_by_client e events p n veh :
  is_client_signal e = true -> p_promise p <> Failed LoginTimeout ->
  p_promise (on_client_events (e :: events) p) <> Failed LoginTimeout
  /\ (p_promise p = Pending -> veh <> [] -> nullish (hd VUndef veh) = false ->
      p_promise (on_client_events
                   (ClientReady (Some veh) :: repeat TimerElapsed n) p)
      = Pending).
Proof.
  intros He Hp. split.
  - cbn [on_client_events fold_left].
    apply on_client_events_cancelled.
    + destruct e as [error|[[|v0 rest]|]|i ok|]; try discriminate He; cbn;
        try (unfold settle; cbn; destruct (p_promise p); reflexivity).
      destruct (nullish v0); reflexivity.
    + destruct e as [error|[[|v0 rest]|]|i ok|]; try discriminate He; cbn;
        try (rewrite settle_promise; cbn; destruct (p_promise p); congruence).
      destruct (nullish v0); exact Hp.
  - intros Hpend Hne Hv. destruct veh as [|v0 rest]; [congruence|].
    cbn in Hv. cbn [on_client_events fold_left on_client_event].
    rewrite Hv.
    set (p1 := set_p_odometer _ _).
    assert (H1 : p_cancelTimeout p1 = true) by reflexivity.
    assert (H2 : p_promise p1 = Pending) by exact Hpend.
    clearbody p1. clear Hpend Hp. revert p1 H1 H2.
    induction n as [|n IH]; intros p1 H1 H2; [exact H2|].
    cbn [repeat fold_left on_client_event]. rewrite H1. exact (IH _ H1 H2).
Qed.

Lemma on_client_event_sound all e p :
  In e all -> pairing_sound all p -> pairing_sound all (on_client_event e p).
Proof.
  intros Hin (Ho & Hf).
  assert (Hkeep : forall s q,
            p_odometer q = p_odometer p -> p_vehicles q = p_vehicles p ->
            p_promise q = p_promise p ->
            (forall v, s <> Fulfilled v) ->
            pairing_sound all (settle s q)).
  { intros s q H1 H2 H3 Hs. unfold pairing_sound, settle.
    destruct (p_promise q) eqn:Hq; cbn; rewrite ?H1, ?H2;
      (split; [exact Ho|]); intros x Hx.
    - exfalso. exact (Hs x Hx).
    - apply Hf. congruence.
    - congruence. }
  destruct e as [error|[[|v0 rest]|]|i ok|]; cbn.
  - apply Hkeep; try reflexivity. discriminate.
  - apply Hkeep; try reflexivity. discriminate.
  - destruct (nullish v0); cbn; split; try exact Ho; try exact Hf.
    apply Forall_app_2; [exact Ho|]. repeat constructor.
    + discriminate.
    + exact Hin.
  - apply Hkeep; try reflexivity. discriminate.
  - destruct (p_odometer p !! i) as [veh|] eqn:Hi; [|split; assumption].
    assert (Hveh : delivered all veh).
    { rewrite Forall_forall in Ho. apply Ho.
      apply list_elem_of_lookup. eauto. }
    assert (Hdel : Forall (delivered all) (delete i (p_odometer p)))
      by (apply Forall_delete; exact Ho).
    destruct ok.
    + unfold pairing_sound, settle. cbn.
      destruct (p_promise p) eqn:Hp; cbn; (split; [exact Hdel|]);
        intros x Hx.
      * injection Hx as <-. eauto.
      * destruct (Hf _ eq_refl) as (H1 & _ & H3).
        split; [congruence|]. split; [exact Hveh|exact H3].
      * congruence.
    + unfold pairing_sound, settle. cbn.
      destruct (p_promise p) eqn:Hp; cbn; (split; [exact Hdel|]);
        intros x Hx; try congruence.
      apply Hf. congruence.
  - destruct (p_cancelTimeout p); [split; assumption|].
    apply Hkeep; try reflexivity. discriminate.
Qed.

Lemma on_client_events_sound all events p :
  (forall e, In e events -> In e all) ->
  pairing_sound all p -> pairing_sound all (on_client_events events p).
Proof.
  revert p. induction events as [|e events IH]; intros p Hall H; [exact H|].
  cbn [on_client_events fold_left].
  apply IH; [intros x Hx; apply Hall; right; exact Hx|].
  apply on_client_event_sound; [apply Hall; left; reflexivity|exact H].
Qed.

(** X21. 'validate' returns only [true], and only when the PIN has length
    4, a 'ready' event delivered a vehicle list that is not empty, and an
    [odometer()] call answered: that list is then the stored vehicle list
    that 'list_devices' works on. *)
Theorem validate_success ds data events p v :
  fst (validate ds data events p) = Some (inr v) ->
  let p' := snd (validate ds data events p) in
  v = VBool true
  /\ strict_eq (prop (prop data "pin") "length") (VNum 4) = true
  /\ p_settings p' = data
  /\ p_vehicles p' <> []
  /\ In (ClientReady (Some (p_vehicles p'))) events
  /\ exists i, In (OdometerSettled i true) events.
Proof.
  unfold validate. cbn zeta.
  destruct (validate_options ds data) as [e|options] eqn:Hopt; cbn;
    [discriminate|].
  set (p0 := mkPairing data [] Pending false [] (p_errors p)).
  assert (Hsound : pairing_sound events (on_client_events events p0)).
  { apply on_client_events_sound; [auto|].
    split; [constructor|]. intros x Hx. discriminate Hx. }
  assert (Hset : forall evs q, p_settings (on_client_events evs q)
                               = p_settings q).
  { induction evs as [|e evs IH]; intros q; [reflexivity|].
    cbn [on_client_events fold_left].
    change (p_settings (on_client_events evs (on_client_event e q))
            = p_settings q).
    rewrite IH.
    destruct e as [error|[[|v0 rest]|]|i ok|]; cbn; unfold settle; cbn;
      try (destruct (p_promise q); reflexivity).
    - destruct (nullish v0); reflexivity.
    - destruct (p_odometer q !! i); [|reflexivity].
      destruct ok; cbn; destruct (p_promise q); reflexivity.
    - destruct (p_cancelTimeout q); [reflexivity|].
      cbn. destruct (p_promise q); reflexivity. }
  destruct Hsound as (_ & Hf).
  destruct (p_promise (on_client_events events p0)) as [|v'|why] eqn:Hp;
    intros Hv; try discriminate Hv.
  injection Hv as ->.
  destruct (Hf v eq_refl) as (-> & (Hne & Hin) & Hodo).
  split; [reflexivity|]. split.
  - unfold validate_options, strict_neq in Hopt.
    destruct (nullish data); [discriminate|].
    destruct (nullish (prop data "pin")); [discriminate|].
    destruct (strict_eq (prop (prop data "pin") "length") (VNum 4));
      [reflexivity|discriminate].
  - rewrite Hset. auto.
Qed.

Lemma map_entries_Forall2 (f : jsval -> exn + jsval) l ys :
  map_entries f l = inr ys -> Forall2 (fun x y => f x = inr y) l ys.
Proof.
  revert ys. induction l as [|x l IH]; intros ys; cbn.
  - intros [= <-]. constructor.
  - destruct (f x) as [e|y] eqn:Hx; [discriminate|].
    destruct (map_entries f l) as [e|ys']; [discriminate|].
    intros [= <-]. constructor; auto.
Qed.

(** X22. When 'list_devices' answers, it answers one device per stored
    vehicle, in order: each is named after the vehicle's nickname and has
    the VIN as its id; its settings are the username, the password, the
    PIN and the region of the stored credentials, the name, the id, the
    VIN, the brand indicator and the generation of the vehicle, the
    coordinates of the home, and as registration date the part of the
    vehicle's [regDate] in front of the first space; its capabilities are
    those of the driver; and it has no other field.  So every stored
    vehicle has a [vehicleConfig] with a string [regDate]: one vehicle
    without them makes the whole listing fail. *)
Theorem list_devices_entries pf p devices :
  list_devices pf p = inr devices ->
  Forall2 (entry_of pf (p_settings p)) (p_vehicles p) devices
  /\ length devices = length (p_vehicles p).
Proof.
  unfold list_devices. intros H. apply map_entries_Forall2 in H.
  split; [|symmetry; eapply Forall2_length; exact H].
  eapply Forall2_impl; [exact H|]. clear H.
  intros veh dev. unfold device_entry, entry_of, split_first. cbn zeta.
  destruct (nullish veh); [discriminate|].
  destruct (nullish (prop veh "vehicleConfig")); [discriminate|].
  destruct (nullish (p_settings p)); [discriminate|].
  destruct (prop (prop veh "vehicleConfig") "regDate") eqn:Hreg;
    try discriminate.
  intros [= <-]. cbn. repeat split. eauto.
Qed.

Lemma before_space_split s :
  has_space (before_space s) = false
  /\ exists rest,
       s = before_space s +:+ rest
       /\ (rest = EmptyString \/ exists r, rest = " " +:+ r).
Proof.
  induction s as [|c s (IH1 & rest & IH2 & IH3)]; cbn [before_space].
  - split; [reflexivity|]. exists EmptyString. auto.
  - destruct (String.eqb (String c EmptyString) " ") eqn:Hc.
    + split; [reflexivity|]. exists (String c s).
      split; [reflexivity|]. right.
      apply String.eqb_eq in Hc. injection Hc as ->. exists s. reflexivity.
    + cbn [has_space]. rewrite Hc, IH1. split; [reflexivity|].
      exists rest. split; [|exact IH3].
      change (String c (before_space s) +:+ rest)
        with (String c (before_space s +:+ rest)).
      rewrite <- IH2. reflexivity.
Qed.

(** X23. [regDate.split(' ')[0]]: on a string it answers the longest
    beginning of the string without a space (the string is that beginning,
    followed by nothing or by a space and the rest); on anything else it
    throws. *)
Theorem split_first_prefix regDate :
  match split_first regDate with
  | inr first =>
      exists s t, regDate = VStr s /\ first = VStr t
                  /\ has_space t = false
                  /\ exists rest,
                       s = t +:+ rest
                       /\ (rest = EmptyString \/ exists r, rest = " " +:+ r)
  | inl e => e = TypeError "split" /\ forall s, regDate <> VStr s
  end.
Proof.
  destruct regDate; cbn; try (split; [reflexivity|discriminate]).
  destruct (before_space_split s) as (H1 & H2). eauto 10.
Qed.

(** ** What makes a cycle fail *)

Lemma truthy_not_nullish v : truthy v = true -> nullish v = false.
Proof. destruct v; cbn; congruence. Qed.

Lemma decide_throws ext w force d :
  wp (decide ext w force) d
     (fun r _ _ => forall e, r = Throw e ->
        In e [TypeError "pollIntervalForced"; Rejected "status";
              TypeError "batSoc"; TypeError "batteryAlarmLevel"]).
Proof.
  unfold decide, forceRefresh_of, sleepModeCheck_of, batSoCGood_of,
    vehicle_status.
  wp_run; cbn [app].
  all: intros e He; try discriminate He; injection He as <-.
  all: try (cbn; tauto).
  all: exfalso.
  all: repeat match goal with
         | H : negb _ = true |- _ => apply negb_true_iff in H
         | H : negb _ = false |- _ => apply negb_false_iff in H
         end.
  all: rewrite ?truthy_js_or in *.
  all: repeat match goal with
         | H : _ || _ = false |- _ =>
             apply orb_false_elim in H; destruct H
         end.
  all: repeat match goal with
         | H : truthy (js_not _) = false |- _ =>
             unfold js_not in H; cbn in H; apply negb_false_iff in H
         end.
  all: repeat match goal with
         | H : truthy ?v = true |- _ =>
             apply truthy_not_nullish in H
         end.
  all: congruence.
Qed.

Lemma publish_throws ext w dc status newStatus location odometer d :
  wp (publish ext w dc status newStatus location odometer) d
     (fun r _ _ => forall e, r = Throw e ->
        In e [TypeError "abrp_user_token"; TypeError "length"]).
Proof.
  unfold publish. wp_run; cbn [app].
  all: try (wp_call abrpTelemetry_spec; intros (-> & -> & _); cbv iota).
  all: try (pose proof (handleInfo_spec ext w status location odometer) as Hh;
            unfold wp in *;
            match goal with
            | |- forall e, outcome ?m ?x = _ -> _ =>
                rewrite (proj1 (Hh x))
            end).
  all: intros e He; try discriminate He; injection He as <-; cbn; tauto.
Qed.

Lemma refresh_throws ext w dc location odometer d :
  wp (refresh ext w dc location odometer) d
     (fun r _ _ => forall e, r = Throw e ->
        In e [Rejected "status"; Rejected "location"; Rejected "odometer";
              TypeError "abrp_user_token"; TypeError "length"]).
Proof.
  unfold refresh, fetch_status, fetch_position, vehicle_status,
    vehicle_location, vehicle_odometer.
  wp_run; cbn [app fst snd].
  all: try (wp_call publish_throws; intros Hp;
            destruct r as [[]|x|]; [wp_run| |]).
  all: intros e He; try discriminate He; injection He as <-.
  all: try (cbn; tauto).
  all: destruct (Hp _ eq_refl) as [<-|[<-|[]]]; cbn; tauto.
Qed.

Lemma doPoll_try_throws ext w force d e :
  outcome (doPoll_try ext w force) d = Throw e -> In e poll_error_causes.
Proof.
  change (wp (doPoll_try ext w force) d
            (fun r _ _ => r = Throw e -> In e poll_error_causes)).
  unfold doPoll_try, restartDevice, stopPolling. wp_run; cbn [app];
    try discriminate.
  unfold wp at 1. rewrite login_outcome.
  destruct (w_login w); cbv iota; [|intros [= <-]; cbn; tauto].
  wp_run; [intros [= <-]; cbn; tauto|].
  wp_call decide_throws. intros Hd.
  destruct r as [dc|x|]; [| |discriminate].
  - wp_call refresh_throws. intros Hr He.
    specialize (Hr _ He). cbn in Hr. cbn. tauto.
  - intros [= <-]. specialize (Hd _ eq_refl). cbn in Hd. cbn. tauto.
Qed.

(** X24. What can make a cycle fail is: the rejected login, 'not logged
    in', missing settings, the rejected cached status, a status without
    [battery], the rejected full status, location or odometer, and settings
    without a user token when data is live.  Nothing else does: not the
    comparison with the time of the stored status (no status is stored only
    when the refresh is forced), and no failure of [handleInfo] or of the
    telemetry forwarder.  The failure is logged as 'Poll error' at the end
    of the cycle and costs one unit of the watchdog counter. *)
Theorem poll_error_cause ext w force d e :
  outcome (doPoll_try ext w force) d = Throw e ->
  In e poll_error_causes
  /\ trace (doPoll ext w force) d
     = trace (doPoll_try ext w force) d ++ [ErrorLog "Poll error" e]
  /\ watchDogCounter (exec (doPoll ext w force) d) = watchDogCounter d - 1.
Proof.
  intros He. split; [exact (doPoll_try_throws ext w force d e He)|].
  destruct (doPoll_run ext w force d) as (_ & Hrun).
  pose proof (watchdog_step ext w force d) as Hw. cbn zeta in Hw.
  rewrite He in Hrun, Hw. destruct Hrun as (_ & Ht).
  split; [exact Ht|tauto].
Qed.

(** ** The 'ready' handler *)



(** ** Initialisation that succeeds, after a settings change or a deletion *)

Lemma onInitDevice_usable ext s w d :
  settings_usable (Some s) = true ->
  let m := onInitDevice ext (Some s) w in
  outcome m d = Ok tt
  /\ settings (exec m d) = s /\ busy (exec m d) = false
  /\ intervalIdDevicePoll (exec m d) = Some (prop s "pollInterval")
  /\ restartTimers (exec m d) = restartTimers d
  /\ (watchDogCounter (exec m d) = 5 \/ watchDogCounter (exec m d) = 4)
  /\ exists d_init pre,
       busy d_init = false /\ watchDogCounter d_init = 5
       /\ trace m d = pre ++ trace (doPoll ext w (VBool true)) d_init
                          ++ [SetInterval (prop s "pollInterval")].
Proof.
  intros Hu. cbn zeta.
  change (wp (onInitDevice ext (Some s) w) d
            (fun r d' t =>
               r = Ok tt /\ settings d' = s /\ busy d' = false
               /\ intervalIdDevicePoll d' = Some (prop s "pollInterval")
               /\ restartTimers d' = restartTimers d
               /\ (watchDogCounter d' = 5 \/ watchDogCounter d' = 4)
               /\ exists d_init pre,
                    busy d_init = false /\ watchDogCounter d_init = 5
                    /\ t = pre ++ trace (doPoll ext w (VBool true)) d_init
                              ++ [SetInterval (prop s "pollInterval")])).
  cbn in Hu. apply andb_prop in Hu. destruct Hu as (H1 & H2).
  apply negb_true_iff in H1, H2.
  unfold onInitDevice, initFields, startPolling, stopPolling,
    registerListeners.
  wp_run; cbn [app settings set_watchDogCounter set_busy set_vehicle
               set_settings set_allListeners] in *; try congruence.
  all: match goal with H : Some _ = Some _ |- _ => injection H as <- end.
  all: try congruence.
  all: unfold wp at 1.
  all: match goal with
       | |- context [outcome (doPoll ?e ?w0 ?f) ?x] =>
           destruct (doPoll_run e w0 f x) as (Hok & _); rewrite Hok; cbv iota;
           destruct (doPoll_control e w0 f x) as (Hb & Hi & Ht' & Hset & Hwd);
           [cbn; lia|reflexivity|];
           set (d_init := x) in *
       end.
  all: wp_run; cbn [app].
  all: split; [reflexivity|]; split; [exact Hset|]; split; [exact Hb|].
  all: split; [reflexivity|]; split; [exact Ht'|].
  all: split; [cbn; cbn in Hwd; destruct Hwd as [Hwd|Hwd]; rewrite Hwd; auto|].
  all: exists d_init.
  all: match goal with
       | |- exists pre, _ /\ _ /\ ?lhs = _ =>
           let p := heads lhs in exists p
       end.
  all: repeat (split; [reflexivity|]).
  all: reflexivity.
Qed.

Lemma trace_bind_prefix {A B} (m : M A) (k : A -> M B) d x :
  In x (trace m d) -> In x (trace (bind m k) d).
Proof.
  unfold trace, bind. destruct (m d) as [[r d1] t1]. cbn.
  destruct r as [a| |]; auto.
  destruct (k a d1) as [[r2 d2] t2]. cbn. intros H.
  apply in_or_app. left. exact H.
Qed.

Lemma trace_bind_ok {A B} (m : M A) (k : A -> M B) d a x :
  outcome m d = Ok a -> In x (trace (k a) (exec m d)) ->
  In x (trace (bind m k) d).
Proof.
  unfold outcome, exec, trace, bind. destruct (m d) as [[r d1] t1]. cbn.
  intros ->. destruct (k a d1) as [[r2 d2] t2]. cbn. intros H.
  apply in_or_app. right. exact H.
Qed.

Lemma doPoll_logs_in ext w force d :
  0 < watchDogCounter d -> busy d = false ->
  In (ApiLogin (w_login w)) (trace (doPoll ext w force) d).
Proof.
  intros Hwd Hb.
  assert (H : In (ApiLogin (w_login w)) (trace (doPoll_try ext w force) d)).
  { unfold doPoll_try.
    apply (trace_bind_ok this _ d d); [reflexivity|].
    change (exec this d) with d.
    rewrite (proj2 (Z.leb_gt _ _) Hwd), Hb.
    apply (trace_bind_ok (assign (set_busy true)) _ d tt); [reflexivity|].
    apply trace_bind_prefix. unfold login. apply trace_bind_prefix.
    left. reflexivity. }
  destruct (doPoll_run ext w force d) as (_ & Hrun).
  destruct (outcome (doPoll_try ext w force) d); destruct Hrun as (_ & ->);
    try exact H.
  apply in_or_app. left. exact H.
Qed.

(** X26. A change of settings stops the polling and arms a restart after
    one second, and does nothing else; when that timer fires and
    [getSettings] answers usable settings, the device runs on them: they
    are the stored settings, [busy] is clear, the watchdog budget is full
    (or one lower, when the first cycle failed), and the polling interval
    is armed with their [pollInterval]. *)
Theorem settings_change_applies ext s w d :
  restartTimers d = [] -> settings_usable (Some s) = true ->
  let d1 := exec onSettings d in
  let d2 := exec (fireRestart ext (Some s) w) d1 in
  d1 = set_restartTimers [VNum 1000] (set_intervalIdDevicePoll None d)
  /\ trace onSettings d
     = [Log "settings change requested by user"; ClearInterval;
        SetTimeoutInit (VNum 1000)]
  /\ settings d2 = s /\ busy d2 = false
  /\ intervalIdDevicePoll d2 = Some (prop s "pollInterval")
  /\ restartTimers d2 = []
  /\ (watchDogCounter d2 = 5 \/ watchDogCounter d2 = 4).
Proof.
  intros Htim Hu. cbn zeta.
  assert (Hd1 : exec onSettings d
                = set_restartTimers [VNum 1000]
                    (set_intervalIdDevicePoll None d)).
  { unfold onSettings, restartDevice, stopPolling, exec, bind, emit, assign.
    cbn. rewrite Htim. reflexivity. }
  rewrite Hd1. split; [reflexivity|]. split; [reflexivity|].
  set (d1 := set_restartTimers _ _).
  destruct (fireRestart_run ext (Some s) w d1) as (_ & -> & _).
  cbn zeta.
  destruct (onInitDevice_usable ext s w
              (set_restartTimers (tl (restartTimers d1)) d1) Hu)
    as (_ & H1 & H2 & H3 & H4 & H5 & _).
  cbn zeta in *. rewrite H1, H2, H3, H4. repeat split; auto.
Qed.

(** X27. [onDeleted] clears the polling interval and nothing else: a
    restart timer that is pending when the device is deleted stays pending,
    and when it fires and [getSettings] still answers usable settings, the
    deleted device polls the car and arms its polling interval again. *)
Theorem deleted_device_restarts ext s w d :
  restartTimers d <> [] -> settings_usable (Some s) = true ->
  let d1 := exec onDeleted d in
  let d2 := exec (fireRestart ext (Some s) w) d1 in
  d1 = set_intervalIdDevicePoll None d
  /\ trace onDeleted d = [ClearInterval; Log "Car deleted as device"]
  /\ restartTimers d1 = restartTimers d
  /\ intervalIdDevicePoll d2 = Some (prop s "pollInterval")
  /\ In (ApiLogin (w_login w)) (trace (fireRestart ext (Some s) w) d1).
Proof.
  intros Htim Hu. cbn zeta.
  assert (Hd1 : exec onDeleted d = set_intervalIdDevicePoll None d)
    by reflexivity.
  rewrite Hd1. split; [reflexivity|]. split; [reflexivity|].
  split; [reflexivity|].
  set (d1 := set_intervalIdDevicePoll None d).
  destruct (fireRestart_run ext (Some s) w d1) as (_ & -> & ->).
  cbn zeta.
  destruct (onInitDevice_usable ext s w
              (set_restartTimers (tl (restartTimers d1)) d1) Hu)
    as (_ & _ & _ & H3 & _ & _ & d_init & pre & Hb & Hwd & Ht).
  cbn zeta in *. split; [exact H3|].
  rewrite Ht. apply in_or_app. right. apply in_or_app. left.
  apply doPoll_logs_in; [lia|exact Hb].
Qed.

(** * The snapshot, the decision, the publication and the restart *)

(** ** The stored snapshot *)

(** A cycle that makes no call that wakes the car stores the cached status
    when its [try] block runs to its end, and leaves the stored status as
    it was when the block returns early or throws. *)
Lemma cached_cycle_status ext w force d :
  let t := trace (doPoll ext w force) d in
  let d' := exec (doPoll ext w force) d in
  not_live t ->
  match outcome (doPoll_try ext w force) d with
  | Ok _ =>
      w_status_cached w = Some (lastStatus d')
      /\ In (ApiStatus false (Some (lastStatus d'))) t
  | _ => lastStatus d' = lastStatus d
  end.
Proof.
  cbn zeta. intros Hlive.
  destruct (doPoll_run ext w force d) as (_ & Hrun).
  destruct (doPoll_try_guards ext w force d)
    as [(_ & Hr & Hd & Ht)|[(_ & _ & Hr & Hd & Ht)|(Hwd & Hb & Hm)]].
  - rewrite Hr in *. destruct Hrun as (-> & _). rewrite Hd. reflexivity.
  - rewrite Hr in *. destruct Hrun as (-> & _). rewrite Hd. reflexivity.
  - destruct Hm as (Hnr & _ & _ & _ & Hcases).
    assert (Hsub : forall e, In e (trace (doPoll_try ext w force) d) ->
                             is_live_fetch e = false).
    { intros e Hin. apply (not_live_In _ _ Hlive).
      destruct (outcome (doPoll_try ext w force) d);
        destruct Hrun as (_ & ->); [assumption| |assumption].
      apply in_or_app. left. assumption. }
    destruct Hcases as [((e & He) & Hn & Hst & _)|[HA|
      [(pre & He & Hn & Ht & _)|
      [(pre & s & He & Hn & Ht & _)|
       [(pre & s & l & He & Hn & Ht & _)|HE]]]]].
    + rewrite He in *. destruct Hrun as (-> & _). exact Hst.
    + destruct HA as (He & _ & _ & _ & _ & _ & _ & st & Hc & Hin & Hst & _).
      rewrite He in *. destruct Hrun as (-> & ->).
      rewrite Hst. split; assumption.
    + exfalso. specialize (Hsub (ApiStatus true None)).
      rewrite Ht in Hsub. discriminate Hsub.
      apply in_or_app. right. left. reflexivity.
    + exfalso. specialize (Hsub (ApiLocation None)).
      rewrite Ht in Hsub. discriminate Hsub.
      apply in_or_app. right. right. left. reflexivity.
    + exfalso. specialize (Hsub (ApiOdometer None)).
      rewrite Ht in Hsub. discriminate Hsub.
      apply in_or_app. right. right. right. left. reflexivity.
    + exfalso.
      destruct HE as (pre & s & l & o & post & _ & _ & Ht & _).
      specialize (Hsub (ApiStatus true (Some s))).
      rewrite Ht in Hsub. discriminate Hsub.
      apply in_or_app. right. left. reflexivity.
Qed.

(** C2, as amended. Each stored field is assigned right after its own
    fetch.  A cycle in which the full status, the location and the odometer
    all answer stores all three answers.  When the full status answers and
    the location is rejected, the new status is stored next to the previous
    location and odometer; when only the odometer is rejected, the new
    status and location are stored next to the previous odometer; when the
    full status is rejected, nothing changes.  A cycle that makes no call
    that wakes the car leaves the location and the odometer as they were;
    it stores the cached status the server answered when its [try] block
    runs to its end, and leaves the stored status as it was when that
    block returns early or throws. *)
Theorem snapshot_assignments ext w force d :
  let t := trace (doPoll ext w force) d in
  let d' := exec (doPoll ext w force) d in
  (forall s l o,
     In (ApiStatus true (Some s)) t -> In (ApiLocation (Some l)) t ->
     In (ApiOdometer (Some o)) t ->
     lastStatus d' = s /\ lastLocation d' = l /\ lastOdometer d' = o)
  /\ (forall s,
        In (ApiStatus true (Some s)) t -> In (ApiLocation None) t ->
        lastStatus d' = s /\ lastLocation d' = lastLocation d
        /\ lastOdometer d' = lastOdometer d)
  /\ (forall s l,
        In (ApiStatus true (Some s)) t -> In (ApiLocation (Some l)) t ->
        In (ApiOdometer None) t ->
        lastStatus d' = s /\ lastLocation d' = l
        /\ lastOdometer d' = lastOdometer d)
  /\ (In (ApiStatus true None) t ->
      lastStatus d' = lastStatus d /\ lastLocation d' = lastLocation d
      /\ lastOdometer d' = lastOdometer d)
  /\ (not_live t ->
      lastLocation d' = lastLocation d /\ lastOdometer d' = lastOdometer d
      /\ match outcome (doPoll_try ext w force) d with
         | Ok _ =>
             w_status_cached w = Some (lastStatus d')
             /\ In (ApiStatus false (Some (lastStatus d'))) t
         | _ => lastStatus d' = lastStatus d
         end).
Proof.
  cbn zeta.
  destruct (snapshot_by_fetch ext w force d) as (H1 & H2 & H3 & H4 & H5).
  split; [exact H1|]. split; [exact H2|]. split; [exact H3|].
  split; [exact H4|].
  intros Hlive. destruct (H5 Hlive) as (Hl & Ho & _).
  split; [exact Hl|]. split; [exact Ho|].
  exact (cached_cycle_status ext w force d Hlive).
Qed.

Lemma snapshot_shaped_fields d :
  snapshot_shaped d = true <->
  snapshot_value (lastStatus d) = true
  /\ snapshot_value (lastLocation d) = true
  /\ snapshot_value (lastOdometer d) = true.
Proof. unfold snapshot_shaped. rewrite !andb_true_iff. tauto. Qed.

Lemma answers_objects_fields w :
  answers_objects w = true ->
  (forall s, w_status_cached w = Some s -> snapshot_value s = true)
  /\ (forall s, w_status_live w = Some s -> snapshot_value s = true)
  /\ (forall l, w_location w = Some l -> snapshot_value l = true)
  /\ (forall o, w_odometer w = Some o -> snapshot_value o = true).
Proof.
  unfold answers_objects. rewrite !andb_true_iff.
  intros (((H1 & H2) & H3) & H4).
  repeat split; intros x Hx; rewrite Hx in *; assumption.
Qed.

(** On an object or an absent value, falsy means absent. *)
Lemma snapshot_value_falsy v :
  snapshot_value v = true -> negb (truthy v) = nullish v.
Proof. destruct v; cbn; congruence. Qed.

(** A cycle stores nothing but what it was answered. *)
Lemma doPoll_shaped ext w force d :
  answers_objects w = true -> snapshot_shaped d = true ->
  snapshot_shaped (exec (doPoll ext w force) d) = true.
Proof.
  intros Hw Hd. apply answers_objects_fields in Hw as (Hc & Hl & Hloc & Hodo).
  apply snapshot_shaped_fields in Hd as (Hs0 & Hl0 & Ho0).
  apply snapshot_shaped_fields.
  destruct (doPoll_run ext w force d) as (_ & Hrun).
  pose proof (doPoll_try_spec ext w force d) as H. unfold wp in H.
  assert (Hgoal : snapshot_value (lastStatus (exec (doPoll_try ext w force) d))
                  = true
                  /\ snapshot_value
                       (lastLocation (exec (doPoll_try ext w force) d)) = true
                  /\ snapshot_value
                       (lastOdometer (exec (doPoll_try ext w force) d)) = true).
  { destruct H as [(_ & _ & -> & _)|[(_ & _ & _ & -> & _)|
      (_ & _ & d1 & pre & Hd1 & _ & H)]]; [cbn; auto..|].
    apply logged_in_fields in Hd1.
    destruct Hd1 as (_ & _ & _ & _ & _ & Hst1 & Hl1 & Ho1 & _).
    destruct H as [(e & _ & -> & _)|H]; [rewrite Hst1, Hl1, Ho1; auto|].
    pose proof (decide_spec ext w force d1) as (_ & Hd2 & _ & _ & Hdc).
    unfold wp in Hd2, Hdc.
    apply decided_fields in Hd2.
    destruct Hd2 as (_ & _ & _ & _ & _ & Hst2 & Hl2 & Ho2 & _).
    destruct (outcome (decide ext w force) d1) as [dc|e|];
      [cbn zeta in H| |contradiction].
    2: { destruct H as (_ & -> & _). rewrite Hst2, Hl2, Ho2, Hst1, Hl1, Ho1.
         auto. }
    destruct H as (_ & -> & _).
    specialize (Hdc dc eq_refl) as (_ & _ & Hfr & _).
    assert (Hdcs : snapshot_value (dc_status dc) = true).
    { destruct (truthy (dc_forceRefresh dc)).
      - destruct Hfr as (-> & _). rewrite Hst1. exact Hs0.
      - destruct Hfr as (Hfr & _). exact (Hc _ Hfr). }
    pose proof (refresh_spec ext w dc (lastLocation d1) (lastOdometer d1)
                  (exec (decide ext w force) d1))
      as (_ & _ & _ & _ & _ & Hcases).
    unfold wp in Hcases.
    destruct Hcases as [(_ & _ & _ & -> & -> & -> & _)|[(_ & _ & _ & _ & ->)|
      [(s & _ & Hs & _ & _ & _ & ->)|
      [(s & l & _ & Hs & Hlo & _ & _ & _ & ->)|
       (s & l & o & post & _ & Hs & Hlo & Hod & _ & _ & -> & -> & -> & _)]]]];
      cbn; rewrite ?Hst2, ?Hl2, ?Ho2, ?Hst1, ?Hl1, ?Ho1; eauto 7. }
  destruct (outcome (doPoll_try ext w force) d);
    destruct Hrun as (-> & _); cbn; exact Hgoal.
Qed.

Lemma onInitDevice_shaped ext ns w d :
  answers_objects w = true -> snapshot_shaped d = true ->
  snapshot_shaped (exec (onInitDevice ext ns w) d) = true.
Proof.
  intros Hw Hd.
  change (wp (onInitDevice ext ns w) d
             (fun _ d' _ => snapshot_shaped d' = true)).
  unfold onInitDevice, initFields, startPolling, stopPolling, registerListeners.
  wp_run; cbn; try exact Hd.
  all: unfold wp at 1.
  all: match goal with
       | |- context [outcome (doPoll ?e ?w0 ?f) ?x] =>
           destruct (doPoll_run e w0 f x) as (Hok & _); rewrite Hok; cbv iota
       end.
  all: wp_run; cbn.
  all: match goal with
       | |- context [exec (doPoll ?e ?w0 ?f) ?x] =>
           exact (doPoll_shaped e w0 f x Hw Hd)
       end.
Qed.

Lemma run_shaped ext steps d :
  forallb step_answers_objects steps = true -> snapshot_shaped d = true ->
  snapshot_shaped (run ext steps d) = true.
Proof.
  revert d. induction steps as [|st steps IH]; intros d Hall Hd; [exact Hd|].
  cbn [forallb] in Hall. apply andb_prop in Hall as (Hst & Hall).
  cbn [run]. apply IH; [exact Hall|].
  destruct st as [w force|ns w|]; cbn [run_step step_answers_objects] in *.
  - exact (doPoll_shaped ext w force d Hst Hd).
  - destruct (fireRestart_run ext ns w d) as (_ & -> & _).
    apply onInitDevice_shaped; [exact Hst|exact Hd].
  - exact Hd.
Qed.

(** C5. The three stored fields hold nothing but what the car answered, so
    on a device that started with no snapshot, after any sequence of
    cycles, restarts and settings changes in which the car answers objects
    (or nothing), a stored field is falsy only when it is absent.  In the
    next cycle [forceRefresh] is then truthy exactly when the caller forces
    the poll, or a forced-poll interval is configured and has elapsed since
    the last refresh, or one of the stored status, location and odometer is
    absent; and a cycle with a truthy [forceRefresh] makes no cached status
    call. *)
Theorem forceRefresh_condition ext steps d0 w force fr :
  snapshot_shaped d0 = true ->
  forallb step_answers_objects steps = true ->
  let d := run ext steps d0 in
  let pollIntervalForced := prop (settings d) "pollIntervalForced" in
  outcome (forceRefresh_of ext w force (lastStatus d) (lastLocation d)
                           (lastOdometer d)) d = Ok fr ->
  truthy fr
  = truthy force
    || truthy (interval_elapsed ext w d pollIntervalForced)
    || nullish (lastStatus d) || nullish (lastLocation d)
    || nullish (lastOdometer d)
  /\ truthy fr = spec_forceRefresh ext w force d
  /\ truthy (interval_elapsed ext w d pollIntervalForced)
     = truthy pollIntervalForced
       && js_lt (StringToNumber ext)
            (js_mul (StringToNumber ext)
               (js_mul (StringToNumber ext) pollIntervalForced (VNum 60))
               (VNum 1000))
            (js_sub (StringToNumber ext) (VNum (w_now_interval w))
                    (lastRefresh d))
  /\ (truthy fr = true ->
      forall a, ~ In (ApiStatus false a) (trace (doPoll ext w force) d))
  /\ snapshot_shaped d = true.
Proof.
  intros Hd0 Hsteps. cbn zeta. intros Hfr.
  pose proof (run_shaped ext steps d0 Hsteps Hd0) as Hd.
  destruct (forceRefresh_truthiness ext w force (run ext steps d0) fr Hfr)
    as (Hval & Hint & Hskip).
  apply snapshot_shaped_fields in Hd as Hf. destruct Hf as (Hs & Hl & Ho).
  rewrite (snapshot_value_falsy _ Hs), (snapshot_value_falsy _ Hl),
    (snapshot_value_falsy _ Ho) in Hval.
  split; [exact Hval|]. split; [exact Hval|].
  split; [exact Hint|]. split; [exact Hskip|exact Hd].
Qed.

(** ** The decision of a cycle *)















(** ** The publication *)

(** C6, as amended. The view a publication compares against is the four
    stored capability values, read before the first write.  With boolean
    values on both sides, a publication that runs to its end fires exactly
    the directional trigger of the one monitored property that differs, the
    [_true] card when the new value is true and the [_false] card when it
    is false, and none when all four are equal.  A publication that does
    not run to its end fires no trigger at all, whatever changed and
    whatever it had written before it failed; it logs the error. *)
Theorem directional_triggers ext w status location odometer d
    (engine charging climate defrost : bool)
    (engine0 charging0 climate0 defrost0 : bool) :
  map snd (monitored status)
  = [VBool engine; VBool charging; VBool climate; VBool defrost] ->
  map (fun p => getCapabilityValue d (fst p)) (monitored status)
  = [VBool engine0; VBool charging0; VBool climate0; VBool defrost0] ->
  let body := handleInfo_try ext w status location odometer in
  let t := trace (handleInfo ext w status location odometer) d in
  let triggers := List.filter is_trigger t in
  (outcome body d = Ok tt ->
   (engine <> engine0 -> charging = charging0 -> climate = climate0 ->
    defrost = defrost0 ->
    triggers = [Trigger (if engine then "engine_true" else "engine_false")])
   /\ (engine = engine0 -> charging <> charging0 -> climate = climate0 ->
       defrost = defrost0 ->
       triggers
       = [Trigger (if charging then "charging_true" else "charging_false")])
   /\ (engine = engine0 -> charging = charging0 -> climate <> climate0 ->
       defrost = defrost0 ->
       triggers
       = [Trigger (if climate then "climate_control_true"
                   else "climate_control_false")])
   /\ (engine = engine0 -> charging = charging0 -> climate = climate0 ->
       defrost <> defrost0 ->
       triggers
       = [Trigger (if defrost then "defrost_true" else "defrost_false")])
   /\ (engine = engine0 -> charging = charging0 -> climate = climate0 ->
       defrost = defrost0 -> triggers = []))
  /\ (outcome body d <> Ok tt ->
      triggers = []
      /\ exists e, outcome body d = Throw e
                   /\ t = trace body d ++ [ErrorLog EmptyString e]).
Proof.
  intros Hnew Hold. cbn zeta. split.
  - intros Hok.
    exact (triggers_of_completed ext w status location odometer d
             engine charging climate defrost
             engine0 charging0 climate0 defrost0 Hok Hnew Hold).
  - intros Hno.
    destruct (handleInfo_run ext w status location odometer d)
      as (_ & _ & Ht).
    pose proof (handleInfo_try_events ext w status location odometer d)
      as (_ & _ & Hquiet & _).
    pose proof (handleInfo_try_spec ext w status location odometer d)
      as (Hret & _).
    unfold wp in *. specialize (Hquiet Hno). rewrite Ht.
    destruct (outcome (handleInfo_try ext w status location odometer) d)
      as [[]|e|]; [congruence| |congruence].
    split; [|exists e; split; reflexivity].
    rewrite filter_app, (filter_none _ _ Hquiet). reflexivity.
Qed.

(** C7, as amended. A publication that runs to its end calls
    [setCapability] for the eighteen derived properties, in the order of
    the source, and [setCapabilityValue] reaches the platform exactly for
    those the device has and whose derived value is not [===] the stored
    one, in that order and with the derived value.  A derived [NaN] for a
    capability the device has is therefore written every time; and when
    every derived value [===] the stored one, nothing is written. *)
Theorem capability_writes ext w status location odometer d :
  outcome (handleInfo_try ext w status location odometer) d = Ok tt ->
  let t := trace (handleInfo ext w status location odometer) d in
  let derived := derived_properties ext w d status location odometer in
  List.filter is_write t
  = map (fun p => SetCapabilityValue (fst p) (snd p))
        (List.filter (changed d) derived)
  /\ map fst derived
     = ["measure_battery.EV"; "measure_battery.12V"; "alarm_battery";
        "alarm_tire_pressure"; "locked"; "closed_locked";
        "target_temperature"; "defrost"; "climate_control"; "engine";
        "charging"; "charger"; "odometer"; "range"; "speed"; "location";
        "distance"; "live_data"]
  /\ (forall p, changed d p = true <->
                hasCapability d (fst p) = true
                /\ strict_eq (snd p) (getCapabilityValue d (fst p)) = false)
  /\ (forall c, In (c, VNaN) derived -> hasCapability d c = true ->
                In (SetCapabilityValue c VNaN) t)
  /\ (Forall (fun p => strict_eq (snd p) (getCapabilityValue d (fst p)) = true)
             derived ->
      List.filter is_write t = []).
Proof.
  intros Hok. cbn zeta.
  destruct (writes_of_completed ext w status location odometer d Hok)
    as (Hw & Hn & Hc & Hall).
  split; [exact Hw|]. split; [exact Hn|]. split; [exact Hc|].
  split; [|exact Hall].
  intros c Hin Hhas.
  assert (Hf : In (SetCapabilityValue c VNaN)
                  (List.filter is_write
                     (trace (handleInfo ext w status location odometer) d))).
  { rewrite Hw.
    apply (in_map (fun p => SetCapabilityValue (fst p) (snd p)) _ (c, VNaN)).
    apply filter_In. split; [exact Hin|].
    apply Hc. split; [exact Hhas|reflexivity]. }
  apply filter_In in Hf. exact (proj1 Hf).
Qed.

(** ** The watchdog restart *)

(** C8, as amended. A cycle entered with [watchDogCounter <= 0] calls
    nothing on the car: it logs, clears the polling interval and arms one
    restart timer of five minutes, and leaves everything else, [busy] and
    the counter included, as it was.  When that timer fires with settings
    that can be used, [onInitDevice] stores them, clears [busy], sets the
    counter to 5, drops the vehicle, creates a new client from the four
    credentials of the settings, runs a forced cycle from that state and
    arms the polling interval of the settings.  When the settings cannot be
    used, no interval is armed and no call is made to the car; and when
    [getSettings] is rejected, [busy] and the counter stay as the cycle
    found them. *)
Theorem watchdog_exhausted_restarts ext w force d :
  watchDogCounter d <= 0 ->
  let d' := exec (doPoll ext w force) d in
  trace (doPoll ext w force) d
  = [Log "watchdog triggered, restarting app now"; ClearInterval;
     SetTimeoutInit (VNum 300000)]
  /\ Forall (fun e => is_api e = false) (trace (doPoll ext w force) d)
  /\ d' = set_restartTimers (restartTimers d ++ [VNum 300000])
                            (set_intervalIdDevicePoll None d)
  /\ busy d' = busy d /\ watchDogCounter d' = watchDogCounter d
  /\ intervalIdDevicePoll d' = None
  /\ forall ns w',
       let restart := fireRestart ext ns w' in
       if settings_usable ns then
         exists s d_init pre,
           ns = Some s
           /\ busy (exec restart d') = false
           /\ intervalIdDevicePoll (exec restart d')
              = Some (prop s "pollInterval")
           /\ settings (exec restart d') = s
           /\ settings d_init = s /\ busy d_init = false
           /\ watchDogCounter d_init = 5 /\ vehicle d_init = VNull
           /\ intervalIdDevicePoll d_init = None
           /\ In (NewClient
                    (VObj 1 [("username", prop s "username");
                             ("password", prop s "password");
                             ("region", prop s "region");
                             ("pin", prop s "pin")])) pre
           /\ Forall (fun e => is_api e = false) pre
           /\ trace restart d'
              = pre ++ trace (doPoll ext w' (VBool true)) d_init
                    ++ [SetInterval (prop s "pollInterval")]
       else
         intervalIdDevicePoll (exec restart d') = None
         /\ Forall (fun e => is_api e = false) (trace restart d')
         /\ Forall (fun e => is_set_interval e = false) (trace restart d')
         /\ (ns = None ->
             busy (exec restart d') = busy d
             /\ watchDogCounter (exec restart d') = watchDogCounter d).
Proof.
  intros Hwd. cbn zeta.
  destruct (doPoll_run ext w force d) as (_ & Hrun).
  destruct (doPoll_try_guards ext w force d)
    as [(_ & Hr & Hd & Ht)|[(Hlt & _)|(Hlt & _)]]; [|lia..].
  rewrite Hr in Hrun. destruct Hrun as (-> & ->). rewrite Hd, Ht.
  split; [reflexivity|]. split; [repeat constructor|]. split; [reflexivity|].
  split; [reflexivity|]. split; [reflexivity|]. split; [reflexivity|].
  intros ns w'.
  set (d' := set_restartTimers _ _).
  destruct (settings_usable ns) eqn:Hu.
  - destruct ns as [s|]; [|discriminate Hu]. exists s.
    cbn in Hu. apply andb_prop in Hu. destruct Hu as (Hs & Htok).
    apply negb_true_iff in Hs, Htok.
    change (wp (fireRestart ext (Some s) w') d'
              (fun _ dr t =>
                 exists d_init pre,
                   Some s = Some s
                   /\ busy dr = false
                   /\ intervalIdDevicePoll dr = Some (prop s "pollInterval")
                   /\ settings dr = s
                   /\ settings d_init = s /\ busy d_init = false
                   /\ watchDogCounter d_init = 5 /\ vehicle d_init = VNull
                   /\ intervalIdDevicePoll d_init = None
                   /\ In (NewClient
                            (VObj 1 [("username", prop s "username");
                                     ("password", prop s "password");
                                     ("region", prop s "region");
                                     ("pin", prop s "pin")])) pre
                   /\ Forall (fun e => is_api e = false) pre
                   /\ t = pre ++ trace (doPoll ext w' (VBool true)) d_init
                             ++ [SetInterval (prop s "pollInterval")])).
    unfold fireRestart, onInitDevice, initFields, startPolling, stopPolling,
      registerListeners.
    wp_run; cbn [app settings set_watchDogCounter set_busy set_vehicle
                 set_settings set_allListeners] in *; try congruence.
    all: match goal with H : Some _ = Some _ |- _ => injection H as <- end.
    all: unfold wp at 1.
    all: match goal with
         | |- context [outcome (doPoll ?e ?w0 ?f) ?x] =>
             destruct (doPoll_run e w0 f x) as (Hok & _); rewrite Hok; cbv iota;
             destruct (doPoll_control e w0 f x) as (Hb & Hi & Ht' & Hset & _);
             [cbn; lia|reflexivity|];
             set (d_init := x) in *
         end.
    all: wp_run; cbn [app].
    all: exists d_init.
    all: match goal with
         | |- exists pre, _ /\ _ /\ _ /\ _ /\ _ /\ _ /\ _ /\ _ /\ _ /\ _ /\ _
                          /\ ?lhs = _ =>
             let p := heads lhs in exists p
         end.
    all: split; [reflexivity|]; split; [exact Hb|]; split; [reflexivity|];
         split; [exact Hset|].
    all: repeat (split; [reflexivity|]).
    all: split; [cbn; tauto|]; split; [repeat constructor|reflexivity].
  - destruct (fireRestart_run ext ns w' d') as (_ & -> & ->).
    destruct (onInitDevice_unusable ext ns w'
                (set_restartTimers (tl (restartTimers d')) d') Hu)
      as (_ & Hi & _ & Ha & Hs & _ & Hnone).
    cbn zeta in *. rewrite Hi.
    split; [reflexivity|]. split; [assumption|]. split; [assumption|].
    intros Hn. rewrite (Hnone Hn). split; reflexivity.
Qed.

(** * The further properties at concrete inputs *)

(** X2 on the engine capability of [settled_device]. *)
Lemma setCapability_twice_witness :
  let d1 := exec (setCapability "engine" (VBool true)) settled_device in
  hasCapability settled_device "engine" = true
  /\ exec (setCapability "engine" (VBool true)) d1 = d1
  /\ trace (setCapability "engine" (VBool true)) d1 = [].
Proof.
  cbn zeta.
  assert (H : hasCapability settled_device "engine" = true)
    by (vm_compute; reflexivity).
  split; [exact H|].
  destruct (setCapability_twice "engine" (VBool true) settled_device H)
    as (He & Ht & _).
  split; [exact He|exact Ht].
Defined.

(** X4 with the reverse geocoder down. *)
Lemma handleInfo_blocked_witness :
  unpublishable sample_ext geocoder_down driving (location_of 60 53 6 0)
  /\ exec (handleInfo sample_ext geocoder_down driving (location_of 60 53 6 0)
             (odometer_of 61 12345)) settled_device
     = settled_device.
Proof.
  assert (H : unpublishable sample_ext geocoder_down driving
                            (location_of 60 53 6 0))
    by (right; right; right; right; reflexivity).
  split; [exact H|].
  exact (proj1 (handleInfo_blocked sample_ext geocoder_down driving
                  (location_of 60 53 6 0) (odometer_of 61 12345)
                  settled_device H)).
Defined.

(** X5 on a snapshot without odometer: the capabilities in front of the
    odometer are written, then the error is logged, and no trigger fires
    although the engine went from off to on. *)
Lemma handleInfo_error_fires_nothing_witness :
  let d1 := exec (doPoll sample_ext (calm_world parked parked) (VBool true))
                 fresh_device in
  let t := trace (handleInfo sample_ext (calm_world parked driving) driving
                    (location_of 60 53 6 0) VUndef) d1 in
  In (ErrorLog EmptyString (TypeError "value")) t
  /\ In (SetCapabilityValue "engine" (VBool true)) t
  /\ Forall (fun e => is_trigger e = false) t.
Proof.
  cbn zeta.
  set (d1 := exec (doPoll sample_ext (calm_world parked parked) (VBool true))
                  fresh_device).
  assert (H : In (ErrorLog EmptyString (TypeError "value"))
                 (trace (handleInfo sample_ext (calm_world parked driving)
                           driving (location_of 60 53 6 0) VUndef) d1))
    by found.
  split; [exact H|]. split; [found|].
  exact (proj2 (handleInfo_error_fires_nothing sample_ext
                  (calm_world parked driving) driving (location_of 60 53 6 0)
                  VUndef d1 (TypeError "value") H)).
Defined.

(** X9 at a forced cycle of a device with a user token. *)
Lemma telemetry_from_fresh_data_witness :
  let w := calm_world parked driving in
  let t := trace (doPoll sample_ext w (VBool true)) telemetry_device in
  let d' := exec (doPoll sample_ext w (VBool true)) telemetry_device in
  In (sent_from driving (location_of 60 53 6 0)) t
  /\ w_status_live w = Some (lastStatus d')
  /\ lastRefresh d' = VNum 2000000
  /\ telemetry_enabled sample_ext d' = true.
Proof.
  cbn zeta.
  assert (H : In (sent_from driving (location_of 60 53 6 0))
                 (trace (doPoll sample_ext (calm_world parked driving)
                           (VBool true)) telemetry_device)) by found.
  split; [exact H|].
  destruct (telemetry_from_fresh_data sample_ext (calm_world parked driving)
              (VBool true) telemetry_device _ H eq_refl)
    as (_ & Hs & _ & _ & Hr & Hen).
  split; [exact Hs|split; [exact Hr|exact Hen]].
Defined.

(** X10 over seven cycles on a device with a cycle in flight. *)
Lemma stuck_busy_exhausts_witness :
  let cycles := repeat (calm_world parked driving, VUndef) 7 in
  let d' := run sample_ext (polls cycles) busy_device in
  busy busy_device = true /\ 0 <= watchDogCounter busy_device
  /\ watchDogCounter d' = 0
  /\ restartTimers d' = [VNum 300000; VNum 300000]
  /\ intervalIdDevicePoll d' = None
  /\ lastStatus d' = parked.
Proof.
  cbn zeta.
  assert (H1 : busy busy_device = true) by reflexivity.
  assert (H2 : 0 <= watchDogCounter busy_device) by (cbn; lia).
  split; [exact H1|]. split; [exact H2|].
  destruct (stuck_busy_exhausts sample_ext
              (repeat (calm_world parked driving, VUndef) 7) busy_device H1 H2)
    as (_ & Hw & _ & Hs & _ & _ & _ & Ht & Hi & _).
  split; [exact Hw|]. split; [exact Ht|].
  split; [apply Hi; cbn; lia|exact Hs].
Defined.

(** X11 over a failing cycle, a settings change, a restart and a cycle. *)
Lemma busy_cleared_witness :
  busy settled_device = false
  /\ busy (run sample_ext
             [Poll location_down VUndef; SettingsChanged;
              TimerFired (Some sample_settings) geocoder_down;
              Poll (calm_world parked driving) (VBool true)]
             settled_device) = false.
Proof.
  split; [reflexivity|].
  apply (busy_cleared sample_ext
           [Poll location_down VUndef; SettingsChanged;
            TimerFired (Some sample_settings) geocoder_down;
            Poll (calm_world parked driving) (VBool true)]
           settled_device).
  reflexivity.
Defined.

(** X12 at a cycle whose login is rejected. *)
Lemma cycle_without_login_witness :
  0 < watchDogCounter settled_device /\ busy settled_device = false
  /\ w_login login_down = false
  /\ exec (doPoll sample_ext login_down VUndef) settled_device
     = set_watchDogCounter 4 settled_device
  /\ trace (doPoll sample_ext login_down VUndef) settled_device
     = [ApiLogin false; ErrorLog "Poll error" (Rejected "login")].
Proof.
  assert (H1 : 0 < watchDogCounter settled_device) by (cbn; lia).
  assert (H2 : busy settled_device = false) by reflexivity.
  split; [exact H1|]. split; [exact H2|]. split; [reflexivity|].
  destruct (cycle_without_login sample_ext login_down VUndef settled_device
              H1 H2 (or_introl eq_refl)) as (He & Ht & _).
  split; [rewrite He; vm_compute; reflexivity
         |rewrite Ht; vm_compute; reflexivity].
Defined.

(** X14 when [getSettings] is rejected. *)
Lemma onInitDevice_unusable_settings_witness :
  settings_usable None = false
  /\ exec (onInitDevice sample_ext None (calm_world parked driving))
          settled_device
     = settled_device
  /\ Forall (fun e => is_api e = false)
            (trace (onInitDevice sample_ext None (calm_world parked driving))
                   settled_device).
Proof.
  split; [reflexivity|].
  destruct (onInitDevice_unusable_settings sample_ext None
              (calm_world parked driving) settled_device eq_refl)
    as (_ & _ & _ & Ha & _ & _ & Hd).
  split; [exact (Hd eq_refl)|exact Ha].
Defined.

(** X15 at a device whose budget is used up. *)
Lemma failed_restart_stops_device_witness :
  let w := calm_world parked driving in
  let d1 := exec (doPoll sample_ext w VUndef) exhausted_device in
  let d2 := exec (fireRestart sample_ext None w) d1 in
  watchDogCounter exhausted_device <= 0 /\ restartTimers exhausted_device = []
  /\ settings_usable None = false
  /\ intervalIdDevicePoll d2 = None /\ restartTimers d2 = [].
Proof.
  cbn zeta.
  assert (H1 : watchDogCounter exhausted_device <= 0) by (cbn; lia).
  split; [exact H1|]. split; [reflexivity|]. split; [reflexivity|].
  destruct (failed_restart_stops_device sample_ext (calm_world parked driving)
              VUndef None (calm_world parked driving) exhausted_device
              H1 eq_refl eq_refl) as (_ & _ & Hi & Ht & _).
  split; [exact Hi|exact Ht].
Defined.

(** X20 when 'ready' delivers a vehicle and the timer fires twice. *)
Lemma timeout_cancelled_by_client_witness :
  is_client_signal (ClientReady (Some [niro])) = true
  /\ p_promise unpaired <> Failed LoginTimeout
  /\ p_promise (on_client_events
                  [ClientReady (Some [niro]); TimerElapsed; TimerElapsed]
                  unpaired)
     = Pending.
Proof.
  assert (H : p_promise unpaired <> Failed LoginTimeout) by discriminate.
  split; [reflexivity|]. split; [exact H|].
  refine (proj2 (timeout_cancelled_by_client (ClientReady (Some [niro])) []
                   unpaired 2 [niro] eq_refl H) eq_refl _ eq_refl).
  discriminate.
Defined.

(** X21 when 'ready' delivers a vehicle and its odometer call answers. *)
Lemma validate_success_witness :
  let events := [ClientReady (Some [niro]); OdometerSettled 0 true] in
  fst (validate uvo_driver (credentials "1234") events unpaired)
  = Some (inr (VBool true))
  /\ p_vehicles (snd (validate uvo_driver (credentials "1234") events unpaired))
     <> [].
Proof.
  cbn zeta.
  assert (H : fst (validate uvo_driver (credentials "1234")
                     [ClientReady (Some [niro]); OdometerSettled 0 true]
                     unpaired)
              = Some (inr (VBool true))) by reflexivity.
  split; [exact H|].
  destruct (validate_success uvo_driver (credentials "1234")
              [ClientReady (Some [niro]); OdometerSettled 0 true] unpaired
              (VBool true) H) as (_ & _ & _ & Hv & _).
  exact Hv.
Defined.

(** X22 for the one vehicle of a validated account. *)
Lemma list_devices_entries_witness :
  let p := snd (validate uvo_driver (credentials "1234")
                  [ClientReady (Some [niro]); OdometerSettled 0 true]
                  unpaired) in
  exists devices,
    list_devices home p = inr devices
    /\ length devices = 1%nat
    /\ Forall2 (entry_of home (credentials "1234")) [niro] devices.
Proof.
  cbn zeta.
  destruct (list_devices home
              (snd (validate uvo_driver (credentials "1234")
                      [ClientReady (Some [niro]); OdometerSettled 0 true]
                      unpaired))) as [e|devices] eqn:H;
    [vm_compute in H; discriminate H|].
  exists devices. split; [reflexivity|].
  destruct (list_devices_entries home _ devices H) as (H2 & H1).
  split; [exact H1|exact H2].
Defined.

(** X24 at the cycle of [location_down]. *)
Lemma poll_error_cause_witness :
  outcome (doPoll_try sample_ext location_down (VBool true)) settled_device
  = Throw (Rejected "location")
  /\ In (Rejected "location") poll_error_causes
  /\ watchDogCounter
       (exec (doPoll sample_ext location_down (VBool true)) settled_device)
     = watchDogCounter settled_device - 1.
Proof.
  assert (H : outcome (doPoll_try sample_ext location_down (VBool true))
                      settled_device
              = Throw (Rejected "location")) by (vm_compute; reflexivity).
  split; [exact H|].
  destruct (poll_error_cause sample_ext location_down (VBool true)
              settled_device (Rejected "location") H) as (Hin & _ & Hw).
  split; [exact Hin|exact Hw].
Defined.

(** X26 on [settled_device] and its own settings. *)
Lemma settings_change_applies_witness :
  let w := calm_world parked driving in
  let d1 := exec onSettings settled_device in
  let d2 := exec (fireRestart sample_ext (Some sample_settings) w) d1 in
  restartTimers settled_device = []
  /\ settings_usable (Some sample_settings) = true
  /\ intervalIdDevicePoll d1 = None
  /\ intervalIdDevicePoll d2 = Some (VNum 5) /\ busy d2 = false.
Proof.
  cbn zeta. split; [reflexivity|]. split; [reflexivity|].
  destruct (settings_change_applies sample_ext sample_settings
              (calm_world parked driving) settled_device eq_refl eq_refl)
    as (Hd1 & _ & _ & Hb & Hi & _).
  split; [rewrite Hd1; reflexivity|]. split; [exact Hi|exact Hb].
Defined.

(** X27 on a device deleted while a restart is pending. *)
Lemma deleted_device_restarts_witness :
  let w := calm_world parked driving in
  let d := exec (doPoll sample_ext w VUndef) exhausted_device in
  let d1 := exec onDeleted d in
  restartTimers d <> [] /\ settings_usable (Some sample_settings) = true
  /\ restartTimers d1 = restartTimers d
  /\ intervalIdDevicePoll
       (exec (fireRestart sample_ext (Some sample_settings) w) d1)
     = Some (VNum 5).
Proof.
  cbn zeta.
  set (d := exec (doPoll sample_ext (calm_world parked driving) VUndef)
                 exhausted_device).
  assert (H : restartTimers d <> []) by (vm_compute; discriminate).
  split; [exact H|]. split; [reflexivity|].
  destruct (deleted_device_restarts sample_ext sample_settings
              (calm_world parked driving) d H eq_refl)
    as (_ & _ & Ht & Hi & _).
  split; [exact Ht|exact Hi].
Defined.

(** * The snapshot, the decision, the publication and the restart at
    concrete inputs *)

(** C2, as amended, at the cycle of [location_down], and at a cycle that
    republishes the cached status. *)
Lemma snapshot_assignments_witness :
  let m := doPoll sample_ext location_down (VBool true) in
  let quiet := doPoll sample_ext (calm_world door_ajar door_ajar) VUndef in
  (In (ApiStatus true (Some driving)) (trace m settled_device)
   /\ In (ApiLocation None) (trace m settled_device)
   /\ lastStatus (exec m settled_device) = driving
   /\ lastLocation (exec m settled_device) = lastLocation settled_device
   /\ lastOdometer (exec m settled_device) = lastOdometer settled_device)
  /\ (not_live (trace quiet settled_device)
      /\ lastStatus (exec quiet settled_device) = door_ajar
      /\ lastLocation (exec quiet settled_device)
         = lastLocation settled_device).
Proof.
  cbn zeta. split.
  - assert (H1 : In (ApiStatus true (Some driving))
                   (trace (doPoll sample_ext location_down (VBool true))
                          settled_device)) by found.
    assert (H2 : In (ApiLocation None)
                   (trace (doPoll sample_ext location_down (VBool true))
                          settled_device)) by found.
    split; [exact H1|]. split; [exact H2|].
    exact (proj1 (proj2 (snapshot_assignments sample_ext location_down
                           (VBool true) settled_device)) driving H1 H2).
  - assert (H : not_live (trace (doPoll sample_ext
                                   (calm_world door_ajar door_ajar) VUndef)
                                settled_device))
      by (vm_compute; repeat constructor).
    split; [exact H|].
    pose proof (proj2 (proj2 (proj2 (proj2
                  (snapshot_assignments sample_ext
                     (calm_world door_ajar door_ajar) VUndef
                     settled_device)))) H) as (Hl & _ & Hs).
    split; [|exact Hl].
    assert (Hok : outcome (doPoll_try sample_ext
                             (calm_world door_ajar door_ajar) VUndef)
                          settled_device = Ok tt) by (vm_compute; reflexivity).
    rewrite Hok in Hs. destruct Hs as (Hc & _).
    apply (f_equal (fun a => match a with Some v => v | None => VUndef end))
      in Hc.
    symmetry. exact Hc.
Defined.


(** C5 on a device whose first cycle got the status and then lost the
    location: the next cycle is not forced and no interval is configured,
    and [forceRefresh] is true because the location and the odometer are
    still absent. *)
Lemma forceRefresh_condition_witness :
  let steps := [Poll location_down (VBool true)] in
  let d := run sample_ext steps fresh_device in
  let w := calm_world driving driving in
  snapshot_shaped fresh_device = true
  /\ forallb step_answers_objects steps = true
  /\ outcome (forceRefresh_of sample_ext w VUndef (lastStatus d)
                (lastLocation d) (lastOdometer d)) d = Ok (VBool true)
  /\ spec_forceRefresh sample_ext w VUndef d = true
  /\ forall a, ~ In (ApiStatus false a) (trace (doPoll sample_ext w VUndef) d).
Proof.
  cbn zeta.
  assert (H0 : snapshot_shaped fresh_device = true) by reflexivity.
  assert (H1 : forallb step_answers_objects [Poll location_down (VBool true)]
               = true) by reflexivity.
  assert (H2 : outcome
                 (forceRefresh_of sample_ext (calm_world driving driving) VUndef
                    (lastStatus (run sample_ext [Poll location_down (VBool true)]
                                     fresh_device))
                    (lastLocation (run sample_ext [Poll location_down (VBool true)]
                                       fresh_device))
                    (lastOdometer (run sample_ext [Poll location_down (VBool true)]
                                       fresh_device)))
                 (run sample_ext [Poll location_down (VBool true)] fresh_device)
               = Ok (VBool true)) by (vm_compute; reflexivity).
  split; [exact H0|]. split; [exact H1|]. split; [exact H2|].
  destruct (forceRefresh_condition sample_ext
              [Poll location_down (VBool true)] fresh_device
              (calm_world driving driving) VUndef (VBool true) H0 H1 H2)
    as (_ & Hspec & _ & Hskip & _).
  split; [symmetry; exact Hspec|exact (Hskip eq_refl)].
Defined.

(** C6, as amended, when the engine alone changes, from off to on: with
    the odometer there, and with the odometer answered as [null]. *)
Lemma directional_triggers_witness :
  let w := calm_world parked driving in
  let info odometer :=
    handleInfo sample_ext w driving (location_of 60 53 6 0) odometer in
  map snd (monitored driving)
  = [VBool true; VBool false; VBool false; VBool false]
  /\ map (fun p => getCapabilityValue parked_device (fst p))
         (monitored driving)
     = [VBool false; VBool false; VBool false; VBool false]
  /\ List.filter is_trigger (trace (info (odometer_of 61 12345)) parked_device)
     = [Trigger "engine_true"]
  /\ List.filter is_trigger (trace (info VNull) parked_device) = [].
Proof.
  cbn zeta.
  assert (Hnew : map snd (monitored driving)
                 = [VBool true; VBool false; VBool false; VBool false])
    by (vm_compute; reflexivity).
  assert (Hold : map (fun p => getCapabilityValue parked_device (fst p))
                     (monitored driving)
                 = [VBool false; VBool false; VBool false; VBool false])
    by (vm_compute; reflexivity).
  split; [exact Hnew|]. split; [exact Hold|]. split.
  - assert (H : outcome (handleInfo_try sample_ext (calm_world parked driving)
                           driving (location_of 60 53 6 0)
                           (odometer_of 61 12345)) parked_device = Ok tt)
      by (vm_compute; reflexivity).
    refine (proj1 (proj1 (directional_triggers sample_ext
                            (calm_world parked driving)
                            driving (location_of 60 53 6 0)
                            (odometer_of 61 12345) parked_device
                            true false false false false false false false
                            Hnew Hold) H)
              _ eq_refl eq_refl eq_refl).
    discriminate.
  - assert (H : outcome (handleInfo_try sample_ext (calm_world parked driving)
                           driving (location_of 60 53 6 0) VNull)
                        parked_device <> Ok tt)
      by (vm_compute; discriminate).
    exact (proj1 (proj2 (directional_triggers sample_ext
                           (calm_world parked driving)
                           driving (location_of 60 53 6 0) VNull parked_device
                           true false false false false false false false
                           Hnew Hold) H)).
Defined.

(** C7, as amended, when the car goes from parked to driving. *)
Lemma capability_writes_witness :
  let w := calm_world parked driving in
  let t := trace (handleInfo sample_ext w driving (location_of 60 53 6 0)
                    (odometer_of 61 12345)) parked_device in
  outcome (handleInfo_try sample_ext w driving (location_of 60 53 6 0)
             (odometer_of 61 12345)) parked_device = Ok tt
  /\ List.filter is_write t
     = map (fun p => SetCapabilityValue (fst p) (snd p))
           (List.filter (changed parked_device)
              (derived_properties sample_ext w parked_device driving
                 (location_of 60 53 6 0) (odometer_of 61 12345))).
Proof.
  cbn zeta.
  assert (H : outcome (handleInfo_try sample_ext (calm_world parked driving)
                         driving (location_of 60 53 6 0)
                         (odometer_of 61 12345)) parked_device = Ok tt)
    by (vm_compute; reflexivity).
  split; [exact H|].
  exact (proj1 (capability_writes sample_ext (calm_world parked driving)
                  driving (location_of 60 53 6 0) (odometer_of 61 12345)
                  parked_device H)).
Defined.

(** C8, as amended, at a device stuck with [busy] set, and at the restart
    that follows with the settings of the samples. *)
Lemma watchdog_exhausted_restarts_witness :
  let w := calm_world parked parked in
  let d' := exec (doPoll sample_ext w VUndef) stuck_device in
  let restart := fireRestart sample_ext (Some sample_settings) w in
  watchDogCounter stuck_device <= 0
  /\ busy d' = busy stuck_device
  /\ busy (exec restart d') = false
  /\ intervalIdDevicePoll (exec restart d') = Some (VNum 5).
Proof.
  cbn zeta.
  assert (H : watchDogCounter stuck_device <= 0) by (vm_compute; discriminate).
  split; [exact H|].
  destruct (watchdog_exhausted_restarts sample_ext (calm_world parked parked)
              VUndef stuck_device H) as (_ & _ & _ & Hb & _ & _ & Hrestart).
  split; [exact Hb|].
  specialize (Hrestart (Some sample_settings) (calm_world parked parked)).
  cbn zeta in Hrestart.
  change (settings_usable (Some sample_settings)) with true in Hrestart.
  cbv iota in Hrestart.
  destruct Hrestart as (s & d_init & pre & Hs & Hbusy & Hint & _).
  injection Hs as <-.
  split; [exact Hbusy|exact Hint].
Defined.
